(** * Shelving-unit configurator: drag resolver, layout inserter, geometry,
      dimension annotations and the text exporter.

    Shallow embedding of the TypeScript components [ShelvingUnitPro]
    (with [ShelfWithDivisions], [ColumnWithDivisions], [ShelvingUnitModel]),
    [ShelvingUnit3D], [ShelvingUnitDesigner], [DimensionLine] and of the
    exporter [createDesignSpec].

    Numbers.  A JavaScript [number] is an IEEE binary64 number.  Module
    [Doubles] embeds the drag handlers, the layout inserter, the label of
    [DimensionLine] and the percentages of the report on Rocq's primitive
    binary64 numbers; every property that rests on a threshold, on a
    comparison of computed widths, on [Math.round] or on printed digits
    is stated there.  The toplevel embedding of the same handlers and of
    the geometry takes exact rationals [Q] (the lines drawn by
    [DimensionLine], which need square roots, the real numbers [R]).  It
    carries the properties that rounding does not touch: which elements
    and fields an update rewrites, what is recorded and what is forgotten,
    the ranges that clamping enforces, the coordinates of the boxes.

    State.  A React component is modelled by the record of its [useState]
    cells.  In the toplevel embedding an event handler is a function from
    the state in which it was created (its closure) to the state after all
    its queued updates ran, and handlers are run one event at a time, each
    on the state the previous one left.  In [Doubles] the cells of the
    handler's closure and the cells its updaters receive are two
    arguments, since the listeners of [ShelfWithDivisions] keep the
    handlers of earlier renders. *)

From Stdlib Require Import Floats.
From Stdlib Require Import Reals Lra.
From Stdlib Require Import ZArith QArith Qabs Qminmax Qround Lqa Lia.
From Stdlib Require Qpower.
From Stdlib Require Import List String Ascii DecimalString DecimalPos DecimalN.
From stdpp Require Import gmap strings.
Import ListNotations.

Local Open Scope Q_scope.

(** ** JavaScript number idioms over [Q] *)

(** [a > b] on numbers. *)
Definition Qgtb (a b : Q) : bool := negb (Qle_bool a b).

(** [a < b] on numbers. *)
Definition Qltb (a b : Q) : bool := negb (Qle_bool b a).

(** Truthiness of a number: every number but zero is truthy. *)
Definition truthy (x : Q) : bool := negb (Qeq_bool x 0).

(** [!o] for a possibly undefined number [o]. *)
Definition js_not (o : option Q) : bool :=
  match o with
  | Some v => negb (truthy v)
  | None => true
  end.

(** [o || d] for a possibly undefined number [o] and a number [d]. *)
Definition js_or (o : option Q) (d : Q) : Q :=
  match o with
  | Some v => if truthy v then v else d
  | None => d
  end.

(** ** Data model (types of [ShelvingUnitPro]) *)

Record Shelf := mkShelf {
  shelf_id : string;
  shelf_position : Q;   (* 0-1 percentage of the container height *)
  shelf_divisions : Z   (* number of vertical divisions *)
}.

Record Column := mkColumn {
  column_id : string;
  column_position : Q;  (* 0-1 percentage of the container width *)
  column_divisions : Z  (* number of horizontal divisions *)
}.

Inductive ViewMode := View3d | ViewOrthographic.

Inductive Material := wood | white | black | walnut | oak.

Record ShelvingUnitState := mkUnit {
  width : Q;
  height : Q;
  depth : Q;
  thickness : Q;
  shelves : list Shelf;
  columns : list Column;
  showWireframe : bool;
  showDimensions : bool;
  viewMode : ViewMode;
  material : Material
}.

(** The [useState] cells of [ShelvingUnitPro] that the handlers touch:
    [unit] and [dragStartPosition : Record<string, number>]. *)
Record ProState := mkPro {
  pro_unit : ShelvingUnitState;
  dragStartPosition : gmap string Q
}.

Definition set_shelves (u : ShelvingUnitState) (l : list Shelf) : ShelvingUnitState :=
  mkUnit (width u) (height u) (depth u) (thickness u) l (columns u)
         (showWireframe u) (showDimensions u) (viewMode u) (material u).

Definition set_columns (u : ShelvingUnitState) (l : list Column) : ShelvingUnitState :=
  mkUnit (width u) (height u) (depth u) (thickness u) (shelves u) l
         (showWireframe u) (showDimensions u) (viewMode u) (material u).

(** [LAYOUTS.basic] and the initial state of [ShelvingUnitPro]. *)
Definition LAYOUTS_basic_shelves : list Shelf := [mkShelf "s1" 0.5 2].
Definition LAYOUTS_basic_columns : list Column := [mkColumn "c1" 0.5 1].

Definition initialUnit : ShelvingUnitState :=
  mkUnit 3 2 1 0.05 LAYOUTS_basic_shelves LAYOUTS_basic_columns
         false true View3d wood.

Definition initialState : ProState := mkPro initialUnit ∅.


(** The basic preset with 3 divisions on its shelf. *)
Definition threeDivisionUnit : ShelvingUnitState :=
  set_shelves initialUnit [mkShelf "s1" 0.5 3].

(** ** Drag handlers *)

(** The cascade of [if (dragDistance > t) newDivisions = n] statements. *)
Definition newDivisions (dragDistance : Q) : Z :=
  let n := 1%Z in
  let n := if Qgtb dragDistance 0.05 then 2%Z else n in
  let n := if Qgtb dragDistance 0.1 then 3%Z else n in
  let n := if Qgtb dragDistance 0.15 then 4%Z else n in
  let n := if Qgtb dragDistance 0.2 then 5%Z else n in
  n.

(** [unit.shelves.find((s) => s.id === id)?.position || 0] *)
Definition shelfStart (l : list Shelf) (id : string) : Q :=
  js_or (option_map shelf_position
           (List.find (fun s => String.eqb (shelf_id s) id) l)) 0.

Definition columnStart (l : list Column) (id : string) : Q :=
  js_or (option_map column_position
           (List.find (fun c => String.eqb (column_id c) id) l)) 0.

(** The body of the [prev.shelves.map] callback of [handleShelfDrag];
    [dsp] is the [dragStartPosition] of the handler's closure. *)
Definition dragShelf (dsp : gmap string Q) (id : string) (normalizedY : Q)
    (shelf : Shelf) : Shelf :=
  if String.eqb (shelf_id shelf) id then
    let startPos := js_or (dsp !! id) (shelf_position shelf) in
    let dragDistance := Qabs (normalizedY - startPos) in
    mkShelf (shelf_id shelf) normalizedY (newDivisions dragDistance)
  else shelf.

Definition dragColumn (dsp : gmap string Q) (id : string) (normalizedX : Q)
    (column : Column) : Column :=
  if String.eqb (column_id column) id then
    let startPos := js_or (dsp !! id) (column_position column) in
    let dragDistance := Qabs (normalizedX - startPos) in
    mkColumn (column_id column) normalizedX (newDivisions dragDistance)
  else column.

(** [handleShelfDrag(id, normalizedY)].  The test [!dragStartPosition[id]]
    and the lookup inside the [map] read the closure's map; the two
    functional updaters receive the current cells. *)
Definition handleShelfDrag (st : ProState) (id : string) (normalizedY : Q)
    : ProState :=
  let dsp := dragStartPosition st in
  let dsp' :=
    if js_not (dsp !! id)
    then <[ id := shelfStart (shelves (pro_unit st)) id ]> dsp
    else dsp in
  let unit' :=
    set_shelves (pro_unit st)
      (List.map (dragShelf dsp id normalizedY) (shelves (pro_unit st))) in
  mkPro unit' dsp'.

(** [handleColumnDrag(id, normalizedX)]. *)
Definition handleColumnDrag (st : ProState) (id : string) (normalizedX : Q)
    : ProState :=
  let dsp := dragStartPosition st in
  let dsp' :=
    if js_not (dsp !! id)
    then <[ id := columnStart (columns (pro_unit st)) id ]> dsp
    else dsp in
  let unit' :=
    set_columns (pro_unit st)
      (List.map (dragColumn dsp id normalizedX) (columns (pro_unit st))) in
  mkPro unit' dsp'.

(** [handleDragEnd()]: [setDragStartPosition({})]. *)
Definition handleDragEnd (st : ProState) : ProState :=
  mkPro (pro_unit st) ∅.

(** ** Layout inserter ([addShelf], [addColumn]) *)

(** [xs.sort((a, b) => a - b)]: the stable ascending sort of numbers. *)
Fixpoint insertSorted (x : Q) (l : list Q) : list Q :=
  match l with
  | [] => [x]
  | y :: tl => if Qle_bool x y then x :: l else y :: insertSorted x tl
  end.

Definition sortNumbers (l : list Q) : list Q := fold_right insertSorted [] l.

(** One turn of the loop over interior gaps; [acc] is [(maxGap, gapPosition)]. *)
Definition gapStep (acc : Q * Q) (a b : Q) : Q * Q :=
  let gap := b - a in
  if Qgtb gap (fst acc) then (gap, a + gap / 2) else acc.

(** [for (let i = 0; i < existingPositions.length - 1; i++)] *)
Fixpoint scanGaps (existingPositions : list Q) (acc : Q * Q) : Q * Q :=
  match existingPositions with
  | a :: ((b :: _) as tl) => scanGaps tl (gapStep acc a b)
  | _ => acc
  end.

(** The value of [newPosition] that [addShelf] and [addColumn] compute
    from the sorted [existingPositions]. *)
Definition newPosition (existingPositions : list Q) : Q :=
  match existingPositions with
  | [] => 0.5
  | first :: _ =>
      let acc := (0, 0.5) in
      let acc := if Qgtb first 0 then (first, first / 2) else acc in
      let acc := scanGaps existingPositions acc in
      let lst := List.last existingPositions 0 in
      let acc :=
        if Qltb lst 1 then
          let gap := 1 - lst in
          if Qgtb gap (fst acc) then (gap, lst + gap / 2) else acc
        else acc in
      snd acc
  end.

(** Decimal rendering of an integer, as a template literal does it. *)
Definition string_of_Z (z : Z) : string :=
  NilZero.string_of_int (Z.to_int z).

(** [addShelf()]; [now] is the value of [Date.now()]. *)
Definition addShelf (st : ProState) (now : Z) : ProState :=
  let u := pro_unit st in
  let existingPositions := sortNumbers (List.map shelf_position (shelves u)) in
  let newShelf :=
    mkShelf ("s" ++ string_of_Z now) (newPosition existingPositions) 2 in
  mkPro (set_shelves u (shelves u ++ [newShelf])) (dragStartPosition st).

(** [addColumn()]. *)
Definition addColumn (st : ProState) (now : Z) : ProState :=
  let u := pro_unit st in
  let existingPositions := sortNumbers (List.map column_position (columns u)) in
  let newColumn :=
    mkColumn ("c" ++ string_of_Z now) (newPosition existingPositions) 2 in
  mkPro (set_columns u (columns u ++ [newColumn])) (dragStartPosition st).

(** The gap selection in the words of the specification: the candidate
    gaps in scan order, and the selection in which a later gap replaces
    the current best only when it is strictly wider. *)
Definition gapWidth (g : Q * Q) : Q := snd g - fst g.
Definition gapMidpoint (g : Q * Q) : Q := (fst g + snd g) / 2.

Fixpoint interiorGaps (pos : list Q) : list (Q * Q) :=
  match pos with
  | a :: ((b :: _) as tl) => (a, b) :: interiorGaps tl
  | _ => []
  end.

Definition candidateGaps (pos : list Q) : list (Q * Q) :=
  match pos with
  | [] => []
  | first :: _ => (0, first) :: interiorGaps pos ++ [(List.last pos 0, 1)]
  end.

Definition widerOf (best g : Q * Q) : Q * Q :=
  if Qgtb (gapWidth g) (gapWidth best) then g else best.

Definition spec_widestGap (first : Q * Q) (rest : list (Q * Q)) : Q * Q :=
  fold_left widerOf rest first.

Definition spec_insertPosition (pos : list Q) : Q :=
  match candidateGaps pos with
  | [] => 0.5
  | g :: rest => gapMidpoint (spec_widestGap g rest)
  end.

(** Ascending order and the range [0,1], as executable tests. *)
Fixpoint sortedb (l : list Q) : bool :=
  match l with
  | a :: ((b :: _) as tl) => Qle_bool a b && sortedb tl
  | _ => true
  end.

Definition inUnitb (x : Q) : bool := Qle_bool 0 x && Qle_bool x 1.

(** The scan of the code and the selection of the specification agree
    when [acc] mirrors [best]; [cur] is the position the scan stands on. *)
Definition mirrors (acc best : Q * Q) (cur : Q) : Prop :=
  fst acc == gapWidth best /\
  0 <= fst acc /\
  (0 < fst acc -> snd acc == gapMidpoint best) /\
  (fst acc == 0 -> cur <= 0).

(** ** Geometry ([ShelfWithDivisions], [ColumnWithDivisions], [ShelvingUnitModel]) *)

Definition Triple : Type := Q * Q * Q.

(** A [<mesh>] with a [<boxGeometry args=...>]. *)
Record Mesh := mkMesh {
  mesh_position : Triple;
  boxGeometry : Triple
}.

(** A [<group position=...>] holding the main board and its division meshes. *)
Record Group := mkGroup {
  group_position : Triple;
  mainMesh : Mesh;
  divisionMeshes : list Mesh
}.

(** The indices [i] of [for (let i = 1; i < divisions; i++)]. *)
Definition loopIndices (divisions : Z) : list Z :=
  seqZ 1 (divisions - 1).

(** [ShelfWithDivisions]: the props are the function's arguments. *)
Definition ShelfWithDivisions (width height depth : Q) (position : Triple)
    (divisions : Z) (thickness : Q) : Group :=
  let divisionThickness := thickness in
  let divisionMeshes :=
    if (1 <? divisions)%Z then
      let divisionWidth := width / inject_Z divisions in
      List.map (fun i =>
        let divisionX := - width / 2 + inject_Z i * divisionWidth in
        mkMesh (divisionX, 0, 0) (divisionThickness, divisionThickness, depth))
        (loopIndices divisions)
    else [] in
  mkGroup position (mkMesh (0, 0, 0) (width, thickness, depth)) divisionMeshes.

(** [ColumnWithDivisions]. *)
Definition ColumnWithDivisions (width height depth : Q) (position : Triple)
    (divisions : Z) (thickness : Q) : Group :=
  let divisionThickness := thickness in
  let divisionMeshes :=
    if (1 <? divisions)%Z then
      let divisionHeight := height / inject_Z divisions in
      List.map (fun i =>
        let divisionY := - height / 2 + inject_Z i * divisionHeight in
        mkMesh (0, divisionY, 0) (divisionThickness, divisionThickness, depth))
        (loopIndices divisions)
    else [] in
  mkGroup position (mkMesh (0, 0, 0) (thickness, height, depth)) divisionMeshes.

(** What [ShelvingUnitModel] hands to the renderer in the 3d view. *)
Record Model := mkModel {
  bottom : Mesh;
  top : Mesh;
  leftSide : Mesh;
  rightSide : Mesh;
  back : Mesh;
  shelfComponents : list Group;
  columnComponents : list Group
}.

Definition shelfComponent (u : ShelvingUnitState) (shelf : Shelf) : Group :=
  let yPosition := - height u / 2 + shelf_position shelf * height u in
  ShelfWithDivisions (width u - thickness u * 2) (height u)
    (depth u - thickness u * 2) (0, yPosition, 0)
    (shelf_divisions shelf) (thickness u).

Definition columnComponent (u : ShelvingUnitState) (column : Column) : Group :=
  let xPosition := - width u / 2 + column_position column * width u in
  ColumnWithDivisions (width u) (height u)
    (depth u - thickness u * 2) (xPosition, 0, 0)
    (column_divisions column) (thickness u).

Definition ShelvingUnitModel (u : ShelvingUnitState) : Model :=
  let w := width u in
  let h := height u in
  let d := depth u in
  let t := thickness u in
  mkModel
    (mkMesh (0, - h / 2, 0) (w, t, d))
    (mkMesh (0, h / 2, 0) (w, t, d))
    (mkMesh (- w / 2 + t / 2, 0, 0) (t, h, d))
    (mkMesh (w / 2 - t / 2, 0, 0) (t, h, d))
    (mkMesh (0, 0, - d / 2 + t / 2) (w, h, t))
    (List.map (shelfComponent u) (shelves u))
    (List.map (columnComponent u) (columns u)).

(** Componentwise equality of number triples. *)
Definition Teq (a b : Triple) : Prop :=
  fst (fst a) == fst (fst b) /\ snd (fst a) == snd (fst b) /\ snd a == snd b.

(** ** The other handlers of [ShelvingUnitPro] *)

(** [xs.slice(0, -1)]: all but the last element. *)
Definition slice_0_m1 {A : Type} (l : list A) : list A := removelast l.

(** [removeShelf()]: the test reads the closure's [unit], the updater the
    current one. *)
Definition removeShelf (st : ProState) : ProState :=
  let u := pro_unit st in
  if (0 <? List.length (shelves u))%nat
  then mkPro (set_shelves u (slice_0_m1 (shelves u))) (dragStartPosition st)
  else st.

(** [removeColumn()]. *)
Definition removeColumn (st : ProState) : ProState :=
  let u := pro_unit st in
  if (0 <? List.length (columns u))%nat
  then mkPro (set_columns u (slice_0_m1 (columns u))) (dragStartPosition st)
  else st.

(** The keys and values of [LAYOUTS]. *)
Inductive LayoutName := basic | bookshelf | display | grid.

Definition LAYOUTS_shelves (layout : LayoutName) : list Shelf :=
  match layout with
  | basic => LAYOUTS_basic_shelves
  | bookshelf => [mkShelf "s1" 0.25 1; mkShelf "s2" 0.5 3; mkShelf "s3" 0.75 2]
  | display => [mkShelf "s1" 0.33 2; mkShelf "s2" 0.66 4]
  | grid => [mkShelf "s1" 0.33 3; mkShelf "s2" 0.66 3]
  end.

Definition LAYOUTS_columns (layout : LayoutName) : list Column :=
  match layout with
  | basic => LAYOUTS_basic_columns
  | bookshelf => []
  | display => [mkColumn "c1" 0.33 2; mkColumn "c2" 0.66 2]
  | grid => [mkColumn "c1" 0.33 2; mkColumn "c2" 0.66 2]
  end.

(** [applyLayout(layout)] *)
Definition applyLayout (st : ProState) (layout : LayoutName) : ProState :=
  let u := pro_unit st in
  mkPro
    (mkUnit (width u) (height u) (depth u) (thickness u)
       (LAYOUTS_shelves layout) (LAYOUTS_columns layout)
       (showWireframe u) (showDimensions u) (viewMode u) (material u))
    (dragStartPosition st).

(** [resetUnit()] *)
Definition resetUnit (st : ProState) : ProState :=
  let u := pro_unit st in
  mkPro
    (mkUnit 3 2 1 (thickness u) LAYOUTS_basic_shelves LAYOUTS_basic_columns
       (showWireframe u) (showDimensions u) (viewMode u) (material u))
    (dragStartPosition st).

(** [toggleWireframe()], [toggleDimensions()], [toggleViewMode()],
    [changeMaterial(material)], [applyThicknessPreset(thickness)]. *)
Definition toggleWireframe (st : ProState) : ProState :=
  let u := pro_unit st in
  mkPro
    (mkUnit (width u) (height u) (depth u) (thickness u) (shelves u) (columns u)
       (negb (showWireframe u)) (showDimensions u) (viewMode u) (material u))
    (dragStartPosition st).

Definition toggleDimensions (st : ProState) : ProState :=
  let u := pro_unit st in
  mkPro
    (mkUnit (width u) (height u) (depth u) (thickness u) (shelves u) (columns u)
       (showWireframe u) (negb (showDimensions u)) (viewMode u) (material u))
    (dragStartPosition st).

Definition toggleViewMode (st : ProState) : ProState :=
  let u := pro_unit st in
  mkPro
    (mkUnit (width u) (height u) (depth u) (thickness u) (shelves u) (columns u)
       (showWireframe u) (showDimensions u)
       (match viewMode u with View3d => ViewOrthographic | _ => View3d end)
       (material u))
    (dragStartPosition st).

Definition changeMaterial (st : ProState) (m : Material) : ProState :=
  let u := pro_unit st in
  mkPro
    (mkUnit (width u) (height u) (depth u) (thickness u) (shelves u) (columns u)
       (showWireframe u) (showDimensions u) (viewMode u) m)
    (dragStartPosition st).

Definition applyThicknessPreset (st : ProState) (t : Q) : ProState :=
  let u := pro_unit st in
  mkPro
    (mkUnit (width u) (height u) (depth u) t (shelves u) (columns u)
       (showWireframe u) (showDimensions u) (viewMode u) (material u))
    (dragStartPosition st).

(** The [onValueChange] handlers of the four sliders. *)
Definition onWidthChange (st : ProState) (v : Q) : ProState :=
  let u := pro_unit st in
  mkPro
    (mkUnit v (height u) (depth u) (thickness u) (shelves u) (columns u)
       (showWireframe u) (showDimensions u) (viewMode u) (material u))
    (dragStartPosition st).

Definition onHeightChange (st : ProState) (v : Q) : ProState :=
  let u := pro_unit st in
  mkPro
    (mkUnit (width u) v (depth u) (thickness u) (shelves u) (columns u)
       (showWireframe u) (showDimensions u) (viewMode u) (material u))
    (dragStartPosition st).

Definition onDepthChange (st : ProState) (v : Q) : ProState :=
  let u := pro_unit st in
  mkPro
    (mkUnit (width u) (height u) v (thickness u) (shelves u) (columns u)
       (showWireframe u) (showDimensions u) (viewMode u) (material u))
    (dragStartPosition st).

Definition onThicknessChange (st : ProState) (v : Q) : ProState :=
  applyThicknessPreset st v.

(** The events of [ShelvingUnitPro] and the handler each one runs. *)
Inductive ProEvent :=
| EvShelfDrag (id : string) (normalizedY : Q)
| EvColumnDrag (id : string) (normalizedX : Q)
| EvDragEnd
| EvAddShelf (now : Z)
| EvAddColumn (now : Z)
| EvRemoveShelf
| EvRemoveColumn
| EvApplyLayout (layout : LayoutName)
| EvResetUnit
| EvToggleWireframe
| EvToggleDimensions
| EvToggleViewMode
| EvChangeMaterial (m : Material)
| EvThicknessPreset (t : Q)
| EvWidth (v : Q)
| EvHeight (v : Q)
| EvDepth (v : Q)
| EvThickness (v : Q).

Definition proStep (st : ProState) (ev : ProEvent) : ProState :=
  match ev with
  | EvShelfDrag id y => handleShelfDrag st id y
  | EvColumnDrag id x => handleColumnDrag st id x
  | EvDragEnd => handleDragEnd st
  | EvAddShelf now => addShelf st now
  | EvAddColumn now => addColumn st now
  | EvRemoveShelf => removeShelf st
  | EvRemoveColumn => removeColumn st
  | EvApplyLayout layout => applyLayout st layout
  | EvResetUnit => resetUnit st
  | EvToggleWireframe => toggleWireframe st
  | EvToggleDimensions => toggleDimensions st
  | EvToggleViewMode => toggleViewMode st
  | EvChangeMaterial m => changeMaterial st m
  | EvThicknessPreset t => applyThicknessPreset st t
  | EvWidth v => onWidthChange st v
  | EvHeight v => onHeightChange st v
  | EvDepth v => onDepthChange st v
  | EvThickness v => onThicknessChange st v
  end.

Definition proRun (st : ProState) (evs : list ProEvent) : ProState :=
  fold_left proStep evs st.

(** Every shelf and every column has between 1 and 5 divisions. *)
Definition divisionsOk (st : ProState) : Prop :=
  Forall (fun s => (1 <= shelf_divisions s <= 5)%Z) (shelves (pro_unit st)) /\
  Forall (fun c => (1 <= column_divisions c <= 5)%Z) (columns (pro_unit st)).

(** The sum of the widths of a list of gaps. *)
Fixpoint sumWidths (gs : list (Q * Q)) : Q :=
  match gs with
  | [] => 0
  | g :: rest => gapWidth g + sumWidths rest
  end.

(** The ids of the shelves are pairwise different, and so are the ids of
    the columns. *)
Definition idsUnique (st : ProState) : Prop :=
  List.NoDup (List.map shelf_id (shelves (pro_unit st))) /\
  List.NoDup (List.map column_id (columns (pro_unit st))).

(** The id that an addition builds from the clock is not in use. *)
Definition freshFor (st : ProState) (ev : ProEvent) : Prop :=
  match ev with
  | EvAddShelf now =>
      ~ In ("s" ++ string_of_Z now)%string
           (List.map shelf_id (shelves (pro_unit st)))
  | EvAddColumn now =>
      ~ In ("c" ++ string_of_Z now)%string
           (List.map column_id (columns (pro_unit st)))
  | _ => True
  end.

(** [Math.round] on the rational model, and the millimeter values
    [widthMM], [heightMM], [depthMM], [thicknessMM] of the side panel. *)
Definition UNIT_TO_MM : Q := 1000.

Definition Math_roundQ (x : Q) : Z := Qfloor (x + (1 # 2)).

Definition widthMM (u : ShelvingUnitState) : Z := Math_roundQ (width u * UNIT_TO_MM).
Definition heightMM (u : ShelvingUnitState) : Z := Math_roundQ (height u * UNIT_TO_MM).
Definition depthMM (u : ShelvingUnitState) : Z := Math_roundQ (depth u * UNIT_TO_MM).
Definition thicknessMM (u : ShelvingUnitState) : Z :=
  Math_roundQ (thickness u * UNIT_TO_MM).



(** The space a box mesh takes: its centre is the position of its group
    plus its own position, its sides are the [boxGeometry] arguments. *)
Definition tx (t : Triple) : Q := fst (fst t).
Definition ty (t : Triple) : Q := snd (fst t).
Definition tz (t : Triple) : Q := snd t.

Definition xMin (origin : Triple) (m : Mesh) : Q :=
  tx origin + tx (mesh_position m) - tx (boxGeometry m) / 2.
Definition xMax (origin : Triple) (m : Mesh) : Q :=
  tx origin + tx (mesh_position m) + tx (boxGeometry m) / 2.
Definition yMin (origin : Triple) (m : Mesh) : Q :=
  ty origin + ty (mesh_position m) - ty (boxGeometry m) / 2.
Definition yMax (origin : Triple) (m : Mesh) : Q :=
  ty origin + ty (mesh_position m) + ty (boxGeometry m) / 2.
Definition zMin (origin : Triple) (m : Mesh) : Q :=
  tz origin + tz (mesh_position m) - tz (boxGeometry m) / 2.
Definition zMax (origin : Triple) (m : Mesh) : Q :=
  tz origin + tz (mesh_position m) + tz (boxGeometry m) / 2.

Definition sceneOrigin : Triple := (0, 0, 0).

(** ** The first 3d component ([ShelvingUnit3D]) *)

Module ShelvingUnit3D.

Inductive Material := wood | white | black.

Record ShelvingUnitState := mkUnit {
  width : Q;
  height : Q;
  depth : Q;
  shelves : list Shelf;
  showWireframe : bool;
  material : Material
}.

Record State := mkState {
  unit3 : ShelvingUnitState;
  dragStartPosition : gmap string Q
}.

(** [handleShelfDrag(id, normalizedY)]; the callback of its [map] has
    the same body as the one of [ShelvingUnitPro]. *)
Definition handleShelfDrag (st : State) (id : string) (normalizedY : Q)
    : State :=
  let dsp := dragStartPosition st in
  let u := unit3 st in
  let dsp' :=
    if js_not (dsp !! id) then <[ id := shelfStart (shelves u) id ]> dsp
    else dsp in
  mkState
    (mkUnit (width u) (height u) (depth u)
       (List.map (dragShelf dsp id normalizedY) (shelves u))
       (showWireframe u) (material u))
    dsp'.

(** [handleShelfDragEnd()]. *)
Definition handleShelfDragEnd (st : State) : State :=
  mkState (unit3 st) ∅.

End ShelvingUnit3D.

(** ** The divider-based 2d component ([ShelvingUnitDesigner]) *)

Module ShelvingUnitDesigner.

Inductive DividerType := horizontal | vertical.

Record Divider := mkDivider {
  id : string;
  position : Q;   (* 0-1 percentage of the container *)
  type : DividerType
}.

Record ShelvingUnitState := mkUnit {
  width : Q;
  height : Q;
  horizontalDividers : list Divider;
  verticalDividers : list Divider
}.

Definition moveDivider (id0 : string) (constrainedPosition : Q)
    (div : Divider) : Divider :=
  if String.eqb (id div) id0
  then mkDivider (id div) constrainedPosition (type div)
  else div.

(** [handleDividerDrag(id, type, newPosition)] *)
Definition handleDividerDrag (prev : ShelvingUnitState) (id0 : string)
    (ty : DividerType) (newPosition : Q) : ShelvingUnitState :=
  let constrainedPosition := Qmax 0.1 (Qmin 0.9 newPosition) in
  match ty with
  | horizontal =>
      mkUnit (width prev) (height prev)
        (List.map (moveDivider id0 constrainedPosition) (horizontalDividers prev))
        (verticalDividers prev)
  | vertical =>
      mkUnit (width prev) (height prev)
        (horizontalDividers prev)
        (List.map (moveDivider id0 constrainedPosition) (verticalDividers prev))
  end.

(** The keys ["width"] and ["height"] of [handleResize]. *)
Inductive Direction := dirWidth | dirHeight.

(** [handleResize(direction, change)] *)
Definition handleResize (prev : ShelvingUnitState) (direction : Direction)
    (change : Q) : ShelvingUnitState :=
  match direction with
  | dirWidth =>
      mkUnit (Qmax 200 (Qmin 800 (width prev + change))) (height prev)
        (horizontalDividers prev) (verticalDividers prev)
  | dirHeight =>
      mkUnit (width prev) (Qmax 200 (Qmin 800 (height prev + change)))
        (horizontalDividers prev) (verticalDividers prev)
  end.

(** [type[0]] *)
Definition typeInitial (ty : DividerType) : string :=
  match ty with
  | horizontal => "h"
  | vertical => "v"
  end.

(** [addDivider(type)]; [now] is the value of [Date.now()]. *)
Definition addDivider (prev : ShelvingUnitState) (ty : DividerType) (now : Z)
    : ShelvingUnitState :=
  let newId := (typeInitial ty ++ string_of_Z now)%string in
  let newDivider := mkDivider newId 0.5 ty in
  match ty with
  | horizontal =>
      mkUnit (width prev) (height prev)
        (horizontalDividers prev ++ [newDivider]) (verticalDividers prev)
  | vertical =>
      mkUnit (width prev) (height prev)
        (horizontalDividers prev) (verticalDividers prev ++ [newDivider])
  end.

(** [removeDivider(type)]: [pop()] on a copy of the list. *)
Definition removeDivider (prev : ShelvingUnitState) (ty : DividerType)
    : ShelvingUnitState :=
  match ty with
  | horizontal =>
      if (0 <? List.length (horizontalDividers prev))%nat
      then mkUnit (width prev) (height prev)
             (removelast (horizontalDividers prev)) (verticalDividers prev)
      else prev
  | vertical =>
      if (0 <? List.length (verticalDividers prev))%nat
      then mkUnit (width prev) (height prev)
             (horizontalDividers prev) (removelast (verticalDividers prev))
      else prev
  end.

Inductive LayoutName := basic | bookshelf | display | grid.

Definition LAYOUTS_horizontal (layout : LayoutName) : list Divider :=
  match layout with
  | basic => [mkDivider "h1" 0.5 horizontal]
  | bookshelf =>
      [mkDivider "h1" 0.25 horizontal; mkDivider "h2" 0.5 horizontal;
       mkDivider "h3" 0.75 horizontal]
  | display => [mkDivider "h1" 0.6 horizontal]
  | grid => [mkDivider "h1" 0.33 horizontal; mkDivider "h2" 0.66 horizontal]
  end.

Definition LAYOUTS_vertical (layout : LayoutName) : list Divider :=
  match layout with
  | basic => [mkDivider "v1" 0.5 vertical]
  | bookshelf => []
  | display => [mkDivider "v1" 0.33 vertical; mkDivider "v2" 0.66 vertical]
  | grid => [mkDivider "v1" 0.33 vertical; mkDivider "v2" 0.66 vertical]
  end.

(** [applyLayout(layout)] and [resetSize()] *)
Definition applyLayout (prev : ShelvingUnitState) (layout : LayoutName)
    : ShelvingUnitState :=
  mkUnit (width prev) (height prev)
    (LAYOUTS_horizontal layout) (LAYOUTS_vertical layout).

Definition resetSize (prev : ShelvingUnitState) : ShelvingUnitState :=
  mkUnit 600 400 (horizontalDividers prev) (verticalDividers prev).

Definition initialUnit : ShelvingUnitState :=
  mkUnit 600 400 (LAYOUTS_horizontal basic) (LAYOUTS_vertical basic).

(** The number of cells in the grid. *)
Definition horizontalSections (u : ShelvingUnitState) : nat :=
  List.length (verticalDividers u) + 1.
Definition verticalSections (u : ShelvingUnitState) : nat :=
  List.length (horizontalDividers u) + 1.
Definition totalCells (u : ShelvingUnitState) : nat :=
  horizontalSections u * verticalSections u.

(** The bar drawn for a divider, as (x, y, width, height) of its [rect]. *)
Definition horizontalBar (u : ShelvingUnitState) (divider : Divider)
    : Q * Q * Q * Q :=
  let yPosition := position divider * height u in
  (0, yPosition - 5, width u, 10).

Definition verticalBar (u : ShelvingUnitState) (divider : Divider)
    : Q * Q * Q * Q :=
  let xPosition := position divider * width u in
  (xPosition - 5, 0, 10, height u).

(** The events of the component and the handler each one runs. *)
Inductive Event :=
| EvResize (direction : Direction) (change : Q)
| EvDividerDrag (id0 : string) (ty : DividerType) (newPosition : Q)
| EvAddDivider (ty : DividerType) (now : Z)
| EvRemoveDivider (ty : DividerType)
| EvApplyLayout (layout : LayoutName)
| EvResetSize.

Definition step (u : ShelvingUnitState) (ev : Event) : ShelvingUnitState :=
  match ev with
  | EvResize direction change => handleResize u direction change
  | EvDividerDrag id0 ty newPosition => handleDividerDrag u id0 ty newPosition
  | EvAddDivider ty now => addDivider u ty now
  | EvRemoveDivider ty => removeDivider u ty
  | EvApplyLayout layout => applyLayout u layout
  | EvResetSize => resetSize u
  end.

Definition run (u : ShelvingUnitState) (evs : list Event) : ShelvingUnitState :=
  fold_left step evs u.

(** Sizes within 200..800 and divider positions within 0.1..0.9. *)
Definition positionsOk (l : list Divider) : Prop :=
  Forall (fun d => 0.1 <= position d /\ position d <= 0.9) l.

Definition unitOk (u : ShelvingUnitState) : Prop :=
  200 <= width u /\ width u <= 800 /\ 200 <= height u /\ height u <= 800 /\
  positionsOk (horizontalDividers u) /\ positionsOk (verticalDividers u).

End ShelvingUnitDesigner.

(** ** The lines of the dimension annotations ([DimensionLine]) over the reals *)

Module DimensionLabels.

Local Open Scope R_scope.

(** The part of three.js's [Vector3] that [DimensionLine] uses; three.js
    is not part of the repository, its methods are written after its
    documented behaviour. *)
Record Vector3 := mkV { vx : R; vy : R; vz : R }.

Definition Vector3_length (v : Vector3) : R :=
  sqrt (vx v * vx v + vy v * vy v + vz v * vz v).

Definition multiplyScalar (v : Vector3) (s : R) : Vector3 :=
  mkV (vx v * s) (vy v * s) (vz v * s).

Definition divideScalar (v : Vector3) (s : R) : Vector3 :=
  multiplyScalar v (1 / s).

(** [normalize()] is [divideScalar(length() || 1)]. *)
Definition normalize (v : Vector3) : Vector3 :=
  divideScalar v
    (if Req_EM_T (Vector3_length v) 0 then 1 else Vector3_length v).

Definition add (v w : Vector3) : Vector3 :=
  mkV (vx v + vx w) (vy v + vy w) (vz v + vz w).

Definition addVectors (a b : Vector3) : Vector3 := add a b.

Definition distanceToSquared (v w : Vector3) : R :=
  let dx := vx v - vx w in
  let dy := vy v - vy w in
  let dz := vz v - vz w in
  dx * dx + dy * dy + dz * dz.

Definition distanceTo (v w : Vector3) : R := sqrt (distanceToSquared v w).

(** The ends and the middle of the dimension line that [DimensionLine]
    computes. *)
Record Dimension := mkDimension {
  startPoint : Vector3;
  endPoint : Vector3;
  midPoint : Vector3
}.

Definition DimensionLine (start end_ : Vector3) (offset : R)
    (offsetDirection : Vector3) : Dimension :=
  let offsetVec := multiplyScalar (normalize offsetDirection) offset in
  let startPoint := add start offsetVec in
  let endPoint := add end_ offsetVec in
  let midPoint := multiplyScalar (addVectors startPoint endPoint) 0.5 in
  mkDimension startPoint endPoint midPoint.

(** More of [Vector3]. *)
Definition sub (v w : Vector3) : Vector3 :=
  mkV (vx v - vx w) (vy v - vy w) (vz v - vz w).

Definition subVectors (a b : Vector3) : Vector3 := sub a b.

Definition negate (v : Vector3) : Vector3 := mkV (- vx v) (- vy v) (- vz v).

Definition dot (v w : Vector3) : R := vx v * vx w + vy v * vy w + vz v * vz w.

(** [applyAxisAngle(axis, angle)] for the axis (0, 0, 1), the only one the
    components use: the rotation about the z axis. *)
Definition applyAxisAngleZ (v : Vector3) (angle : R) : Vector3 :=
  mkV (vx v * cos angle - vy v * sin angle)
      (vx v * sin angle + vy v * cos angle)
      (vz v).

(** The perpendicular that [DimensionLine] and [LineWithThickness] take
    for a direction: the direction turned in the plane, or (1, 0, 0) when
    both its x and y components are below 0.1 in absolute value. *)
Definition perpendicularTo (direction : Vector3) : Vector3 :=
  let perpendicular := normalize (mkV (vy direction) (- vx direction) 0) in
  if Rlt_dec (Rabs (vy direction)) 0.1 then
    if Rlt_dec (Rabs (vx direction)) 0.1 then mkV 1 0 0 else perpendicular
  else perpendicular.

(** The lines that [DimensionLine] draws besides the dimension line. *)
Record DimensionGeometry := mkDimensionGeometry {
  direction : Vector3;
  perpendicular : Vector3;
  startExtA : Vector3;
  startExtB : Vector3;
  endExtA : Vector3;
  endExtB : Vector3;
  arrow1Point1 : Vector3;
  arrow1Point2 : Vector3;
  arrow2Point1 : Vector3;
  arrow2Point2 : Vector3
}.

Definition DimensionLineGeometry (start end_ : Vector3) (offset : R)
    (offsetDirection : Vector3) (arrowSize extensionLineOffset : R)
    : DimensionGeometry :=
  let offsetVec := multiplyScalar (normalize offsetDirection) offset in
  let startPoint := add start offsetVec in
  let endPoint := add end_ offsetVec in
  let direction := normalize (subVectors endPoint startPoint) in
  let perpendicular := perpendicularTo direction in
  let extensionOffset := multiplyScalar perpendicular extensionLineOffset in
  let startExtA := add start extensionOffset in
  let startExtB := add startPoint extensionOffset in
  let endExtA := add end_ extensionOffset in
  let endExtB := add endPoint extensionOffset in
  let arrowAngle := PI / 6 in
  let arrow1Dir := direction in
  let arrow1Point1 :=
    add (multiplyScalar (applyAxisAngleZ arrow1Dir arrowAngle) arrowSize) startPoint in
  let arrow1Point2 :=
    add (multiplyScalar (applyAxisAngleZ arrow1Dir (- arrowAngle)) arrowSize) startPoint in
  let arrow2Dir := negate direction in
  let arrow2Point1 :=
    add (multiplyScalar (applyAxisAngleZ arrow2Dir arrowAngle) arrowSize) endPoint in
  let arrow2Point2 :=
    add (multiplyScalar (applyAxisAngleZ arrow2Dir (- arrowAngle)) arrowSize) endPoint in
  mkDimensionGeometry direction perpendicular startExtA startExtB endExtA endExtB
    arrow1Point1 arrow1Point2 arrow2Point1 arrow2Point2.

(** [LineWithThickness]: the ends of the two side lines. *)
Record ThickLine := mkThickLine {
  start1 : Vector3;
  start2 : Vector3;
  end1 : Vector3;
  end2 : Vector3
}.

Definition LineWithThickness (start end_ : Vector3) (thickness : R) : ThickLine :=
  let startVec := start in
  let endVec := end_ in
  let direction := normalize (subVectors endVec startVec) in
  let perpendicular := perpendicularTo direction in
  let halfThickness := thickness / 2 in
  let offset := multiplyScalar perpendicular halfThickness in
  mkThickLine (add startVec offset) (sub startVec offset)
              (add endVec offset) (sub endVec offset).

End DimensionLabels.

(** ** The text exporter ([createDesignSpec]) *)

Module Exporter.

Local Open Scope string_scope.

(** The line feed of the template literal. *)
Definition nl : string := String "010"%char EmptyString.

Definition string_of_nat (n : nat) : string :=
  NilZero.string_of_uint (Nat.to_uint n).

Fixpoint zeros (n : nat) : string :=
  match n with
  | O => EmptyString
  | S k => String "0"%char (zeros k)
  end.

(** [x.toFixed(fractionDigits)] in its fixed-notation branch (numbers
    below 10^21 in absolute value): the sign, then the integer [n]
    nearest to [|x| * 10^f] (the larger one on a tie), zero-padded to
    at least [f + 1] digits, with a point before the last [f] digits. *)
Definition toFixed (x : Q) (fractionDigits : nat) : string :=
  let f := fractionDigits in
  let s := if Qltb x 0 then "-" else "" in
  let ax := Qabs x in
  let n := Qfloor (ax * inject_Z (10 ^ Z.of_nat f) + (1 # 2)) in
  let m := NilZero.string_of_uint (N.to_uint (Z.to_N n)) in
  let m :=
    match f with
    | O => m
    | _ =>
        let k := String.length m in
        let m := if (k <=? f)%nat then zeros (f + 1 - k) ++ m else m in
        let k := String.length m in
        substring 0 (k - f) m ++ "." ++ substring (k - f) f m
    end in
  s ++ m.

Record Item := mkItem {
  position : Q;
  divisions : Z
}.

(** The argument of [createDesignSpec]. *)
Record SpecUnit := mkSpecUnit {
  width : Q;
  height : Q;
  depth : Q;
  thickness : Q;
  shelves : list Item;
  columns : list Item;
  material : string
}.

Definition shelfLine (i : nat) (shelf : Item) : string :=
  "Shelf " ++ string_of_nat (i + 1) ++ ": Position "
    ++ toFixed (position shelf * 100) 0 ++ "% from bottom, "
    ++ string_of_Z (divisions shelf) ++ " divisions".

Definition columnLine (i : nat) (column : Item) : string :=
  "Column " ++ string_of_nat (i + 1) ++ ": Position "
    ++ toFixed (position column * 100) 0 ++ "% from left, "
    ++ string_of_Z (divisions column) ++ " divisions".

(** [createDesignSpec(unit)]; [generated] is the text that
    [new Date().toLocaleString()] returns when the report is made. *)
Definition createDesignSpec (unit : SpecUnit) (generated : string) : string :=
  "Shelving Unit Design Specifications" ++ nl
  ++ "=============================" ++ nl
  ++ nl
  ++ "DIMENSIONS" ++ nl
  ++ "Width: " ++ toFixed (width unit) 2 ++ " units" ++ nl
  ++ "Height: " ++ toFixed (height unit) 2 ++ " units" ++ nl
  ++ "Depth: " ++ toFixed (depth unit) 2 ++ " units" ++ nl
  ++ "Material thickness: " ++ toFixed (thickness unit) 2 ++ " units" ++ nl
  ++ "Material: " ++ material unit ++ nl
  ++ nl
  ++ "SHELVES (" ++ string_of_nat (List.length (shelves unit)) ++ ")" ++ nl
  ++ String.concat nl (imap shelfLine (shelves unit)) ++ nl
  ++ nl
  ++ "COLUMNS (" ++ string_of_nat (List.length (columns unit)) ++ ")" ++ nl
  ++ String.concat nl (imap columnLine (columns unit)) ++ nl
  ++ nl
  ++ "Generated: " ++ generated ++ nl.

(** Reading a report: its lines, and whether a text occurs in it. *)
Fixpoint lines (s : string) : list string :=
  match s with
  | EmptyString => [EmptyString]
  | String c s' =>
      if Ascii.eqb c "010"%char then EmptyString :: lines s'
      else match lines s' with
           | l :: ls => String c l :: ls
           | [] => [String c EmptyString]
           end
  end.

Fixpoint oneLine (s : string) : bool :=
  match s with
  | EmptyString => true
  | String c s' => negb (Ascii.eqb c "010"%char) && oneLine s'
  end.


(** The millimeter value of a dimension, [Math.round(x * UNIT_TO_MM)],
    as the component prints it next to its sliders. *)
Definition millimeters (x : Q) : Z := Qfloor (x * 1000 + (1 # 2)).


(** Putting a text without line feed in front of a list of lines. *)
Definition glue (a : string) (ls : list string) : list string :=
  match ls with
  | l :: ls' => (a ++ l) :: ls'
  | [] => [a]
  end.

(** The lines that [join] leaves for a list of lines. *)
Definition block (ls : list string) : list string :=
  match ls with
  | [] => [EmptyString]
  | _ => ls
  end.

(** The snapshot of the initial state, as handed to the exporter. *)
Definition basicSnapshot : SpecUnit :=
  mkSpecUnit 3 2 1 0.05 [mkItem 0.5 2] [mkItem 0.5 1] "wood".

Definition basicReport : string :=
  createDesignSpec basicSnapshot "11/2/2026, 9:00:00 AM".

(** Reading a numeral: the number that a text of decimal digits denotes,
    nothing for a text with another character. *)
Definition decimalValue (s : string) : option N :=
  option_map N.of_uint (NilEmpty.uint_of_string s).

(** The integer whose digits [toFixed] prints: the nearest integer to
    [|x| * 10^f], the larger one on a tie. *)
Definition scaledDigits (x : Q) (f : nat) : Z :=
  Qfloor (Qabs x * inject_Z (10 ^ Z.of_nat f) + (1 # 2)).

End Exporter.

(** ** The components on binary64 numbers

    The drag handlers, the layout inserter, the dimension label and the
    percentages of the report with the IEEE doubles of JavaScript:
    [float] is Rocq's primitive binary64 type, and [+], [-], [*], [/],
    [sqrt] and the comparisons on it are the IEEE operations. *)

Set Warnings "-inexact-float".

Module Doubles.

Local Open Scope float_scope.

(** The cascade of [if (dragDistance > t) newDivisions = n] statements;
    [dragDistance > t] is [t <? dragDistance]. *)
Definition newDivisions (dragDistance : float) : Z :=
  let n := 1%Z in
  let n := if PrimFloat.ltb 0.05 dragDistance then 2%Z else n in
  let n := if PrimFloat.ltb 0.1 dragDistance then 3%Z else n in
  let n := if PrimFloat.ltb 0.15 dragDistance then 4%Z else n in
  let n := if PrimFloat.ltb 0.2 dragDistance then 5%Z else n in
  n.

(** [Math.abs(normalizedY - startPos)] *)
Definition dragDistance (normalizedY startPos : float) : float :=
  PrimFloat.abs (normalizedY - startPos).

(** One turn of the loop over interior gaps; [acc] is [(maxGap, gapPosition)]. *)
Definition gapStep (acc : float * float) (a b : float) : float * float :=
  let gap := b - a in
  if PrimFloat.ltb (fst acc) gap then (gap, a + gap / 2) else acc.

(** [for (let i = 0; i < existingPositions.length - 1; i++)] *)
Fixpoint scanGaps (existingPositions : list float) (acc : float * float)
    : float * float :=
  match existingPositions with
  | a :: ((b :: _) as tl) => scanGaps tl (gapStep acc a b)
  | _ => acc
  end.

(** The value of [newPosition] that [addShelf] and [addColumn] compute
    from the sorted [existingPositions]. *)
Definition newPosition (existingPositions : list float) : float :=
  match existingPositions with
  | [] => 0.5
  | first :: _ =>
      let acc := (0, 0.5) in
      let acc := if PrimFloat.ltb 0 first then (first, first / 2) else acc in
      let acc := scanGaps existingPositions acc in
      let lst := List.last existingPositions 0 in
      let acc :=
        if PrimFloat.ltb lst 1 then
          let gap := 1 - lst in
          if PrimFloat.ltb (fst acc) gap then (gap, lst + gap / 2) else acc
        else acc in
      snd acc
  end.

(** *** Numbers *)

(** Truthiness of a number: every number but 0, -0 and NaN is truthy. *)
Definition truthy (x : float) : bool := negb (x =? 0) && (x =? x).

(** [!o] for a possibly undefined number [o]. *)
Definition js_not (o : option float) : bool :=
  match o with
  | Some v => negb (truthy v)
  | None => true
  end.

(** [o || d] for a possibly undefined number [o] and a number [d]. *)
Definition js_or (o : option float) (d : float) : float :=
  match o with
  | Some v => if truthy v then v else d
  | None => d
  end.

(** The rational number that a finite double denotes. *)
Definition exactQ (x : float) : option Q :=
  match Prim2SF x with
  | S754_zero _ => Some 0%Q
  | S754_finite s m e =>
      Some (inject_Z (if s then Z.neg m else Z.pos m) * Qpower 2 e)%Q
  | _ => None
  end.

(** A double that is neither NaN nor infinite. *)
Definition finite (x : float) : bool :=
  match Prim2SF x with
  | S754_zero _ | S754_finite _ _ _ => true
  | _ => false
  end.

(** [Math.round(x)] of a finite double: the integer nearest to its exact
    value, a tie going up.  [None] stands for the NaN or the infinity that
    [Math.round] hands back as it got it. *)
Definition Math_round (x : float) : option Z :=
  option_map Math_roundQ (exactQ x).

(** The comparisons of doubles, read on a key: the class of the number
    (infinite, finite, zero, by sign), then exponent and mantissa. *)
Definition key (x : spec_float) : Z * Z * Z :=
  match x with
  | S754_nan => (0, 0, 0)%Z
  | S754_infinity true => (-2, 0, 0)%Z
  | S754_infinity false => (2, 0, 0)%Z
  | S754_zero _ => (0, 0, 0)%Z
  | S754_finite true m e => (-1, - e, Z.neg m)%Z
  | S754_finite false m e => (1, e, Z.pos m)%Z
  end.

Definition isNumber (x : spec_float) : bool :=
  match x with
  | S754_nan => false
  | _ => true
  end.


Definition lexlt (a b : Z * Z * Z) : Prop :=
  let '(c1, e1, m1) := a in
  let '(c2, e2, m2) := b in
  (c1 < c2 \/ (c1 = c2 /\ (e1 < e2 \/ (e1 = e2 /\ m1 < m2))))%Z.

Definition lexle (a b : Z * Z * Z) : Prop :=
  let '(c1, e1, m1) := a in
  let '(c2, e2, m2) := b in
  (c1 < c2 \/ (c1 = c2 /\ (e1 < e2 \/ (e1 = e2 /\ m1 <= m2))))%Z.

(** *** State and drag handlers of [ShelvingUnitPro] *)

Record Shelf := mkShelf {
  shelf_id : string;
  shelf_position : float;   (* 0-1 percentage of the container height *)
  shelf_divisions : Z
}.

Record Column := mkColumn {
  column_id : string;
  column_position : float;  (* 0-1 percentage of the container width *)
  column_divisions : Z
}.

Record ShelvingUnitState := mkUnit {
  width : float;
  height : float;
  depth : float;
  thickness : float;
  shelves : list Shelf;
  columns : list Column;
  showWireframe : bool;
  showDimensions : bool;
  viewMode : ViewMode;
  material : Material
}.

(** The cells [unit] and [dragStartPosition] of one render. *)
Record ProState := mkPro {
  pro_unit : ShelvingUnitState;
  dragStartPosition : gmap string float
}.

Definition set_shelves (u : ShelvingUnitState) (l : list Shelf) : ShelvingUnitState :=
  mkUnit (width u) (height u) (depth u) (thickness u) l (columns u)
         (showWireframe u) (showDimensions u) (viewMode u) (material u).

Definition set_columns (u : ShelvingUnitState) (l : list Column) : ShelvingUnitState :=
  mkUnit (width u) (height u) (depth u) (thickness u) (shelves u) l
         (showWireframe u) (showDimensions u) (viewMode u) (material u).

Definition initialUnit : ShelvingUnitState :=
  mkUnit 3 2 1 0.05 [mkShelf "s1" 0.5 2] [mkColumn "c1" 0.5 1]
         false true View3d wood.

Definition initialState : ProState := mkPro initialUnit ∅.

(** A render in the middle of a gesture: the shelf has been dragged from
    0.5 to 0.6 and the baseline 0.5 is recorded. *)
Definition midGestureState : ProState :=
  mkPro (set_shelves initialUnit [mkShelf "s1" 0.6 3])
        (<[ "s1"%string := 0.5 ]> ∅).

(** [unit.shelves.find((s) => s.id === id)?.position || 0] *)
Definition shelfStart (l : list Shelf) (id : string) : float :=
  js_or (option_map shelf_position
           (List.find (fun s => String.eqb (shelf_id s) id) l)) 0.

Definition columnStart (l : list Column) (id : string) : float :=
  js_or (option_map column_position
           (List.find (fun c => String.eqb (column_id c) id) l)) 0.

(** The body of the [prev.shelves.map] callback of [handleShelfDrag];
    [dsp] is the [dragStartPosition] of the handler's closure, [shelf] an
    element of the list the updater receives. *)
Definition dragShelf (dsp : gmap string float) (id : string)
    (normalizedY : float) (shelf : Shelf) : Shelf :=
  if String.eqb (shelf_id shelf) id then
    let startPos := js_or (dsp !! id) (shelf_position shelf) in
    let dragDistance := abs (normalizedY - startPos) in
    mkShelf (shelf_id shelf) normalizedY (newDivisions dragDistance)
  else shelf.

Definition dragColumn (dsp : gmap string float) (id : string)
    (normalizedX : float) (column : Column) : Column :=
  if String.eqb (column_id column) id then
    let startPos := js_or (dsp !! id) (column_position column) in
    let dragDistance := abs (normalizedX - startPos) in
    mkColumn (column_id column) normalizedX (newDivisions dragDistance)
  else column.

(** [handleShelfDrag(id, normalizedY)] of the render whose cells are
    [closure], called when the cells are [prev].  The test
    [!dragStartPosition[id]], the [find] on [unit.shelves] and the lookup
    inside the [map] read the closure; the two functional updaters
    receive the current cells.  The listeners that [ShelfWithDivisions]
    registers keep the handler of the render that registered them, so
    during a gesture [closure] is in general an earlier render than
    [prev]. *)
Definition handleShelfDrag (closure prev : ProState) (id : string)
    (normalizedY : float) : ProState :=
  let dsp' :=
    if js_not (dragStartPosition closure !! id)
    then <[ id := shelfStart (shelves (pro_unit closure)) id ]>
           (dragStartPosition prev)
    else dragStartPosition prev in
  let unit' :=
    set_shelves (pro_unit prev)
      (List.map (dragShelf (dragStartPosition closure) id normalizedY)
         (shelves (pro_unit prev))) in
  mkPro unit' dsp'.

(** [handleColumnDrag(id, normalizedX)]. *)
Definition handleColumnDrag (closure prev : ProState) (id : string)
    (normalizedX : float) : ProState :=
  let dsp' :=
    if js_not (dragStartPosition closure !! id)
    then <[ id := columnStart (columns (pro_unit closure)) id ]>
           (dragStartPosition prev)
    else dragStartPosition prev in
  let unit' :=
    set_columns (pro_unit prev)
      (List.map (dragColumn (dragStartPosition closure) id normalizedX)
         (columns (pro_unit prev))) in
  mkPro unit' dsp'.

(** [handleDragEnd()]: [setDragStartPosition({})]. *)
Definition handleDragEnd (prev : ProState) : ProState :=
  mkPro (pro_unit prev) ∅.

(** [handleShelfDrag] of the first 3d component ([ShelvingUnit3D]); the
    callback of its [map] is the one above. *)
Module ShelvingUnit3D.

Record ShelvingUnitState := mkUnit {
  width : float;
  height : float;
  depth : float;
  shelves : list Shelf;
  showWireframe : bool;
  material : ShelvingUnit3D.Material
}.

Record State := mkState {
  unit3 : ShelvingUnitState;
  dragStartPosition : gmap string float
}.

Definition handleShelfDrag (closure prev : State) (id : string)
    (normalizedY : float) : State :=
  let u := unit3 prev in
  let dsp' :=
    if js_not (dragStartPosition closure !! id)
    then <[ id := shelfStart (shelves (unit3 closure)) id ]>
           (dragStartPosition prev)
    else dragStartPosition prev in
  mkState
    (mkUnit (width u) (height u) (depth u)
       (List.map (dragShelf (dragStartPosition closure) id normalizedY)
          (shelves u))
       (showWireframe u) (material u))
    dsp'.

End ShelvingUnit3D.

(** *** Layout inserter *)

(** [xs.sort((a, b) => a - b)]: the stable sort by the comparator; an
    element moves behind another one exactly when their difference is
    above 0 (a difference that is not a number counts as 0).  On finite
    numbers the comparator is the order of the numbers and every sorting
    algorithm gives this sequence. *)
Fixpoint insertSorted (x : float) (l : list float) : list float :=
  match l with
  | [] => [x]
  | y :: tl => if 0 <? x - y then y :: insertSorted x tl else x :: l
  end.

Definition sortNumbers (l : list float) : list float :=
  fold_right insertSorted [] l.

(** [addShelf()] of the render [closure], its updater run on [prev];
    [now] is the value of [Date.now()]. *)
Definition addShelf (closure prev : ProState) (now : Z) : ProState :=
  let existingPositions :=
    sortNumbers (List.map shelf_position (shelves (pro_unit closure))) in
  let newShelf :=
    mkShelf ("s" ++ string_of_Z now) (newPosition existingPositions) 2 in
  mkPro (set_shelves (pro_unit prev) (shelves (pro_unit prev) ++ [newShelf]))
        (dragStartPosition prev).

(** [addColumn()]. *)
Definition addColumn (closure prev : ProState) (now : Z) : ProState :=
  let existingPositions :=
    sortNumbers (List.map column_position (columns (pro_unit closure))) in
  let newColumn :=
    mkColumn ("c" ++ string_of_Z now) (newPosition existingPositions) 2 in
  mkPro (set_columns (pro_unit prev) (columns (pro_unit prev) ++ [newColumn]))
        (dragStartPosition prev).

(** The candidate gaps in the words of the specification, in scan order:
    from the boundary to the first position, between neighbours, and
    from the last position to the boundary when that position is below
    1.  Each gap is given by its width and its midpoint, both as binary64
    arithmetic yields them ([b - a] and [a + (b - a) / 2]). *)
Fixpoint interiorGaps (pos : list float) : list (float * float) :=
  match pos with
  | a :: ((b :: _) as tl) => (b - a, a + (b - a) / 2) :: interiorGaps tl
  | _ => []
  end.

Definition candidateGaps (pos : list float) : list (float * float) :=
  match pos with
  | [] => []
  | first :: _ =>
      let lst := List.last pos 0 in
      (first, first / 2) :: interiorGaps pos
        ++ (if lst <? 1 then [(1 - lst, lst + (1 - lst) / 2)] else [])
  end.

(** A later gap replaces the current best only when its width compares
    strictly greater; the scan starts from width 0 and position 0.5. *)
Definition widerOf (best g : float * float) : float * float :=
  if fst best <? fst g then g else best.

Definition spec_widestGap (gs : list (float * float)) : float * float :=
  fold_left widerOf gs (0, 0.5).


(** *** Dimension annotations ([DimensionLine]) *)

Definition UNIT_TO_MM : float := 1000.

(** three.js's [Vector3], as far as [DimensionLine] uses it up to the
    label; its methods are written after the library's source. *)
Record Vector3 := mkV { vx : float; vy : float; vz : float }.

Definition Vector3_length (v : Vector3) : float :=
  PrimFloat.sqrt (vx v * vx v + vy v * vy v + vz v * vz v).

Definition multiplyScalar (v : Vector3) (s : float) : Vector3 :=
  mkV (vx v * s) (vy v * s) (vz v * s).

Definition divideScalar (v : Vector3) (s : float) : Vector3 :=
  multiplyScalar v (1 / s).

(** [normalize()] is [divideScalar(length() || 1)]. *)
Definition normalize (v : Vector3) : Vector3 :=
  divideScalar v (js_or (Some (Vector3_length v)) 1).

Definition add (v w : Vector3) : Vector3 :=
  mkV (vx v + vx w) (vy v + vy w) (vz v + vz w).

Definition addVectors (a b : Vector3) : Vector3 := add a b.

Definition distanceToSquared (v w : Vector3) : float :=
  let dx := vx v - vx w in
  let dy := vy v - vy w in
  let dz := vz v - vz w in
  dx * dx + dy * dy + dz * dz.

Definition distanceTo (v w : Vector3) : float :=
  PrimFloat.sqrt (distanceToSquared v w).

Record Dimension := mkDimension {
  startPoint : Vector3;
  endPoint : Vector3;
  midPoint : Vector3;
  lengthMM : float;
  displayValue : option Z
}.

Definition DimensionLine (start end_ : Vector3) (offset : float)
    (offsetDirection : Vector3) : Dimension :=
  let offsetVec := multiplyScalar (normalize offsetDirection) offset in
  let startPoint := add start offsetVec in
  let endPoint := add end_ offsetVec in
  let midPoint := multiplyScalar (addVectors startPoint endPoint) 0.5 in
  let length := distanceTo startPoint endPoint * UNIT_TO_MM in
  let displayValue := Math_round length in
  mkDimension startPoint endPoint midPoint length displayValue.

(** The label alone. *)
Definition label (start end_ : Vector3) (offset : float)
    (offsetDirection : Vector3) : option Z :=
  displayValue (DimensionLine start end_ offset offsetDirection).

(** The four labels of [DimensionLabels]: width, height, depth,
    thickness. *)
Definition DimensionLabels (width height depth thickness : float)
    : list (option Z) :=
  let halfWidth := width / 2 in
  let halfHeight := height / 2 in
  let halfDepth := depth / 2 in
  [ label (mkV (- halfWidth) (- halfHeight - 0.1) halfDepth)
          (mkV halfWidth (- halfHeight - 0.1) halfDepth)
          0.05 (mkV 0 (-1) 0);
    label (mkV (halfWidth + 0.1) (- halfHeight) halfDepth)
          (mkV (halfWidth + 0.1) halfHeight halfDepth)
          0.05 (mkV 1 0 0);
    label (mkV halfWidth (halfHeight + 0.1) halfDepth)
          (mkV halfWidth (halfHeight + 0.1) (- halfDepth))
          0.05 (mkV 0 1 0);
    label (mkV (halfWidth - thickness) (- halfHeight + 0.2) (halfDepth + 0.05))
          (mkV halfWidth (- halfHeight + 0.2) (halfDepth + 0.05))
          0.02 (mkV 0 1 1) ].

(** The nine labels of [OrthographicViews]: width, depth and thickness
    of the top view, width, height and thickness of the front view,
    depth, height and thickness of the side view. *)
Definition OrthographicViews_labels (width height depth thickness : float)
    : list (option Z) :=
  let halfWidth := width / 2 in
  let halfHeight := height / 2 in
  let halfDepth := depth / 2 in
  [ label (mkV (- halfWidth) (halfDepth + 0.2) 0)
          (mkV halfWidth (halfDepth + 0.2) 0) 0.05 (mkV 0 1 0);
    label (mkV (halfWidth + 0.2) (- halfDepth) 0)
          (mkV (halfWidth + 0.2) halfDepth 0) 0.05 (mkV 1 0 0);
    label (mkV (- halfWidth + thickness / 2) (- halfDepth - 0.1) 0)
          (mkV (- halfWidth + thickness * 1.5) (- halfDepth - 0.1) 0)
          0.03 (mkV 0 (-1) 0);
    label (mkV (- halfWidth) (- halfHeight - 0.2) 0)
          (mkV halfWidth (- halfHeight - 0.2) 0) 0.05 (mkV 0 (-1) 0);
    label (mkV (halfWidth + 0.2) (- halfHeight) 0)
          (mkV (halfWidth + 0.2) halfHeight 0) 0.05 (mkV 1 0 0);
    label (mkV (- halfWidth) (- halfHeight + thickness / 2) 0)
          (mkV (- halfWidth) (- halfHeight + thickness * 1.5) 0)
          0.03 (mkV (-1) 0 0);
    label (mkV (- halfDepth) (- halfHeight - 0.2) 0)
          (mkV halfDepth (- halfHeight - 0.2) 0) 0.05 (mkV 0 (-1) 0);
    label (mkV (halfDepth + 0.2) (- halfHeight) 0)
          (mkV (halfDepth + 0.2) halfHeight 0) 0.05 (mkV 1 0 0);
    label (mkV (- halfDepth) (- halfHeight + thickness / 2) 0)
          (mkV (- halfDepth) (- halfHeight + thickness * 1.5) 0)
          0.03 (mkV (-1) 0 0) ].

(** [Math.round(unit.width * UNIT_TO_MM)] and its likes, the values
    next to the sliders. *)
Definition millimeters (x : float) : option Z := Math_round (x * UNIT_TO_MM).

(** The values the four sliders and the thickness presets can put in the
    state: whole multiples of the step, written with one or two decimals
    (the double nearest to the decimal, which is the quotient by 10 or by
    100). *)
Definition tenths (first last : Z) : list float :=
  List.map (fun k => of_uint63 (Uint63.of_Z k) / 10) (seqZ first (last - first + 1)).

Definition hundredths (first last : Z) : list float :=
  List.map (fun k => of_uint63 (Uint63.of_Z k) / 100) (seqZ first (last - first + 1)).

Definition widthValues : list float := tenths 10 50.
Definition heightValues : list float := tenths 10 40.
Definition depthValues : list float := tenths 5 20.
Definition thicknessValues : list float := hundredths 1 20 ++ [0.25].

(** Equality of two labels, as a test. *)
Definition sameLabel (a b : option Z) : bool :=
  match a, b with
  | Some x, Some y => Z.eqb x y
  | None, None => true
  | _, _ => false
  end.

(** *** The position in a line of the report ([createDesignSpec]) *)

(** [x.toFixed(fractionDigits)]: the text of NaN and of the infinities,
    and below 10^21 the digits of the exact value of the double in fixed
    notation (the Q-level [toFixed] above).  From 10^21 on [toFixed]
    hands over to the number's [toString], which is not modelled
    ([None]). *)
Definition toFixed (x : float) (fractionDigits : nat) : option string :=
  if negb (x =? x) then Some "NaN"%string
  else if x =? infinity then Some "Infinity"%string
  else if x =? neg_infinity then Some "-Infinity"%string
  else if abs x <? 1e21
  then option_map (fun q => Exporter.toFixed q fractionDigits) (exactQ x)
  else None.

Definition shelfLine (i : nat) (shelf : Shelf) : option string :=
  option_map
    (fun percent =>
       ("Shelf " ++ Exporter.string_of_nat (i + 1) ++ ": Position "
          ++ percent ++ "% from bottom, "
          ++ string_of_Z (shelf_divisions shelf) ++ " divisions")%string)
    (toFixed (shelf_position shelf * 100) 0).

Definition columnLine (i : nat) (column : Column) : option string :=
  option_map
    (fun percent =>
       ("Column " ++ Exporter.string_of_nat (i + 1) ++ ": Position "
          ++ percent ++ "% from left, "
          ++ string_of_Z (column_divisions column) ++ " divisions")%string)
    (toFixed (column_position column * 100) 0).

(** *** A preset and repeated additions *)



End Doubles.

(** * Properties *)

(** ** Comparisons *)

Lemma Qgtb_true (a b : Q) : Qgtb a b = true <-> b < a.
Proof.
  unfold Qgtb. rewrite negb_true_iff.
  destruct (Qle_bool a b) eqn:E.
  - apply Qle_bool_iff in E. split; [discriminate | intros H; lra].
  - split; [intros _ | reflexivity].
    destruct (Qlt_le_dec b a) as [H | H]; [exact H |].
    apply Qle_bool_iff in H. congruence.
Qed.

Lemma Qgtb_false (a b : Q) : Qgtb a b = false <-> a <= b.
Proof.
  unfold Qgtb. rewrite negb_false_iff. apply Qle_bool_iff.
Qed.

Lemma Qltb_true (a b : Q) : Qltb a b = true <-> a < b.
Proof. apply (Qgtb_true b a). Qed.

Lemma Qltb_false (a b : Q) : Qltb a b = false <-> b <= a.
Proof. apply (Qgtb_false b a). Qed.

Lemma truthy_false (x : Q) : truthy x = false <-> x == 0.
Proof.
  unfold truthy. rewrite negb_false_iff. apply Qeq_bool_iff.
Qed.

(** Turn every comparison of the goal into a hypothesis over [Q]. *)
Ltac split_gtb :=
  repeat match goal with
  | |- context [Qgtb ?a ?b] =>
      let E := fresh "E" in
      destruct (Qgtb a b) eqn:E;
      [apply Qgtb_true in E | apply Qgtb_false in E]
  | |- context [Qltb ?a ?b] =>
      let E := fresh "E" in
      destruct (Qltb a b) eqn:E;
      [apply Qltb_true in E | apply Qltb_false in E]
  end.

(** ** The division thresholds *)

Lemma newDivisions_cases (d : Q) :
  (d <= 0.05 /\ newDivisions d = 1%Z) \/
  (0.05 < d /\ d <= 0.1 /\ newDivisions d = 2%Z) \/
  (0.1 < d /\ d <= 0.15 /\ newDivisions d = 3%Z) \/
  (0.15 < d /\ d <= 0.2 /\ newDivisions d = 4%Z) \/
  (0.2 < d /\ newDivisions d = 5%Z).
Proof.
  unfold newDivisions. split_gtb; try lra.
  - right; right; right; right. split; [lra | reflexivity].
  - right; right; right; left. repeat split; try lra.
  - right; right; left. repeat split; try lra.
  - right; left. repeat split; try lra.
  - left. split; [lra | reflexivity].
Qed.


Lemma dragShelf_miss (dsp : gmap string Q) (id : string) (y : Q) (s : Shelf) :
  shelf_id s <> id -> dragShelf dsp id y s = s.
Proof.
  intros H. unfold dragShelf.
  destruct (String.eqb (shelf_id s) id) eqn:E; [| reflexivity].
  apply String.eqb_eq in E. contradiction.
Qed.

Lemma dragColumn_miss (dsp : gmap string Q) (id : string) (x : Q) (c : Column) :
  column_id c <> id -> dragColumn dsp id x c = c.
Proof.
  intros H. unfold dragColumn.
  destruct (String.eqb (column_id c) id) eqn:E; [| reflexivity].
  apply String.eqb_eq in E. contradiction.
Qed.


(** ** Baselines that are zero or missing *)










(** ** The end of a gesture *)

Lemma shelfStart_found (l : list Shelf) (id : string) (s : Shelf) :
  List.find (fun s => String.eqb (shelf_id s) id) l = Some s ->
  shelfStart l id == shelf_position s.
Proof.
  intros H. unfold shelfStart. rewrite H. simpl.
  destruct (truthy (shelf_position s)) eqn:E; [reflexivity |].
  apply truthy_false in E. symmetry. exact E.
Qed.

Lemma columnStart_found (l : list Column) (id : string) (c : Column) :
  List.find (fun c => String.eqb (column_id c) id) l = Some c ->
  columnStart l id == column_position c.
Proof.
  intros H. unfold columnStart. rewrite H. simpl.
  destruct (truthy (column_position c)) eqn:E; [reflexivity |].
  apply truthy_false in E. symmetry. exact E.
Qed.

(** C7: [handleDragEnd] empties the whole session map and leaves the unit
    state as it is; the next drag of an element then records that element's
    current position as its baseline.  Dragging the basic preset's shelf
    from 0.5 to 0.73 gives 5 divisions, and after the release a move by
    0.03 gives 1 division. *)
Theorem drag_end_forgets_every_baseline :
  (forall st,
     dragStartPosition (handleDragEnd st) = ∅ /\
     pro_unit (handleDragEnd st) = pro_unit st) /\
  (forall st,
     ShelvingUnit3D.dragStartPosition (ShelvingUnit3D.handleShelfDragEnd st) = ∅ /\
     ShelvingUnit3D.unit3 (ShelvingUnit3D.handleShelfDragEnd st) =
       ShelvingUnit3D.unit3 st) /\
  (forall st id y s,
     List.find (fun s => String.eqb (shelf_id s) id) (shelves (pro_unit st)) = Some s ->
     exists b,
       dragStartPosition (handleShelfDrag (handleDragEnd st) id y) !! id = Some b /\
       b == shelf_position s) /\
  (forall st id x c,
     List.find (fun c => String.eqb (column_id c) id) (columns (pro_unit st)) = Some c ->
     exists b,
       dragStartPosition (handleColumnDrag (handleDragEnd st) id x) !! id = Some b /\
       b == column_position c) /\
  (let st1 := handleShelfDrag initialState "s1" 0.73 in
   let st2 := handleDragEnd st1 in
   let st3 := handleShelfDrag st2 "s1" 0.76 in
   shelves (pro_unit st1) = [mkShelf "s1" 0.73 5] /\
   dragStartPosition st1 !! "s1"%string = Some 0.5 /\
   dragStartPosition st2 = ∅ /\
   pro_unit st2 = pro_unit st1 /\
   dragStartPosition st3 !! "s1"%string = Some 0.73 /\
   shelves (pro_unit st3) = [mkShelf "s1" 0.76 1]) /\
  (let st1 := handleShelfDrag initialState "s1" 0.6 in
   let st2 := handleShelfDrag st1 "s1" 0.73 in
   shelves (pro_unit st1) = [mkShelf "s1" 0.6 2] /\
   dragStartPosition st2 !! "s1"%string = Some 0.5 /\
   shelves (pro_unit st2) = [mkShelf "s1" 0.73 5]).
Proof.
  split; [| split; [| split; [| split; [| split]]]].
  - intros st. split; reflexivity.
  - intros st. split; reflexivity.
  - intros st id y s Hfind.
    exists (shelfStart (shelves (pro_unit st)) id). split.
    + unfold handleShelfDrag, handleDragEnd. simpl.
      rewrite lookup_empty. simpl. apply lookup_insert_eq.
    + apply shelfStart_found, Hfind.
  - intros st id x c Hfind.
    exists (columnStart (columns (pro_unit st)) id). split.
    + unfold handleColumnDrag, handleDragEnd. simpl.
      rewrite lookup_empty. simpl. apply lookup_insert_eq.
    + apply columnStart_found, Hfind.
  - vm_compute. repeat split.
  - vm_compute. repeat split.
Qed.

Lemma drag_end_forgets_every_baseline_witness :
  exists b,
    dragStartPosition
      (handleShelfDrag (handleDragEnd (handleShelfDrag initialState "s1" 0.73))
         "s1" 0.76) !! "s1"%string = Some b /\
    b == 0.73.
Proof.
  apply (proj1 (proj2 (proj2 drag_end_forgets_every_baseline))
           (handleShelfDrag initialState "s1" 0.73) "s1"%string 0.76
           (mkShelf "s1" 0.73 5)).
  reflexivity.
Defined.

(** ** Range of the stored positions *)

(** The divider variant clamps: a dragged divider lands in [0.1, 0.9]. *)
Lemma moveDivider_clamped (id0 : string) (newPosition : Q)
    (div : ShelvingUnitDesigner.Divider) :
  ShelvingUnitDesigner.id div = id0 ->
  let div' :=
    ShelvingUnitDesigner.moveDivider id0 (Qmax 0.1 (Qmin 0.9 newPosition)) div in
  0.1 <= ShelvingUnitDesigner.position div' /\
  ShelvingUnitDesigner.position div' <= 0.9.
Proof.
  intros <-. unfold ShelvingUnitDesigner.moveDivider.
  rewrite String.eqb_refl. simpl. split.
  - apply Q.le_max_l.
  - apply Q.max_lub; [lra | apply Q.le_min_l].
Qed.

(** C2 (the handlers of the 3d component do not clamp): dragging the basic
    preset's shelf to 1.2, or its column to -0.3, stores that value, which
    lies outside [0,1]. *)
Theorem drag_stores_position_unclamped :
  shelves (pro_unit (handleShelfDrag initialState "s1" 1.2)) =
    [mkShelf "s1" 1.2 5] /\
  inUnitb 1.2 = false /\
  columns (pro_unit (handleColumnDrag initialState "c1" (-0.3))) =
    [mkColumn "c1" (-0.3) 5] /\
  inUnitb (-0.3) = false /\
  Forall (fun s => inUnitb (shelf_position s) = true)
    (shelves (pro_unit initialState)).
Proof.
  vm_compute. repeat split. repeat constructor.
Qed.

(** ** Derived geometry *)

Lemma nth_error_lookup {A : Type} (l : list A) (i : nat) :
  nth_error l i = l !! i.
Proof.
  revert i. induction l as [| a l IH]; intros [| i]; simpl; auto.
Qed.

Lemma loopIndices_nth (divisions k : Z) :
  (1 <= k <= divisions - 1)%Z ->
  nth_error (loopIndices divisions) (Z.to_nat (k - 1)) = Some k.
Proof.
  intros Hk. rewrite nth_error_lookup. unfold loopIndices.
  rewrite lookup_seqZ_lt by lia. f_equal. lia.
Qed.

Lemma shelf_divisionMeshes_none (w h d : Q) (p : Triple) (n : Z) (t : Q) :
  (n <= 1)%Z -> divisionMeshes (ShelfWithDivisions w h d p n t) = [].
Proof.
  intros H. unfold ShelfWithDivisions. simpl.
  destruct (1 <? n)%Z eqn:E; [apply Z.ltb_lt in E; lia | reflexivity].
Qed.

Lemma shelf_divisionMeshes_length (w h d : Q) (p : Triple) (n : Z) (t : Q) :
  (1 < n)%Z ->
  List.length (divisionMeshes (ShelfWithDivisions w h d p n t)) = Z.to_nat (n - 1).
Proof.
  intros H. unfold ShelfWithDivisions. simpl.
  apply Z.ltb_lt in H. rewrite H.
  rewrite length_map. unfold loopIndices. apply length_seqZ.
Qed.

Lemma shelf_divisionMeshes_nth (w h d : Q) (p : Triple) (n k : Z) (t : Q) :
  (1 <= k <= n - 1)%Z ->
  nth_error (divisionMeshes (ShelfWithDivisions w h d p n t)) (Z.to_nat (k - 1)) =
    Some (mkMesh (- w / 2 + inject_Z k * (w / inject_Z n), 0, 0) (t, t, d)).
Proof.
  intros Hk. unfold ShelfWithDivisions. simpl.
  assert (Hn : (1 <? n)%Z = true) by (apply Z.ltb_lt; lia).
  rewrite Hn, nth_error_map, (loopIndices_nth n k Hk). reflexivity.
Qed.

(** The claim C4 as it is stated fails: with width 3, thickness 0.05 and 3
    divisions the first division box sits at x = -29/60, which is not
    -width/2 + 1 * (width/3) = -1/2. *)
Lemma shelf_division_not_spaced_on_unit_width :
  exists g m,
    nth_error (shelfComponents (ShelvingUnitModel threeDivisionUnit)) 0 = Some g /\
    nth_error (divisionMeshes g) 0 = Some m /\
    fst (fst (mesh_position m)) == - (29 # 60) /\
    ~ fst (fst (mesh_position m)) ==
        - width threeDivisionUnit / 2 + 1 * (width threeDivisionUnit / 3).
Proof.
  eexists. eexists. split; [reflexivity |]. split; [reflexivity |].
  split; [reflexivity |]. vm_compute. discriminate.
Qed.

(** C4 (amended): for every shelf the main board is a box
    (width - 2 thickness) x thickness x (depth - 2 thickness) in a group at
    y = -height/2 + position * height; with more than one division the
    group holds exactly divisions - 1 boxes thickness x thickness x
    (depth - 2 thickness), the k-th at x = -w'/2 + k * (w'/divisions) where
    w' = width - 2 thickness is the board's own width; with at most one
    division it holds none. *)
Theorem shelf_geometry_on_board_width :
  forall (u : ShelvingUnitState) (i : nat) (s : Shelf),
    nth_error (shelves u) i = Some s ->
    exists g,
      nth_error (shelfComponents (ShelvingUnitModel u)) i = Some g /\
      Teq (boxGeometry (mainMesh g))
          (width u - 2 * thickness u, thickness u, depth u - 2 * thickness u) /\
      Teq (group_position g)
          (0, - height u / 2 + shelf_position s * height u, 0) /\
      Teq (mesh_position (mainMesh g)) (0, 0, 0) /\
      ((shelf_divisions s <= 1)%Z -> divisionMeshes g = []) /\
      ((1 < shelf_divisions s)%Z ->
         List.length (divisionMeshes g) = Z.to_nat (shelf_divisions s - 1) /\
         forall k, (1 <= k <= shelf_divisions s - 1)%Z ->
           exists m,
             nth_error (divisionMeshes g) (Z.to_nat (k - 1)) = Some m /\
             Teq (boxGeometry m)
                 (thickness u, thickness u, depth u - 2 * thickness u) /\
             Teq (mesh_position m)
                 (- (width u - 2 * thickness u) / 2
                  + inject_Z k * ((width u - 2 * thickness u)
                                  / inject_Z (shelf_divisions s)), 0, 0)).
Proof.
  intros u i s Hn.
  exists (shelfComponent u s). split.
  - simpl. rewrite nth_error_map, Hn. reflexivity.
  - unfold shelfComponent.
    split; [unfold Teq; simpl; repeat split; lra |].
    split; [unfold Teq; simpl; repeat split; lra |].
    split; [unfold Teq; simpl; repeat split; lra |].
    split; [apply shelf_divisionMeshes_none |].
    intros Hd. split; [apply shelf_divisionMeshes_length, Hd |].
    intros k Hk. eexists. split; [apply shelf_divisionMeshes_nth, Hk |].
    assert (Hw : width u - thickness u * 2 == width u - 2 * thickness u) by lra.
    unfold Teq; simpl; repeat split; try lra.
    rewrite Hw. reflexivity.
Qed.

Lemma shelf_geometry_on_board_width_witness :
  exists g,
    nth_error (shelfComponents (ShelvingUnitModel threeDivisionUnit)) 0 = Some g /\
    Teq (boxGeometry (mainMesh g)) (3 - 2 * 0.05, 0.05, 1 - 2 * 0.05) /\
    List.length (divisionMeshes g) = 2%nat.
Proof.
  destruct (shelf_geometry_on_board_width threeDivisionUnit 0
              (mkShelf "s1" 0.5 3) eq_refl)
    as [g [Hg [Hbox [_ [_ [_ Hdiv]]]]]].
  exists g. split; [exact Hg |]. split; [exact Hbox |].
  apply (proj1 (Hdiv eq_refl)).
Defined.

(** C5: for every column the main board is a box thickness x height x
    (depth - 2 thickness), its height the full height of the unit, in a
    group at x = -width/2 + position * width and y = 0. *)
Theorem column_spans_full_height :
  forall (u : ShelvingUnitState) (i : nat) (c : Column),
    nth_error (columns u) i = Some c ->
    exists g,
      nth_error (columnComponents (ShelvingUnitModel u)) i = Some g /\
      Teq (boxGeometry (mainMesh g))
          (thickness u, height u, depth u - 2 * thickness u) /\
      Teq (group_position g)
          (- width u / 2 + column_position c * width u, 0, 0) /\
      Teq (mesh_position (mainMesh g)) (0, 0, 0) /\
      snd (fst (boxGeometry (mainMesh g))) = height u.
Proof.
  intros u i c Hn.
  exists (columnComponent u c). split.
  - simpl. rewrite nth_error_map, Hn. reflexivity.
  - unfold columnComponent.
    split; [unfold Teq; simpl; repeat split; lra |].
    split; [unfold Teq; simpl; repeat split; lra |].
    split; [unfold Teq; simpl; repeat split; lra | reflexivity].
Qed.

Lemma column_spans_full_height_witness :
  exists g,
    nth_error (columnComponents (ShelvingUnitModel initialUnit)) 0 = Some g /\
    Teq (boxGeometry (mainMesh g)) (0.05, 2, 1 - 2 * 0.05).
Proof.
  destruct (column_spans_full_height initialUnit 0 (mkColumn "c1" 0.5 1) eq_refl)
    as [g [Hg [Hbox _]]].
  exists g. split; [exact Hg | exact Hbox].
Defined.

(** ** The layout inserter *)

Lemma sortedb_cons (a b : Q) (l : list Q) :
  sortedb (a :: b :: l) = true -> a <= b /\ sortedb (b :: l) = true.
Proof.
  simpl. intros H. apply andb_true_iff in H. destruct H as [H1 H2].
  apply Qle_bool_iff in H1. split; assumption.
Qed.

Lemma mirrors_step (acc best : Q * Q) (a b : Q) :
  a <= b -> mirrors acc best a ->
  mirrors (gapStep acc a b) (widerOf best (a, b)) b.
Proof.
  intros Hab (Hw & Hpos & Hmid & Hcur).
  unfold gapStep, widerOf, gapWidth in *. simpl.
  destruct (Qgtb (b - a) (fst acc)) eqn:E1;
    [apply Qgtb_true in E1 | apply Qgtb_false in E1];
  destruct (Qgtb (b - a) (snd best - fst best)) eqn:E2;
    [apply Qgtb_true in E2 | apply Qgtb_false in E2 | apply Qgtb_true in E2
    | apply Qgtb_false in E2];
  try (exfalso; lra).
  - unfold mirrors, gapWidth, gapMidpoint. simpl.
    repeat split; try lra. intros _. field.
  - unfold mirrors, gapWidth. repeat split; try assumption.
    intros H. specialize (Hcur H). lra.
Qed.

Lemma scanGaps_mirrors (l : list Q) :
  forall (a : Q) (acc best : Q * Q),
    sortedb (a :: l) = true -> mirrors acc best a ->
    mirrors (scanGaps (a :: l) acc)
            (fold_left widerOf (interiorGaps (a :: l)) best)
            (List.last (a :: l) 0).
Proof.
  induction l as [| b l IH]; intros a acc best Hs Hm.
  - simpl. exact Hm.
  - apply sortedb_cons in Hs. destruct Hs as [Hab Hs].
    change (scanGaps (a :: b :: l) acc) with (scanGaps (b :: l) (gapStep acc a b)).
    change (interiorGaps (a :: b :: l)) with ((a, b) :: interiorGaps (b :: l)).
    change (List.last (a :: b :: l) 0) with (List.last (b :: l) 0).
    simpl fold_left. apply IH; [exact Hs |].
    apply mirrors_step; assumption.
Qed.

Lemma newPosition_refines_spec (pos : list Q) :
  pos <> [] -> sortedb pos = true -> forallb inUnitb pos = true ->
  newPosition pos == spec_insertPosition pos.
Proof.
  destruct pos as [| first tl]; [congruence |]. intros _ Hs Hr.
  assert (H0 : 0 <= first).
  { simpl in Hr. apply andb_true_iff in Hr. destruct Hr as [Hr _].
    unfold inUnitb in Hr. apply andb_true_iff in Hr. destruct Hr as [Hr _].
    apply Qle_bool_iff in Hr. exact Hr. }
  unfold newPosition, spec_insertPosition, candidateGaps, spec_widestGap.
  rewrite fold_left_app.
  set (acc1 := if Qgtb first 0 then (first, first / 2) else (0, 0.5)).
  assert (Hm1 : mirrors acc1 (0, first) first).
  { unfold acc1. destruct (Qgtb first 0) eqn:E;
      [apply Qgtb_true in E | apply Qgtb_false in E];
      unfold mirrors, gapWidth, gapMidpoint; simpl; repeat split; try lra.
    intros _. field. }
  pose proof (scanGaps_mirrors tl first acc1 (0, first) Hs Hm1) as Hm.
  set (acc := scanGaps (first :: tl) acc1) in *.
  set (best := fold_left widerOf (interiorGaps (first :: tl)) (0, first)) in *.
  set (lst := List.last (first :: tl) 0) in *.
  destruct Hm as (Hw & Hpos & Hmid & Hcur).
  simpl fold_left. unfold widerOf, gapWidth in *. simpl.
  destruct (Qltb lst 1) eqn:E0;
    [apply Qltb_true in E0 | apply Qltb_false in E0];
  destruct (Qgtb (1 - lst) (snd best - fst best)) eqn:E2;
    [apply Qgtb_true in E2 | apply Qgtb_false in E2 | apply Qgtb_true in E2
    | apply Qgtb_false in E2].
  - destruct (Qgtb (1 - lst) (fst acc)) eqn:E1;
      [apply Qgtb_true in E1 | apply Qgtb_false in E1].
    + unfold gapMidpoint. simpl. field.
    + exfalso. lra.
  - destruct (Qgtb (1 - lst) (fst acc)) eqn:E1;
      [apply Qgtb_true in E1 | apply Qgtb_false in E1].
    + exfalso. lra.
    + apply Hmid. lra.
  - exfalso. lra.
  - apply Hmid. destruct (Qlt_le_dec 0 (fst acc)) as [H | H]; [exact H |].
    assert (Hz : fst acc == 0) by lra. specialize (Hcur Hz). exfalso. lra.
Qed.

(** The selection of the specification returns the first widest gap. *)
Lemma spec_widestGap_first_widest (g : Q * Q) (rest : list (Q * Q)) :
  exists k,
    nth_error (g :: rest) k = Some (spec_widestGap g rest) /\
    (forall g', In g' (g :: rest) ->
       gapWidth g' <= gapWidth (spec_widestGap g rest)) /\
    (forall j g', (j < k)%nat -> nth_error (g :: rest) j = Some g' ->
       gapWidth g' < gapWidth (spec_widestGap g rest)).
Proof.
  unfold spec_widestGap.
  induction rest as [| x rest IH] using rev_ind.
  - exists 0%nat. simpl. split; [reflexivity |]. split.
    + intros g' [<- | []]. lra.
    + intros j g' Hj. lia.
  - destruct IH as (k & Hk & Hmax & Hfirst).
    rewrite fold_left_app. simpl fold_left.
    set (r := fold_left widerOf rest g) in *.
    assert (Hlen : (k < List.length (g :: rest))%nat).
    { apply nth_error_Some. rewrite Hk. discriminate. }
    unfold widerOf.
    destruct (Qgtb (gapWidth x) (gapWidth r)) eqn:E;
      [apply Qgtb_true in E | apply Qgtb_false in E].
    + exists (List.length (g :: rest)). split; [| split].
      * change (g :: rest ++ [x]) with ((g :: rest) ++ [x]).
        rewrite nth_error_app2 by lia. rewrite Nat.sub_diag. reflexivity.
      * intros g' Hin. change (g :: rest ++ [x]) with ((g :: rest) ++ [x]) in Hin.
        apply in_app_or in Hin. destruct Hin as [Hin | [<- | []]]; [| lra].
        specialize (Hmax g' Hin). lra.
      * intros j g' Hj Hn. change (g :: rest ++ [x]) with ((g :: rest) ++ [x]) in Hn.
        rewrite nth_error_app1 in Hn by exact Hj.
        apply nth_error_In in Hn. specialize (Hmax g' Hn). lra.
    + exists k. split; [| split].
      * change (g :: rest ++ [x]) with ((g :: rest) ++ [x]).
        rewrite nth_error_app1 by exact Hlen. exact Hk.
      * intros g' Hin. change (g :: rest ++ [x]) with ((g :: rest) ++ [x]) in Hin.
        apply in_app_or in Hin. destruct Hin as [Hin | [<- | []]]; [| lra].
        apply Hmax, Hin.
      * intros j g' Hj Hn. change (g :: rest ++ [x]) with ((g :: rest) ++ [x]) in Hn.
        rewrite nth_error_app1 in Hn by lia.
        apply (Hfirst j g' Hj Hn).
Qed.

(** The sort of [addShelf] and [addColumn] delivers an ascending list
    with the same elements. *)
Lemma Qle_bool_total (x y : Q) : Qle_bool x y = false -> Qle_bool y x = true.
Proof.
  intros H. apply Qle_bool_iff.
  assert (Hg : Qgtb x y = true) by (unfold Qgtb; rewrite H; reflexivity).
  apply Qgtb_true in Hg. lra.
Qed.

Lemma insertSorted_sorted (x : Q) (l : list Q) :
  sortedb l = true -> sortedb (insertSorted x l) = true.
Proof.
  induction l as [| y tl IH]; intros H; [reflexivity |].
  simpl insertSorted. destruct (Qle_bool x y) eqn:E.
  - change (Qle_bool x y && sortedb (y :: tl) = true). rewrite E, H. reflexivity.
  - apply Qle_bool_total in E. destruct tl as [| z tl'].
    + simpl. rewrite E. reflexivity.
    + apply andb_true_iff in H. destruct H as [Hyz Hs].
      specialize (IH Hs). simpl insertSorted in *.
      destruct (Qle_bool x z) eqn:E2.
      * change (Qle_bool y x && sortedb (x :: z :: tl') = true).
        rewrite E. exact IH.
      * change (Qle_bool y z && sortedb (z :: insertSorted x tl') = true).
        rewrite Hyz. exact IH.
Qed.

Lemma sortNumbers_sorted (l : list Q) : sortedb (sortNumbers l) = true.
Proof.
  induction l as [| x l IH]; [reflexivity |].
  simpl. apply insertSorted_sorted, IH.
Qed.

Lemma insertSorted_forallb (P : Q -> bool) (x : Q) (l : list Q) :
  forallb P (insertSorted x l) = P x && forallb P l.
Proof.
  induction l as [| y tl IH]; [reflexivity |].
  simpl. destruct (Qle_bool x y); simpl; [reflexivity |].
  rewrite IH. destruct (P x), (P y); reflexivity.
Qed.

Lemma sortNumbers_forallb (P : Q -> bool) (l : list Q) :
  forallb P (sortNumbers l) = forallb P l.
Proof.
  induction l as [| x l IH]; [reflexivity |].
  simpl. rewrite insertSorted_forallb, IH. reflexivity.
Qed.

Lemma insertSorted_not_nil (x : Q) (l : list Q) : insertSorted x l <> [].
Proof. destruct l as [| y tl]; simpl; [| destruct (Qle_bool x y)]; discriminate. Qed.

(** ** Moved points *)

Section DimensionLabel.

Import DimensionLabels.
Local Open Scope R_scope.

(** Moving both ends by the same vector keeps their distance. *)
Lemma distanceTo_add (a b o : Vector3) :
  distanceTo (add a o) (add b o) = distanceTo a b.
Proof.
  unfold distanceTo, distanceToSquared, add. simpl. f_equal. ring.
Qed.

End DimensionLabel.

(** ** The exported report *)

Section Report.

Import Exporter.
Local Open Scope string_scope.

Lemma append_cons (c : ascii) (a b : string) :
  String c a ++ b = String c (a ++ b).
Proof. reflexivity. Qed.

Lemma append_nil_l (b : string) : "" ++ b = b.
Proof. reflexivity. Qed.

Lemma append_nil_r (s : string) : s ++ "" = s.
Proof.
  induction s as [| c s IH]; [reflexivity |].
  rewrite append_cons, IH. reflexivity.
Qed.

Lemma append_assoc (a b c : string) : (a ++ b) ++ c = a ++ (b ++ c).
Proof.
  induction a as [| x a IH]; [reflexivity |].
  rewrite !append_cons, IH. reflexivity.
Qed.

Lemma oneLine_app (a b : string) : oneLine (a ++ b) = oneLine a && oneLine b.
Proof.
  induction a as [| c a IH]; [reflexivity |].
  rewrite append_cons. simpl. rewrite IH. apply andb_assoc.
Qed.

Lemma lines_not_nil (s : string) : lines s <> [].
Proof.
  induction s as [| c s IH]; simpl; [discriminate |].
  destruct (Ascii.eqb c "010"); [discriminate |].
  destruct (lines s); discriminate.
Qed.

Lemma lines_app (a b : string) :
  oneLine a = true -> lines (a ++ b) = glue a (lines b).
Proof.
  induction a as [| c a IH]; intros H.
  - rewrite append_nil_l.
    destruct (lines b) eqn:E; [destruct (lines_not_nil b E) | reflexivity].
  - simpl in H. apply andb_true_iff in H. destruct H as [Hc Ha].
    apply negb_true_iff in Hc. rewrite append_cons. simpl.
    rewrite Hc, (IH Ha).
    destruct (lines b); reflexivity.
Qed.

Lemma lines_nl (b : string) : lines (nl ++ b) = EmptyString :: lines b.
Proof. reflexivity. Qed.

Lemma lines_line (a b : string) :
  oneLine a = true -> lines (a ++ nl ++ b) = a :: lines b.
Proof.
  intros H. rewrite (lines_app _ _ H), lines_nl. simpl.
  rewrite append_nil_r. reflexivity.
Qed.

Lemma lines_join (ls : list string) (rest : string) :
  Forall (fun l => oneLine l = true) ls ->
  lines (String.concat nl ls ++ nl ++ rest) = (block ls ++ lines rest)%list.
Proof.
  induction ls as [| x ls IH]; intros H.
  - reflexivity.
  - inversion H as [| ? ? Hx Hls]; subst. destruct ls as [| y tl].
    + simpl String.concat. rewrite (lines_line _ _ Hx). reflexivity.
    + change (String.concat nl (x :: y :: tl))
        with (x ++ nl ++ String.concat nl (y :: tl)).
      rewrite !append_assoc, (lines_line _ _ Hx), (IH Hls). reflexivity.
Qed.

(** Numerals and [toFixed] hold no line feed. *)
Lemma oneLine_uint (d : Decimal.uint) :
  oneLine (NilEmpty.string_of_uint d) = true.
Proof. induction d; simpl; auto. Qed.

Lemma oneLine_NilZero_uint (d : Decimal.uint) :
  oneLine (NilZero.string_of_uint d) = true.
Proof. destruct d; try reflexivity; apply (oneLine_uint _). Qed.

Lemma oneLine_string_of_nat (n : nat) : oneLine (string_of_nat n) = true.
Proof. apply oneLine_NilZero_uint. Qed.

Lemma oneLine_string_of_Z (z : Z) : oneLine (string_of_Z z) = true.
Proof.
  unfold string_of_Z, NilZero.string_of_int.
  destruct (Z.to_int z); [| simpl]; apply oneLine_NilZero_uint.
Qed.

Lemma oneLine_zeros (n : nat) : oneLine (zeros n) = true.
Proof. induction n; simpl; auto. Qed.

Lemma oneLine_substring (s : string) :
  oneLine s = true -> forall n m, oneLine (substring n m s) = true.
Proof.
  induction s as [| c s IH]; intros H n m.
  - destruct n, m; reflexivity.
  - simpl in H. apply andb_true_iff in H. destruct H as [Hc Hs].
    destruct n as [| n]; [destruct m as [| m] |]; simpl; auto.
    rewrite Hc. simpl. apply IH, Hs.
Qed.

Lemma oneLine_toFixed (x : Q) (f : nat) : oneLine (toFixed x f) = true.
Proof.
  unfold toFixed.
  set (m := NilZero.string_of_uint _).
  assert (Hm : oneLine m = true) by apply oneLine_NilZero_uint.
  rewrite oneLine_app. apply andb_true_iff. split.
  - destruct (Qltb x 0); reflexivity.
  - destruct f as [| f]; [exact Hm |].
    set (m' := if (String.length m <=? S f)%nat then _ else m).
    assert (Hm' : oneLine m' = true).
    { unfold m'. destruct (String.length m <=? S f)%nat; [| exact Hm].
      rewrite oneLine_app, oneLine_zeros, Hm. reflexivity. }
    rewrite !oneLine_app, !(oneLine_substring _ Hm'). reflexivity.
Qed.

Lemma oneLine_shelfLine (i : nat) (shelf : Item) :
  oneLine (shelfLine i shelf) = true.
Proof.
  unfold shelfLine.
  rewrite !oneLine_app, oneLine_string_of_nat, oneLine_toFixed,
    oneLine_string_of_Z.
  reflexivity.
Qed.

Lemma oneLine_columnLine (i : nat) (column : Item) :
  oneLine (columnLine i column) = true.
Proof.
  unfold columnLine.
  rewrite !oneLine_app, oneLine_string_of_nat, oneLine_toFixed,
    oneLine_string_of_Z.
  reflexivity.
Qed.

Lemma Forall_imap_oneLine (f : nat -> Item -> string) (l : list Item) :
  (forall i x, oneLine (f i x) = true) ->
  Forall (fun s => oneLine s = true) (imap f l).
Proof.
  revert f. induction l as [| x l IH]; intros f Hf; simpl.
  - constructor.
  - constructor; [apply Hf |]. apply IH. intros i y. apply Hf.
Qed.

Ltac one_line :=
  first [ reflexivity | assumption | apply oneLine_toFixed
        | apply oneLine_string_of_nat | apply oneLine_string_of_Z ].

Ltac read_lines :=
  repeat first
    [ rewrite lines_nl
    | rewrite lines_join
        by (apply Forall_imap_oneLine;
            first [apply oneLine_shelfLine | apply oneLine_columnLine])
    | rewrite lines_line by one_line
    | rewrite lines_app by one_line ].

Lemma createDesignSpec_lines (u : SpecUnit) (generated : string) :
  oneLine (material u) = true -> oneLine generated = true ->
  lines (createDesignSpec u generated) =
    ([ "Shelving Unit Design Specifications";
       "=============================";
       "";
       "DIMENSIONS";
       "Width: " +:+ toFixed (width u) 2 +:+ " units";
       "Height: " +:+ toFixed (height u) 2 +:+ " units";
       "Depth: " +:+ toFixed (depth u) 2 +:+ " units";
       "Material thickness: " +:+ toFixed (thickness u) 2 +:+ " units";
       "Material: " +:+ material u;
       "";
       "SHELVES (" +:+ string_of_nat (List.length (shelves u)) +:+ ")" ]
     ++ block (imap shelfLine (shelves u))
     ++ [ ""; "COLUMNS (" +:+ string_of_nat (List.length (columns u)) +:+ ")" ]
     ++ block (imap columnLine (columns u))
     ++ [ ""; "Generated: " +:+ generated; "" ])%list.
Proof.
  intros Hm Hg. unfold createDesignSpec.
  read_lines. simpl glue. rewrite !append_nil_r. reflexivity.
Qed.



Lemma block_length (ls : list string) :
  List.length (block ls) = Nat.max 1 (List.length ls).
Proof. destruct ls as [| x [| y tl]]; reflexivity. Qed.




End Report.

(** ** The worked examples on binary64 numbers *)

(** The examples of the thresholds, of the release scenario and of the
    insertion position on IEEE doubles. *)
Lemma worked_examples_in_binary64 :
  List.map Doubles.newDivisions [0; 0.05; 0.0500001; 0.1; 0.2; 0.25; 1]%float
    = [1; 1; 2; 2; 4; 5; 5]%Z /\
  Doubles.newDivisions (Doubles.dragDistance 0.73 0.5) = 5%Z /\
  Doubles.newDivisions (Doubles.dragDistance 0.76 0.73) = 1%Z /\
  PrimFloat.eqb (Doubles.newPosition []) 0.5 = true /\
  PrimFloat.eqb (Doubles.newPosition [0.5%float]) 0.25 = true /\
  PrimFloat.eqb (Doubles.newPosition [0.2; 0.8]%float) 0.5 = true.
Proof. vm_compute. repeat split. Qed.

(** ** Comparisons of binary64 numbers *)

Section Binary64Order.

Import Doubles.
Local Open Scope float_scope.

Lemma SFltb_key (x y : spec_float) :
  SFltb x y = true <->
  isNumber x = true /\ isNumber y = true /\ lexlt (key x) (key y).
Proof.
  unfold SFltb, SFcompare, lexlt.
  destruct x as [[|]|[|]| |[|] m1 e1], y as [[|]|[|]| |[|] m2 e2]; simpl;
    try (split; [discriminate | intros (_ & _ & H); lia]);
    try (split; [intros _; repeat split; lia | reflexivity]);
    try (split; [discriminate | intros (H & _); discriminate]);
    try (split; [discriminate | intros (_ & H & _); discriminate]).
  - destruct (Z.compare_spec e1 e2); simpl.
    + subst. change (Pos.compare_cont Eq m1 m2) with (Pos.compare m1 m2).
      destruct (Pos.compare_spec m1 m2); simpl;
        (split; [try discriminate; intros _; repeat split; lia
                | try reflexivity; intros (_ & _ & H0); lia]).
    + split; [discriminate | intros (_ & _ & H0); lia].
    + split; [intros _; repeat split; lia | reflexivity].
  - destruct (Z.compare_spec e1 e2); simpl.
    + subst. change (Pos.compare_cont Eq m1 m2) with (Pos.compare m1 m2).
      destruct (Pos.compare_spec m1 m2); simpl;
        (split; [try discriminate; intros _; repeat split; lia
                | try reflexivity; intros (_ & _ & H0); lia]).
    + split; [intros _; repeat split; lia | reflexivity].
    + split; [discriminate | intros (_ & _ & H0); lia].
Qed.

Lemma SFleb_key (x y : spec_float) :
  SFleb x y = true <->
  isNumber x = true /\ isNumber y = true /\ lexle (key x) (key y).
Proof.
  unfold SFleb, SFcompare, lexle.
  destruct x as [[|]|[|]| |[|] m1 e1], y as [[|]|[|]| |[|] m2 e2]; simpl;
    try (split; [discriminate | intros (_ & _ & H); lia]);
    try (split; [intros _; repeat split; lia | reflexivity]);
    try (split; [discriminate | intros (H & _); discriminate]);
    try (split; [discriminate | intros (_ & H & _); discriminate]).
  - destruct (Z.compare_spec e1 e2); simpl.
    + subst. change (Pos.compare_cont Eq m1 m2) with (Pos.compare m1 m2).
      destruct (Pos.compare_spec m1 m2); simpl;
        (split; [try discriminate; intros _; repeat split; lia
                | try reflexivity; intros (_ & _ & H0); lia]).
    + split; [discriminate | intros (_ & _ & H0); lia].
    + split; [intros _; repeat split; lia | reflexivity].
  - destruct (Z.compare_spec e1 e2); simpl.
    + subst. change (Pos.compare_cont Eq m1 m2) with (Pos.compare m1 m2).
      destruct (Pos.compare_spec m1 m2); simpl;
        (split; [try discriminate; intros _; repeat split; lia
                | try reflexivity; intros (_ & _ & H0); lia]).
    + split; [intros _; repeat split; lia | reflexivity].
    + split; [discriminate | intros (_ & _ & H0); lia].
Qed.

Lemma double_ltb_key (x y : float) :
  (x <? y) = true <->
  isNumber (Prim2SF x) = true /\ isNumber (Prim2SF y) = true /\
  lexlt (key (Prim2SF x)) (key (Prim2SF y)).
Proof. rewrite ltb_spec. apply SFltb_key. Qed.

Lemma double_leb_key (x y : float) :
  (x <=? y) = true <->
  isNumber (Prim2SF x) = true /\ isNumber (Prim2SF y) = true /\
  lexle (key (Prim2SF x)) (key (Prim2SF y)).
Proof. rewrite leb_spec. apply SFleb_key. Qed.

Lemma double_ltb_trans (a b c : float) :
  (a <? b) = true -> (b <? c) = true -> (a <? c) = true.
Proof.
  rewrite !double_ltb_key. intros (Ha & Hb & H1) (_ & Hc & H2).
  split; [assumption |]. split; [assumption |].
  destruct (key (Prim2SF a)) as [[? ?] ?], (key (Prim2SF b)) as [[? ?] ?],
           (key (Prim2SF c)) as [[? ?] ?].
  unfold lexlt in *. lia.
Qed.

Lemma double_ltb_leb_trans (a b c : float) :
  (a <? b) = true -> (b <=? c) = true -> (a <? c) = true.
Proof.
  rewrite !double_ltb_key, double_leb_key. intros (Ha & Hb & H1) (_ & Hc & H2).
  split; [assumption |]. split; [assumption |].
  destruct (key (Prim2SF a)) as [[? ?] ?], (key (Prim2SF b)) as [[? ?] ?],
           (key (Prim2SF c)) as [[? ?] ?].
  unfold lexlt, lexle in *. lia.
Qed.

Lemma double_leb_ltb_trans (a b c : float) :
  (a <=? b) = true -> (b <? c) = true -> (a <? c) = true.
Proof.
  rewrite !double_ltb_key, double_leb_key. intros (Ha & Hb & H1) (_ & Hc & H2).
  split; [assumption |]. split; [assumption |].
  destruct (key (Prim2SF a)) as [[? ?] ?], (key (Prim2SF b)) as [[? ?] ?],
           (key (Prim2SF c)) as [[? ?] ?].
  unfold lexlt, lexle in *. lia.
Qed.

Lemma double_ltb_irrefl (a : float) : (a <? a) = false.
Proof.
  apply not_true_is_false. rewrite double_ltb_key. intros (_ & _ & H).
  destruct (key (Prim2SF a)) as [[? ?] ?]. unfold lexlt in H. lia.
Qed.

Lemma double_ltb_asym (a b : float) : (a <? b) = true -> (b <? a) = false.
Proof.
  intros H. apply not_true_is_false. intros H'.
  pose proof (double_ltb_trans _ _ _ H H') as C.
  rewrite double_ltb_irrefl in C. discriminate.
Qed.

Lemma double_leb_not_ltb (a b : float) : (a <=? b) = true -> (b <? a) = false.
Proof.
  intros H. apply not_true_is_false. intros H'.
  pose proof (double_leb_ltb_trans _ _ _ H H') as C.
  rewrite double_ltb_irrefl in C. discriminate.
Qed.


End Binary64Order.

(** ** The division thresholds on binary64 numbers *)

Section DragResolver64.

Import Doubles.
Local Open Scope float_scope.

Lemma newDivisions_cascade (d : float) :
  newDivisions d =
    if 0.2 <? d then 5%Z
    else if 0.15 <? d then 4%Z
    else if 0.1 <? d then 3%Z
    else if 0.05 <? d then 2%Z
    else 1%Z.
Proof.
  unfold newDivisions.
  destruct (0.2 <? d), (0.15 <? d), (0.1 <? d), (0.05 <? d); reflexivity.
Qed.

(** A distance at most [c1] is not above a larger threshold [c2]. *)
Lemma double_below (c1 c2 d : float) :
  (d <=? c1) = true -> (c1 <? c2) = true -> (c2 <? d) = false.
Proof.
  intros H1 H2. apply double_ltb_asym.
  apply (double_leb_ltb_trans _ _ _ H1 H2).
Qed.

Lemma newDivisions_monotone64 (d1 d2 : float) :
  (d1 <=? d2) = true -> (newDivisions d1 <= newDivisions d2)%Z.
Proof.
  intros Hle.
  assert (M : forall c, (c <? d1) = true -> (c <? d2) = true).
  { intros c Hc. apply (double_ltb_leb_trans _ _ _ Hc Hle). }
  rewrite !newDivisions_cascade.
  destruct (0.2 <? d1) eqn:A4; [rewrite (M _ A4); lia |].
  destruct (0.15 <? d1) eqn:A3;
    [rewrite (M _ A3); destruct (0.2 <? d2); lia |].
  destruct (0.1 <? d1) eqn:A2;
    [rewrite (M _ A2); destruct (0.2 <? d2), (0.15 <? d2); lia |].
  destruct (0.05 <? d1) eqn:A1;
    [rewrite (M _ A1); destruct (0.2 <? d2), (0.15 <? d2), (0.1 <? d2); lia |].
  destruct (0.2 <? d2), (0.15 <? d2), (0.1 <? d2), (0.05 <? d2); lia.
Qed.

Lemma dragShelf_hit64 (dsp : gmap string float) (id : string) (y : float)
    (s : Shelf) :
  shelf_id s = id ->
  exists baseline,
    dragShelf dsp id y s = mkShelf id y (newDivisions (abs (y - baseline))) /\
    match dsp !! id with
    | Some b =>
        if (b =? 0) || negb (b =? b) then baseline = shelf_position s
        else baseline = b
    | None => baseline = shelf_position s
    end.
Proof.
  intros <-. unfold dragShelf. rewrite String.eqb_refl.
  destruct (dsp !! shelf_id s) as [b |] eqn:E; simpl.
  - unfold truthy. destruct (b =? 0), (b =? b); simpl; eexists; split; reflexivity.
  - eexists; split; reflexivity.
Qed.

Lemma dragColumn_hit64 (dsp : gmap string float) (id : string) (x : float)
    (c : Column) :
  column_id c = id ->
  exists baseline,
    dragColumn dsp id x c = mkColumn id x (newDivisions (abs (x - baseline))) /\
    match dsp !! id with
    | Some b =>
        if (b =? 0) || negb (b =? b) then baseline = column_position c
        else baseline = b
    | None => baseline = column_position c
    end.
Proof.
  intros <-. unfold dragColumn. rewrite String.eqb_refl.
  destruct (dsp !! column_id c) as [b |] eqn:E; simpl.
  - unfold truthy. destruct (b =? 0), (b =? b); simpl; eexists; split; reflexivity.
  - eexists; split; reflexivity.
Qed.



(** C1: on every drag update of a shelf or a column (both 3d components)
    the dragged element gets the incoming position and
    [newDivisions d] divisions, where [d] is the binary64 value of
    [Math.abs(current - baseline)] and the baseline is the one recorded in
    the handler's closure when there is one that is neither 0 nor NaN, and
    the element's stored position otherwise.  [newDivisions] follows the
    fixed thresholds, read on binary64 numbers: at most 0.05 gives 1,
    (0.05, 0.10] gives 2, (0.10, 0.15] gives 3, (0.15, 0.20] gives 4, above
    0.20 gives 5; exactly 0.05 gives 1; it is monotone and capped at 5.
    The distance is the rounded difference: from 0.5 to 0.55 it is
    0.050000000000000044, which gives 2. *)
Theorem drag_divisions_follow_thresholds :
  (forall d, (d <=? 0.05) = true -> newDivisions d = 1%Z) /\
  (forall d, (0.05 <? d) = true -> (d <=? 0.1) = true -> newDivisions d = 2%Z) /\
  (forall d, (0.1 <? d) = true -> (d <=? 0.15) = true -> newDivisions d = 3%Z) /\
  (forall d, (0.15 <? d) = true -> (d <=? 0.2) = true -> newDivisions d = 4%Z) /\
  (forall d, (0.2 <? d) = true -> newDivisions d = 5%Z) /\
  List.map newDivisions [0; 0.05; 0.0500001; 0.1; 0.2; 0.25; 1]
    = [1; 1; 2; 2; 4; 5; 5]%Z /\
  (forall d1 d2, (d1 <=? d2) = true -> (newDivisions d1 <= newDivisions d2)%Z) /\
  (forall d, (1 <= newDivisions d <= 5)%Z) /\
  (forall closure prev id y i s,
     nth_error (shelves (pro_unit prev)) i = Some s -> shelf_id s = id ->
     exists baseline,
       nth_error (shelves (pro_unit (handleShelfDrag closure prev id y))) i =
         Some (mkShelf id y (newDivisions (abs (y - baseline)))) /\
       match dragStartPosition closure !! id with
       | Some b =>
           if (b =? 0) || negb (b =? b) then baseline = shelf_position s
           else baseline = b
       | None => baseline = shelf_position s
       end) /\
  (forall closure prev id x i c,
     nth_error (columns (pro_unit prev)) i = Some c -> column_id c = id ->
     exists baseline,
       nth_error (columns (pro_unit (handleColumnDrag closure prev id x))) i =
         Some (mkColumn id x (newDivisions (abs (x - baseline)))) /\
       match dragStartPosition closure !! id with
       | Some b =>
           if (b =? 0) || negb (b =? b) then baseline = column_position c
           else baseline = b
       | None => baseline = column_position c
       end) /\
  (forall closure prev id y i s,
     nth_error (ShelvingUnit3D.shelves (ShelvingUnit3D.unit3 prev)) i = Some s ->
     shelf_id s = id ->
     exists baseline,
       nth_error
         (ShelvingUnit3D.shelves
            (ShelvingUnit3D.unit3
               (ShelvingUnit3D.handleShelfDrag closure prev id y))) i =
         Some (mkShelf id y (newDivisions (abs (y - baseline)))) /\
       match ShelvingUnit3D.dragStartPosition closure !! id with
       | Some b =>
           if (b =? 0) || negb (b =? b) then baseline = shelf_position s
           else baseline = b
       | None => baseline = shelf_position s
       end) /\
  abs (0.55 - 0.5) = 0.050000000000000044 /\
  shelves (pro_unit (handleShelfDrag initialState initialState "s1" 0.55)) =
    [mkShelf "s1" 0.55 2] /\
  columns (pro_unit (handleColumnDrag initialState initialState "c1" 0.65)) =
    [mkColumn "c1" 0.65 4].
Proof.
  assert (C1 : (0.05 <? 0.1) = true) by reflexivity.
  assert (C2 : (0.1 <? 0.15) = true) by reflexivity.
  assert (C3 : (0.15 <? 0.2) = true) by reflexivity.
  assert (C13 : (0.05 <? 0.15) = true) by reflexivity.
  assert (C14 : (0.05 <? 0.2) = true) by reflexivity.
  assert (C24 : (0.1 <? 0.2) = true) by reflexivity.
  split; [| split; [| split; [| split; [| split; [| split; [| split;
    [| split; [| split; [| split; [| split; [| split; [| split]]]]]]]]]]]].
  - intros d H. rewrite newDivisions_cascade.
    rewrite (double_below 0.05 0.2 d H C14), (double_below 0.05 0.15 d H C13),
            (double_below 0.05 0.1 d H C1), (double_leb_not_ltb d 0.05 H).
    reflexivity.
  - intros d H1 H2. rewrite newDivisions_cascade.
    rewrite (double_below 0.1 0.2 d H2 C24), (double_below 0.1 0.15 d H2 C2),
            (double_leb_not_ltb d 0.1 H2), H1.
    reflexivity.
  - intros d H1 H2. rewrite newDivisions_cascade.
    rewrite (double_below 0.15 0.2 d H2 C3), (double_leb_not_ltb d 0.15 H2), H1.
    reflexivity.
  - intros d H1 H2. rewrite newDivisions_cascade.
    rewrite (double_leb_not_ltb d 0.2 H2), H1. reflexivity.
  - intros d H. rewrite newDivisions_cascade, H. reflexivity.
  - reflexivity.
  - apply newDivisions_monotone64.
  - intros d. rewrite newDivisions_cascade.
    destruct (0.2 <? d), (0.15 <? d), (0.1 <? d), (0.05 <? d); lia.
  - intros closure prev id y i s Hn Hid.
    destruct (dragShelf_hit64 (dragStartPosition closure) id y s Hid)
      as (baseline & Hd & Hb).
    exists baseline. split; [| exact Hb].
    simpl. rewrite nth_error_map, Hn. simpl. rewrite Hd. reflexivity.
  - intros closure prev id x i c Hn Hid.
    destruct (dragColumn_hit64 (dragStartPosition closure) id x c Hid)
      as (baseline & Hd & Hb).
    exists baseline. split; [| exact Hb].
    simpl. rewrite nth_error_map, Hn. simpl. rewrite Hd. reflexivity.
  - intros closure prev id y i s Hn Hid.
    destruct (dragShelf_hit64 (ShelvingUnit3D.dragStartPosition closure) id y s Hid)
      as (baseline & Hd & Hb).
    exists baseline. split; [| exact Hb].
    simpl. rewrite nth_error_map, Hn. simpl. rewrite Hd. reflexivity.
  - reflexivity.
  - reflexivity.
  - reflexivity.
Qed.

Lemma drag_divisions_follow_thresholds_witness :
  nth_error (shelves (pro_unit midGestureState)) 0 = Some (mkShelf "s1" 0.6 3) /\
  dragStartPosition midGestureState !! "s1"%string = Some 0.5 /\
  newDivisions 0.07 = 2%Z /\
  exists baseline,
    nth_error
      (shelves (pro_unit (handleShelfDrag midGestureState midGestureState "s1" 0.73)))
      0 = Some (mkShelf "s1" 0.73 (newDivisions (abs (0.73 - baseline)))) /\
    baseline = 0.5.
Proof.
  split; [reflexivity |]. split; [reflexivity |]. split.
  - apply (proj1 (proj2 drag_divisions_follow_thresholds)); reflexivity.
  - exact (proj1 (proj2 (proj2 (proj2 (proj2 (proj2 (proj2 (proj2 (proj2
             drag_divisions_follow_thresholds))))))))
             midGestureState midGestureState "s1"%string 0.73 0%nat
             (mkShelf "s1" 0.6 3) eq_refl eq_refl).
Defined.

End DragResolver64.

(** ** The first sample of a gesture *)

Section FirstSample64.

Import Doubles.
Local Open Scope float_scope.









End FirstSample64.

(** ** The layout inserter on binary64 numbers *)

Section LayoutInserter64.

Import Doubles.
Local Open Scope float_scope.









End LayoutInserter64.

(** ** The dimension label on binary64 numbers *)

Section DimensionLabel64.

Import Doubles.
Local Open Scope float_scope.

Lemma exactQ_finite (x : float) :
  (exists q, exactQ x = Some q) <-> finite x = true.
Proof.
  unfold exactQ, finite. destruct (Prim2SF x); split;
    solve [reflexivity | discriminate | intros [q H]; discriminate H
          | intros _; eexists; reflexivity].
Qed.









End DimensionLabel64.

(** * Further properties of the code *)

(** ** The drag handlers as updates of one element *)

Lemma map_dragShelf_ids (dsp : gmap string Q) (id : string) (y : Q)
    (l : list Shelf) :
  List.map shelf_id (List.map (dragShelf dsp id y) l) = List.map shelf_id l.
Proof.
  rewrite List.map_map. apply map_ext. intros s. unfold dragShelf.
  destruct (String.eqb (shelf_id s) id); reflexivity.
Qed.

Lemma map_dragColumn_ids (dsp : gmap string Q) (id : string) (x : Q)
    (l : list Column) :
  List.map column_id (List.map (dragColumn dsp id x) l) = List.map column_id l.
Proof.
  rewrite List.map_map. apply map_ext. intros c. unfold dragColumn.
  destruct (String.eqb (column_id c) id); reflexivity.
Qed.

Lemma drag_session_other_key (dsp : gmap string Q) (id k : string) (v : Q) :
  k <> id ->
  (if js_not (dsp !! id) then <[ id := v ]> dsp else dsp) !! k = dsp !! k.
Proof.
  intros Hk. destruct (js_not (dsp !! id)); [| reflexivity].
  apply lookup_insert_ne. congruence.
Qed.

(** X1: a drag update rewrites only the elements with the dragged id: the
    sequence of ids (so the length and the order of the list) is kept,
    every element with another id is kept as it is, the other list and all
    the other fields of the unit are kept, and the session map changes at
    most at the dragged id. *)
Theorem drag_rewrites_only_the_dragged_element :
  forall (st : ProState) (id : string) (p : Q),
    (let st' := handleShelfDrag st id p in
     List.map shelf_id (shelves (pro_unit st')) =
       List.map shelf_id (shelves (pro_unit st)) /\
     (forall i s,
        nth_error (shelves (pro_unit st)) i = Some s -> shelf_id s <> id ->
        nth_error (shelves (pro_unit st')) i = Some s) /\
     set_shelves (pro_unit st') (shelves (pro_unit st)) = pro_unit st /\
     (forall k, k <> id ->
        dragStartPosition st' !! k = dragStartPosition st !! k)) /\
    (let st' := handleColumnDrag st id p in
     List.map column_id (columns (pro_unit st')) =
       List.map column_id (columns (pro_unit st)) /\
     (forall i c,
        nth_error (columns (pro_unit st)) i = Some c -> column_id c <> id ->
        nth_error (columns (pro_unit st')) i = Some c) /\
     set_columns (pro_unit st') (columns (pro_unit st)) = pro_unit st /\
     (forall k, k <> id ->
        dragStartPosition st' !! k = dragStartPosition st !! k)).
Proof.
  intros [u dsp] id p. split; cbv zeta; simpl.
  - split; [apply map_dragShelf_ids |]. split; [| split].
    + intros i s Hn Hid. rewrite nth_error_map, Hn. simpl. f_equal.
      apply dragShelf_miss, Hid.
    + destruct u; reflexivity.
    + intros k Hk. apply drag_session_other_key, Hk.
  - split; [apply map_dragColumn_ids |]. split; [| split].
    + intros i c Hn Hid. rewrite nth_error_map, Hn. simpl. f_equal.
      apply dragColumn_miss, Hid.
    + destruct u; reflexivity.
    + intros k Hk. apply drag_session_other_key, Hk.
Qed.

(** ** Adding and removing elements *)

Lemma set_shelves_same (u : ShelvingUnitState) : set_shelves u (shelves u) = u.
Proof. destruct u; reflexivity. Qed.

Lemma set_columns_same (u : ShelvingUnitState) : set_columns u (columns u) = u.
Proof. destruct u; reflexivity. Qed.

(** X3: [removeShelf] undoes [addShelf] and [removeColumn] undoes
    [addColumn]; on an empty list the remove handlers change nothing, and
    otherwise they drop exactly the last element and touch nothing else. *)
Theorem remove_undoes_add :
  forall (st : ProState) (now : Z),
    removeShelf (addShelf st now) = st /\
    removeColumn (addColumn st now) = st /\
    (shelves (pro_unit st) = [] -> removeShelf st = st) /\
    (columns (pro_unit st) = [] -> removeColumn st = st) /\
    shelves (pro_unit (removeShelf st)) = removelast (shelves (pro_unit st)) /\
    columns (pro_unit (removeColumn st)) = removelast (columns (pro_unit st)) /\
    columns (pro_unit (removeShelf st)) = columns (pro_unit st) /\
    shelves (pro_unit (removeColumn st)) = shelves (pro_unit st).
Proof.
  intros [u dsp] now.
  split; [| split; [| split; [| split; [| split; [| split; [| split]]]]]].
  - unfold removeShelf, addShelf. simpl. rewrite length_app. simpl.
    replace (0 <? List.length (shelves u) + 1)%nat with true
      by (symmetry; apply Nat.ltb_lt; lia).
    unfold slice_0_m1. rewrite removelast_last. f_equal.
    destruct u; reflexivity.
  - unfold removeColumn, addColumn. simpl. rewrite length_app. simpl.
    replace (0 <? List.length (columns u) + 1)%nat with true
      by (symmetry; apply Nat.ltb_lt; lia).
    unfold slice_0_m1. rewrite removelast_last. f_equal.
    destruct u; reflexivity.
  - simpl. intros H. unfold removeShelf. simpl. rewrite H. reflexivity.
  - simpl. intros H. unfold removeColumn. simpl. rewrite H. reflexivity.
  - unfold removeShelf. simpl. destruct (shelves u) eqn:E; simpl; [rewrite E |]; reflexivity.
  - unfold removeColumn. simpl. destruct (columns u) eqn:E; simpl; [rewrite E |]; reflexivity.
  - unfold removeShelf. simpl. destruct (shelves u); reflexivity.
  - unfold removeColumn. simpl. destruct (columns u); reflexivity.
Qed.

(** ** Where the layout inserter puts the new element *)

Lemma sumWidths_cons (g : Q * Q) (rest : list (Q * Q)) :
  sumWidths (g :: rest) = gapWidth g + sumWidths rest.
Proof. reflexivity. Qed.

Lemma sumWidths_app (a b : list (Q * Q)) :
  sumWidths (a ++ b) == sumWidths a + sumWidths b.
Proof.
  induction a as [| g a IH]; simpl; lra.
Qed.

Lemma sumWidths_interior (l : list Q) :
  forall a, sumWidths (interiorGaps (a :: l)) == List.last (a :: l) 0 - a.
Proof.
  induction l as [| b l IH]; intros a.
  - simpl. lra.
  - change (interiorGaps (a :: b :: l)) with ((a, b) :: interiorGaps (b :: l)).
    change (List.last (a :: b :: l) 0) with (List.last (b :: l) 0).
    rewrite sumWidths_cons. pose proof (IH b) as E.
    unfold gapWidth. cbn [fst snd]. lra.
Qed.

Lemma sumWidths_candidates (a : Q) (l : list Q) :
  sumWidths (candidateGaps (a :: l)) == 1.
Proof.
  unfold candidateGaps. rewrite sumWidths_cons.
  pose proof (sumWidths_app (interiorGaps (a :: l)) [(List.last (a :: l) 0, 1)]) as E1.
  pose proof (sumWidths_interior l a) as E2.
  rewrite sumWidths_cons in E1. change (sumWidths []) with 0 in E1.
  unfold gapWidth in *. cbn [fst snd] in *. lra.
Qed.

Lemma sumWidths_nonpositive (gs : list (Q * Q)) :
  (forall g, In g gs -> gapWidth g <= 0) -> sumWidths gs <= 0.
Proof.
  induction gs as [| g gs IH]; intros H; simpl; [lra |].
  pose proof (H g (or_introl eq_refl)) as Hg.
  assert (Hr : sumWidths gs <= 0) by (apply IH; intros g' Hg'; apply H; right; exact Hg').
  lra.
Qed.

Lemma sorted_head_least (l : list Q) :
  forall a, sortedb (a :: l) = true -> forall p, In p (a :: l) -> a <= p.
Proof.
  induction l as [| b l IH]; intros a Hs p Hp.
  - destruct Hp as [<- | []]. lra.
  - apply sortedb_cons in Hs. destruct Hs as [Hab Hs].
    destruct Hp as [<- | Hp]; [lra |].
    specialize (IH b Hs p Hp). lra.
Qed.

Lemma sorted_last_greatest (l : list Q) :
  forall a, sortedb (a :: l) = true ->
    forall p, In p (a :: l) -> p <= List.last (a :: l) 0.
Proof.
  induction l as [| b l IH]; intros a Hs p Hp.
  - destruct Hp as [<- | []]. simpl. lra.
  - apply sortedb_cons in Hs. destruct Hs as [Hab Hs].
    change (List.last (a :: b :: l) 0) with (List.last (b :: l) 0).
    destruct Hp as [<- | Hp].
    + specialize (IH b Hs b (or_introl eq_refl)). lra.
    + apply (IH b Hs p Hp).
Qed.

Lemma last_in (l : list Q) (a : Q) : In (List.last (a :: l) 0) (a :: l).
Proof.
  revert a. induction l as [| b l IH]; intros a; [left; reflexivity |].
  right. apply IH.
Qed.

(** No position lies strictly inside an interior gap. *)
Lemma interior_gap_separates (l : list Q) :
  forall a g, sortedb (a :: l) = true -> In g (interiorGaps (a :: l)) ->
    In (fst g) (a :: l) /\ In (snd g) (a :: l) /\
    forall p, In p (a :: l) -> p <= fst g \/ snd g <= p.
Proof.
  induction l as [| b l IH]; intros a g Hs Hg; [destruct Hg |].
  pose proof (sorted_head_least _ _ Hs) as Hmin.
  apply sortedb_cons in Hs. destruct Hs as [Hab Hs].
  change (interiorGaps (a :: b :: l)) with ((a, b) :: interiorGaps (b :: l)) in Hg.
  destruct Hg as [<- | Hg].
  - simpl. split; [left; reflexivity |]. split; [right; left; reflexivity |].
    intros p [<- | Hp]; [left; lra |]. right.
    apply (sorted_head_least _ _ Hs p Hp).
  - destruct (IH b g Hs Hg) as (Hf & Hsn & Hsep).
    split; [right; exact Hf |]. split; [right; exact Hsn |].
    intros p [<- | Hp]; [| apply Hsep, Hp].
    left. pose proof (sorted_head_least _ _ Hs (fst g) Hf). lra.
Qed.

Lemma inUnitb_bounds (x : Q) : inUnitb x = true -> 0 <= x /\ x <= 1.
Proof.
  unfold inUnitb. intros H. apply andb_true_iff in H. destruct H as [H1 H2].
  apply Qle_bool_iff in H1. apply Qle_bool_iff in H2. split; assumption.
Qed.

Lemma candidate_gap_separates (a : Q) (l : list Q) (g : Q * Q) :
  sortedb (a :: l) = true -> forallb inUnitb (a :: l) = true ->
  In g (candidateGaps (a :: l)) ->
  0 <= fst g /\ snd g <= 1 /\
  forall p, In p (a :: l) -> p <= fst g \/ snd g <= p.
Proof.
  intros Hs Hr Hg.
  assert (Hin : forall p, In p (a :: l) -> 0 <= p /\ p <= 1).
  { intros p Hp. apply inUnitb_bounds.
    rewrite forallb_forall in Hr. apply Hr, Hp. }
  unfold candidateGaps in Hg. destruct Hg as [<- | Hg].
  - simpl. split; [lra |]. split; [apply (Hin a); left; reflexivity |].
    intros p Hp. right. apply (sorted_head_least _ _ Hs p Hp).
  - apply in_app_or in Hg. destruct Hg as [Hg | [<- | []]].
    + destruct (interior_gap_separates l a g Hs Hg) as (Hf & Hsn & Hsep).
      split; [apply (Hin _ Hf) |]. split; [apply (Hin _ Hsn) | exact Hsep].
    + simpl. split; [apply (Hin _ (last_in l a)) |]. split; [lra |].
      intros p Hp. left. apply (sorted_last_greatest _ _ Hs p Hp).
Qed.

Lemma newPosition_strictly_inside (pos : list Q) :
  pos <> [] -> sortedb pos = true -> forallb inUnitb pos = true ->
  0 < newPosition pos /\ newPosition pos < 1 /\
  forall p, In p pos -> ~ newPosition pos == p.
Proof.
  intros Hne Hs Hr.
  pose proof (newPosition_refines_spec pos Hne Hs Hr) as Href.
  destruct pos as [| a l]; [congruence |].
  unfold spec_insertPosition in Href.
  remember (candidateGaps (a :: l)) as gs eqn:Egs.
  assert (Hsum : sumWidths gs == 1) by (rewrite Egs; apply sumWidths_candidates).
  destruct gs as [| g rest]; [simpl in Hsum; lra |].
  destruct (spec_widestGap_first_widest g rest) as (k & Hk & Hmax & _).
  set (w := spec_widestGap g rest) in *.
  assert (Hw : In w (candidateGaps (a :: l))).
  { rewrite <- Egs. apply (nth_error_In _ _ Hk). }
  assert (Hpos : 0 < gapWidth w).
  { destruct (Qlt_le_dec 0 (gapWidth w)) as [H | H]; [exact H |].
    assert (Hall : forall g', In g' (g :: rest) -> gapWidth g' <= 0).
    { intros g' Hg'. specialize (Hmax g' Hg'). lra. }
    pose proof (sumWidths_nonpositive _ Hall). lra. }
  destruct (candidate_gap_separates a l w Hs Hr Hw) as (H0 & H1 & Hsep).
  unfold gapWidth in Hpos. unfold gapMidpoint in Href.
  assert (Hlo : fst w < newPosition (a :: l)).
  { rewrite Href. apply Qlt_shift_div_l; lra. }
  assert (Hhi : newPosition (a :: l) < snd w).
  { rewrite Href. apply Qlt_shift_div_r; lra. }
  split; [lra |]. split; [lra |].
  intros p Hp Heq. destruct (Hsep p Hp); lra.
Qed.

Lemma forallb_map_In {A : Type} (f : A -> Q) (l : list A) (x : A) :
  forallb inUnitb (List.map f l) = true -> In x l -> inUnitb (f x) = true.
Proof.
  intros H Hx. rewrite forallb_forall in H. apply H. apply in_map, Hx.
Qed.

Lemma sortNumbers_In (l : list Q) (p : Q) : In p l -> In p (sortNumbers l).
Proof.
  assert (Hins : forall x m q, In q (x :: m) -> In q (insertSorted x m)).
  { intros x m. induction m as [| y m IH]; intros q Hq; [exact Hq |].
    simpl. destruct (Qle_bool x y); [exact Hq |].
    destruct Hq as [<- | [<- | Hq]].
    - right. apply IH. left. reflexivity.
    - left. reflexivity.
    - right. apply IH. right. exact Hq. }
  induction l as [| x l IH]; intros Hp; [destruct Hp |].
  simpl. apply Hins. destruct Hp as [<- | Hp]; [left; reflexivity |].
  right. apply IH, Hp.
Qed.

Lemma newPosition_of_state_positions (l : list Q) :
  forallb inUnitb l = true ->
  let p := newPosition (sortNumbers l) in
  0 < p /\ p < 1 /\ forall q, In q l -> ~ p == q.
Proof.
  intros Hr. destruct l as [| x l].
  - simpl. split; [reflexivity |]. split; [reflexivity |]. intros q [].
  - cbv zeta.
    destruct (newPosition_strictly_inside (sortNumbers (x :: l))) as (H0 & H1 & Hd).
    + simpl. apply insertSorted_not_nil.
    + apply sortNumbers_sorted.
    + rewrite sortNumbers_forallb. exact Hr.
    + split; [exact H0 |]. split; [exact H1 |].
      intros q Hq. apply Hd. apply sortNumbers_In, Hq.
Qed.

(** X4: when every stored position lies in [0,1], the element that
    [addShelf] or [addColumn] appends gets a position strictly between 0
    and 1 that differs from the position of every element already there
    (it is strictly inside a gap of positive width), and 2 divisions. *)
Theorem added_element_collides_with_none :
  forall (st : ProState) (now : Z),
    (forallb inUnitb (List.map shelf_position (shelves (pro_unit st))) = true ->
     exists p,
       shelves (pro_unit (addShelf st now)) =
         shelves (pro_unit st) ++ [mkShelf ("s" ++ string_of_Z now) p 2] /\
       0 < p /\ p < 1 /\
       forall s, In s (shelves (pro_unit st)) -> ~ p == shelf_position s) /\
    (forallb inUnitb (List.map column_position (columns (pro_unit st))) = true ->
     exists p,
       columns (pro_unit (addColumn st now)) =
         columns (pro_unit st) ++ [mkColumn ("c" ++ string_of_Z now) p 2] /\
       0 < p /\ p < 1 /\
       forall c, In c (columns (pro_unit st)) -> ~ p == column_position c).
Proof.
  intros st now. split; intros Hr.
  - destruct (newPosition_of_state_positions _ Hr) as (H0 & H1 & Hd).
    eexists. split; [reflexivity |]. split; [exact H0 |]. split; [exact H1 |].
    intros s Hs. apply Hd. apply in_map, Hs.
  - destruct (newPosition_of_state_positions _ Hr) as (H0 & H1 & Hd).
    eexists. split; [reflexivity |]. split; [exact H0 |]. split; [exact H1 |].
    intros c Hc. apply Hd. apply in_map, Hc.
Qed.

Lemma added_element_collides_with_none_witness :
  exists p,
    shelves (pro_unit (addShelf initialState 7)) =
      shelves (pro_unit initialState) ++ [mkShelf ("s" ++ string_of_Z 7) p 2] /\
    0 < p /\ p < 1 /\
    forall s, In s (shelves (pro_unit initialState)) -> ~ p == shelf_position s.
Proof.
  apply (proj1 (added_element_collides_with_none initialState 7)).
  reflexivity.
Defined.

(** ** An invariant of the component's state *)

Lemma newDivisions_range (d : Q) : (1 <= newDivisions d <= 5)%Z.
Proof.
  destruct (newDivisions_cases d) as [A | [A | [A | [A | A]]]];
    decompose [and] A; lia.
Qed.

Lemma Forall_removelast {A : Type} (P : A -> Prop) (l : list A) :
  Forall P l -> Forall P (removelast l).
Proof.
  induction l as [| a l IH]; intros H; [constructor |].
  inversion H as [| ? ? Ha Hl]; subst. simpl.
  destruct l; [constructor |]. constructor; [exact Ha | apply IH, Hl].
Qed.

Lemma Forall_map_step {A : Type} (P : A -> Prop) (f : A -> A) (l : list A) :
  (forall x, P x -> P (f x)) -> Forall P l -> Forall P (List.map f l).
Proof.
  intros Hf H. induction H as [| x l Hx Hl IH]; simpl; constructor; auto.
Qed.

Lemma divisionsOk_layouts (layout : LayoutName) :
  Forall (fun s => (1 <= shelf_divisions s <= 5)%Z) (LAYOUTS_shelves layout) /\
  Forall (fun c => (1 <= column_divisions c <= 5)%Z) (LAYOUTS_columns layout).
Proof.
  destruct layout; split; repeat constructor; simpl; lia.
Qed.

Lemma proStep_divisionsOk (st : ProState) (ev : ProEvent) :
  divisionsOk st -> divisionsOk (proStep st ev).
Proof.
  intros [Hs Hc]. unfold divisionsOk.
  destruct ev; simpl; try (split; assumption).
  - split; [| exact Hc]. apply Forall_map_step; [| exact Hs].
    intros s H. unfold dragShelf.
    destruct (String.eqb (shelf_id s) id); [apply newDivisions_range | exact H].
  - split; [exact Hs |]. apply Forall_map_step; [| exact Hc].
    intros c H. unfold dragColumn.
    destruct (String.eqb (column_id c) id); [apply newDivisions_range | exact H].
  - split; [| exact Hc]. apply Forall_app. split; [exact Hs |].
    constructor; [simpl; lia | constructor].
  - split; [exact Hs |]. apply Forall_app. split; [exact Hc |].
    constructor; [simpl; lia | constructor].
  - unfold removeShelf.
    destruct (0 <? List.length (shelves (pro_unit st)))%nat; simpl;
      [| split; assumption].
    split; [apply Forall_removelast, Hs | exact Hc].
  - unfold removeColumn.
    destruct (0 <? List.length (columns (pro_unit st)))%nat; simpl;
      [| split; assumption].
    split; [exact Hs | apply Forall_removelast, Hc].
  - apply divisionsOk_layouts.
  - apply (divisionsOk_layouts basic).
Qed.

(** X5: in every state that the handlers of [ShelvingUnitPro] can reach
    from the initial state, by any sequence of drags, releases, additions,
    removals, presets, resets, toggles and slider changes, every shelf and
    every column has between 1 and 5 divisions. *)
Theorem reachable_divisions_between_1_and_5 :
  forall evs : list ProEvent, divisionsOk (proRun initialState evs).
Proof.
  intros evs. unfold proRun.
  assert (H0 : divisionsOk initialState).
  { split; repeat constructor; simpl; lia. }
  revert H0. generalize initialState.
  induction evs as [| ev evs IH]; intros st H; simpl; [exact H |].
  apply IH, proStep_divisionsOk, H.
Qed.

(** ** The boards between the panels *)

Ltac box_arith :=
  unfold xMin, xMax, yMin, yMax, zMin, zMax, tx, ty, tz, sceneOrigin;
  simpl; try lra; try field.

(** X6: the outer panels.  The side panels reach from -width/2 to
    width/2 and from -height/2 to height/2, the back panel starts at
    -depth/2; the bottom and the top panel are centred on -height/2 and
    height/2, so each sticks out by thickness/2 beyond the side panels. *)
Theorem panels_envelope :
  forall u : ShelvingUnitState,
    let M := ShelvingUnitModel u in
    xMin sceneOrigin (leftSide M) == - width u / 2 /\
    xMax sceneOrigin (rightSide M) == width u / 2 /\
    xMax sceneOrigin (leftSide M) == - width u / 2 + thickness u /\
    xMin sceneOrigin (rightSide M) == width u / 2 - thickness u /\
    yMin sceneOrigin (leftSide M) == - height u / 2 /\
    yMax sceneOrigin (leftSide M) == height u / 2 /\
    yMin sceneOrigin (rightSide M) == - height u / 2 /\
    yMax sceneOrigin (rightSide M) == height u / 2 /\
    zMin sceneOrigin (back M) == - depth u / 2 /\
    zMax sceneOrigin (back M) == - depth u / 2 + thickness u /\
    yMin sceneOrigin (bottom M) == yMin sceneOrigin (leftSide M) - thickness u / 2 /\
    yMax sceneOrigin (top M) == yMax sceneOrigin (leftSide M) + thickness u / 2 /\
    xMin sceneOrigin (bottom M) == - width u / 2 /\
    xMax sceneOrigin (bottom M) == width u / 2 /\
    xMin sceneOrigin (top M) == - width u / 2 /\
    xMax sceneOrigin (top M) == width u / 2.
Proof.
  intros u M. unfold M, ShelvingUnitModel. repeat split; box_arith.
Qed.

(** X7: every shelf board reaches exactly from the inner face of the left
    panel to the inner face of the right panel and from the front face of
    the back panel to one thickness short of the front; every column board
    reaches from the lower to the upper end of the side panels and has the
    same depth range as the shelves. *)
Theorem boards_meet_the_panels :
  forall u : ShelvingUnitState,
    let M := ShelvingUnitModel u in
    (forall i s,
       nth_error (shelves u) i = Some s ->
       exists g,
         nth_error (shelfComponents M) i = Some g /\
         xMin (group_position g) (mainMesh g) == xMax sceneOrigin (leftSide M) /\
         xMax (group_position g) (mainMesh g) == xMin sceneOrigin (rightSide M) /\
         zMin (group_position g) (mainMesh g) == zMax sceneOrigin (back M) /\
         zMax (group_position g) (mainMesh g) ==
           zMax sceneOrigin (leftSide M) - thickness u /\
         yMax (group_position g) (mainMesh g)
           - yMin (group_position g) (mainMesh g) == thickness u) /\
    (forall i c,
       nth_error (columns u) i = Some c ->
       exists g,
         nth_error (columnComponents M) i = Some g /\
         yMin (group_position g) (mainMesh g) == yMin sceneOrigin (leftSide M) /\
         yMax (group_position g) (mainMesh g) == yMax sceneOrigin (leftSide M) /\
         zMin (group_position g) (mainMesh g) == zMax sceneOrigin (back M) /\
         zMax (group_position g) (mainMesh g) ==
           zMax sceneOrigin (leftSide M) - thickness u /\
         xMax (group_position g) (mainMesh g)
           - xMin (group_position g) (mainMesh g) == thickness u).
Proof.
  intros u M. split.
  - intros i s Hn. exists (shelfComponent u s). split.
    + unfold M. simpl. rewrite nth_error_map, Hn. reflexivity.
    + unfold M, ShelvingUnitModel, shelfComponent, ShelfWithDivisions.
      repeat split; box_arith.
  - intros i c Hn. exists (columnComponent u c). split.
    + unfold M. simpl. rewrite nth_error_map, Hn. reflexivity.
    + unfold M, ShelvingUnitModel, columnComponent, ColumnWithDivisions.
      repeat split; box_arith.
Qed.

(** ** Division boxes *)

Lemma inject_Z_pos (n : Z) : (0 < n)%Z -> 0 < inject_Z n.
Proof. intros H. change 0 with (inject_Z 0). rewrite <- Zlt_Qlt. exact H. Qed.

Lemma step_inside (w : Q) (n k : Z) :
  (1 <= k <= n - 1)%Z -> 0 < w ->
  0 < inject_Z k * (w / inject_Z n) /\ inject_Z k * (w / inject_Z n) < w.
Proof.
  intros Hk Hw.
  assert (Hn : 0 < inject_Z n) by (apply inject_Z_pos; lia).
  assert (Hq : 0 < w / inject_Z n) by (apply Qlt_shift_div_l; lra).
  assert (Hkp : 0 < inject_Z k) by (apply inject_Z_pos; lia).
  assert (Hkn : inject_Z k < inject_Z n) by (rewrite <- Zlt_Qlt; lia).
  assert (Hnq : inject_Z n * (w / inject_Z n) == w) by (field; lra).
  split.
  - apply Qmult_lt_0_compat; assumption.
  - rewrite <- Hnq at 2. apply Qmult_lt_compat_r; assumption.
Qed.

(** X8: with more than one division and a board of positive width, the
    division boxes of a shelf lie strictly between the two ends of the
    board, are placed symmetrically about its middle, and neighbours are
    one [boardWidth / divisions] apart. *)
Theorem shelf_divisions_evenly_inside :
  forall (u : ShelvingUnitState) (s : Shelf) (k : Z),
    0 < width u - thickness u * 2 ->
    (1 <= k <= shelf_divisions s - 1)%Z ->
    let g := shelfComponent u s in
    let n := shelf_divisions s in
    exists m m',
      nth_error (divisionMeshes g) (Z.to_nat (k - 1)) = Some m /\
      nth_error (divisionMeshes g) (Z.to_nat (n - k - 1)) = Some m' /\
      xMin (group_position g) (mainMesh g) < tx (mesh_position m) /\
      tx (mesh_position m) < xMax (group_position g) (mainMesh g) /\
      tx (mesh_position m) + tx (mesh_position m') == 0 /\
      ((k + 1 <= n - 1)%Z ->
       exists m'',
         nth_error (divisionMeshes g) (Z.to_nat k) = Some m'' /\
         tx (mesh_position m'') - tx (mesh_position m) ==
           (width u - thickness u * 2) / inject_Z n).
Proof.
  intros u s k Hw Hk g n. unfold g, n, shelfComponent. clear g n.
  set (w := width u - thickness u * 2) in *.
  set (d := shelf_divisions s) in *.
  set (p := (0, - height u / 2 + shelf_position s * height u, 0)).
  set (dp := depth u - thickness u * 2).
  assert (Hn : 0 < inject_Z d) by (apply inject_Z_pos; lia).
  destruct (step_inside w d k Hk Hw) as [H1 H2].
  pose proof (shelf_divisionMeshes_nth w (height u) dp p d k (thickness u) Hk) as Hm.
  assert (Hk' : (1 <= d - k <= d - 1)%Z) by lia.
  pose proof (shelf_divisionMeshes_nth w (height u) dp p d (d - k) (thickness u) Hk')
    as Hm'.
  replace (d - k - 1)%Z with ((d - k) - 1)%Z by lia.
  eexists. eexists. split; [exact Hm |]. split; [exact Hm' |].
  assert (E : - w / 2 == - (w / 2)) by field.
  assert (E2 : w == 2 * (w / 2)) by field.
  unfold xMin, xMax, tx, ShelfWithDivisions.
  cbn [group_position mainMesh mesh_position boxGeometry]. unfold p. cbn [fst snd].
  split; [set (kq := inject_Z k * (w / inject_Z d)) in *; lra |].
  split; [set (kq := inject_Z k * (w / inject_Z d)) in *; lra |]. split.
  - unfold Zminus. rewrite inject_Z_plus, inject_Z_opp. field. lra.
  - intros Hk1.
    assert (Hk'' : (1 <= k + 1 <= d - 1)%Z) by lia.
    pose proof (shelf_divisionMeshes_nth w (height u) dp p d (k + 1) (thickness u) Hk'')
      as Hm''.
    replace (k + 1 - 1)%Z with k in Hm'' by lia.
    eexists. split; [exact Hm'' |].
    cbn [mesh_position fst snd].
    rewrite inject_Z_plus. change (inject_Z 1) with 1. field. lra.
Qed.

Lemma shelf_divisions_evenly_inside_witness :
  exists m m',
    nth_error (divisionMeshes (shelfComponent threeDivisionUnit (mkShelf "s1" 0.5 3))) 0
      = Some m /\
    nth_error (divisionMeshes (shelfComponent threeDivisionUnit (mkShelf "s1" 0.5 3))) 1
      = Some m' /\
    tx (mesh_position m) + tx (mesh_position m') == 0.
Proof.
  destruct (shelf_divisions_evenly_inside threeDivisionUnit (mkShelf "s1" 0.5 3) 1)
    as (m & m' & H1 & H2 & _ & _ & H5 & _).
  - reflexivity.
  - simpl. lia.
  - exists m, m'. split; [exact H1 |]. split; [exact H2 | exact H5].
Defined.






(** ** From the dragged mesh to a normalized position *)



(** ** Millimeter values *)

Lemma Math_roundQ_nearest (x : Q) :
  x - (1 # 2) < inject_Z (Math_roundQ x) /\ inject_Z (Math_roundQ x) <= x + (1 # 2).
Proof.
  unfold Math_roundQ.
  pose proof (Qfloor_le (x + (1 # 2))) as H1.
  pose proof (Qlt_floor (x + (1 # 2))) as H2.
  rewrite inject_Z_plus in H2. change (inject_Z 1) with 1 in H2.
  split; lra.
Qed.

Lemma Math_roundQ_exact (x : Q) (k : Z) : x == inject_Z k -> Math_roundQ x = k.
Proof.
  intros H. unfold Math_roundQ.
  pose proof (Qfloor_le (x + (1 # 2))) as H1.
  pose proof (Qlt_floor (x + (1 # 2))) as H2.
  rewrite inject_Z_plus in H2. change (inject_Z 1) with 1 in H2.
  set (f := Qfloor (x + (1 # 2))) in *.
  assert (Ha : inject_Z f < inject_Z (k + 1)).
  { rewrite inject_Z_plus. change (inject_Z 1) with 1. lra. }
  assert (Hb : inject_Z (k - 1) < inject_Z f).
  { unfold Zminus. rewrite inject_Z_plus. change (inject_Z (- (1))) with (- (1)). lra. }
  rewrite <- Zlt_Qlt in Ha. rewrite <- Zlt_Qlt in Hb. lia.
Qed.

(** X11: each of the millimeter values [widthMM], [heightMM], [depthMM],
    [thicknessMM] of the side panel is within half a millimeter of 1000
    times the dimension, and is exact for a dimension that is a whole
    number of millimeters. *)
Theorem millimeter_values_are_nearest :
  forall u : ShelvingUnitState,
    (width u * 1000 - (1 # 2) < inject_Z (widthMM u) /\
     inject_Z (widthMM u) <= width u * 1000 + (1 # 2)) /\
    (height u * 1000 - (1 # 2) < inject_Z (heightMM u) /\
     inject_Z (heightMM u) <= height u * 1000 + (1 # 2)) /\
    (depth u * 1000 - (1 # 2) < inject_Z (depthMM u) /\
     inject_Z (depthMM u) <= depth u * 1000 + (1 # 2)) /\
    (thickness u * 1000 - (1 # 2) < inject_Z (thicknessMM u) /\
     inject_Z (thicknessMM u) <= thickness u * 1000 + (1 # 2)) /\
    (forall k, width u == inject_Z k / 1000 -> widthMM u = k) /\
    (forall k, height u == inject_Z k / 1000 -> heightMM u = k) /\
    (forall k, depth u == inject_Z k / 1000 -> depthMM u = k) /\
    (forall k, thickness u == inject_Z k / 1000 -> thicknessMM u = k).
Proof.
  intros u. unfold widthMM, heightMM, depthMM, thicknessMM, UNIT_TO_MM.
  repeat split; try apply Math_roundQ_nearest;
    intros k H; apply Math_roundQ_exact; rewrite H; field.
Qed.

(** ** The divider-based designer *)

Section Designer.

Import ShelvingUnitDesigner.

Lemma clamp_bounds (lo hi x : Q) :
  lo <= hi -> lo <= Qmax lo (Qmin hi x) /\ Qmax lo (Qmin hi x) <= hi.
Proof.
  intros H. split; [apply Q.le_max_l |].
  apply Q.max_lub; [exact H | apply Q.le_min_l].
Qed.

Lemma clamp_inside (lo hi x : Q) :
  lo <= x -> x <= hi -> Qmax lo (Qmin hi x) == x.
Proof.
  intros H1 H2. rewrite (Q.min_r hi x H2). apply Q.max_r, H1.
Qed.

(** X12: [handleResize] keeps the resized side within 200..800: the new
    value is old + change when that lies in the range, 200 when it is
    below and 800 when it is above; the other side and the dividers are
    kept. *)
Theorem resize_stays_within_200_800 :
  forall (prev : ShelvingUnitState) (change : Q),
    (let u := handleResize prev dirWidth change in
     200 <= width u /\ width u <= 800 /\
     (200 <= width prev + change -> width prev + change <= 800 ->
        width u == width prev + change) /\
     (width prev + change <= 200 -> width u == 200) /\
     (800 <= width prev + change -> width u == 800) /\
     height u = height prev /\
     horizontalDividers u = horizontalDividers prev /\
     verticalDividers u = verticalDividers prev) /\
    (let u := handleResize prev dirHeight change in
     200 <= height u /\ height u <= 800 /\
     (200 <= height prev + change -> height prev + change <= 800 ->
        height u == height prev + change) /\
     (height prev + change <= 200 -> height u == 200) /\
     (800 <= height prev + change -> height u == 800) /\
     width u = width prev /\
     horizontalDividers u = horizontalDividers prev /\
     verticalDividers u = verticalDividers prev).
Proof.
  intros prev change.
  assert (Hlow : forall x, x <= 200 -> Qmax 200 (Qmin 800 x) == 200).
  { intros x H. apply Q.max_l. rewrite (Q.min_r 800 x) by lra. exact H. }
  assert (Hhigh : forall x, 800 <= x -> Qmax 200 (Qmin 800 x) == 800).
  { intros x H. rewrite (Q.min_l 800 x H). apply Q.max_r. lra. }
  split; cbv zeta; simpl.
  - destruct (clamp_bounds 200 800 (width prev + change)) as [H1 H2]; [lra |].
    repeat split; try assumption.
    + apply clamp_inside.
    + apply Hlow.
    + apply Hhigh.
  - destruct (clamp_bounds 200 800 (height prev + change)) as [H1 H2]; [lra |].
    repeat split; try assumption.
    + apply clamp_inside.
    + apply Hlow.
    + apply Hhigh.
Qed.

Lemma map_moveDivider_ids (id0 : string) (q : Q) (l : list Divider) :
  List.map id (List.map (moveDivider id0 q) l) = List.map id l /\
  List.map type (List.map (moveDivider id0 q) l) = List.map type l.
Proof.
  split; rewrite List.map_map; apply map_ext; intros d; unfold moveDivider;
    destruct (String.eqb (id d) id0); reflexivity.
Qed.

Lemma moveDivider_nth (id0 : string) (q : Q) (l : list Divider) (i : nat)
    (d : Divider) :
  nth_error l i = Some d ->
  nth_error (List.map (moveDivider id0 q) l) i =
    Some (if String.eqb (id d) id0 then mkDivider (id d) q (type d) else d).
Proof.
  intros H. rewrite nth_error_map, H. reflexivity.
Qed.

(** X13: [handleDividerDrag] moves the dividers of the given kind that
    have the given id to the incoming position clamped to 0.1..0.9 (the
    incoming position itself when it lies in that range), keeps the ids,
    kinds, order and number of the dividers, keeps every other divider,
    the list of the other kind and the size. *)
Theorem divider_drag_clamps_and_keeps_the_rest :
  forall (prev : ShelvingUnitState) (id0 : string) (newPosition : Q),
    let q := Qmax 0.1 (Qmin 0.9 newPosition) in
    0.1 <= q /\ q <= 0.9 /\
    (0.1 <= newPosition -> newPosition <= 0.9 -> q == newPosition) /\
    (let u := handleDividerDrag prev id0 horizontal newPosition in
     width u = width prev /\ height u = height prev /\
     verticalDividers u = verticalDividers prev /\
     List.map id (horizontalDividers u) = List.map id (horizontalDividers prev) /\
     List.map type (horizontalDividers u) = List.map type (horizontalDividers prev) /\
     forall i d, nth_error (horizontalDividers prev) i = Some d ->
       nth_error (horizontalDividers u) i =
         Some (if String.eqb (id d) id0 then mkDivider (id d) q (type d) else d)) /\
    (let u := handleDividerDrag prev id0 vertical newPosition in
     width u = width prev /\ height u = height prev /\
     horizontalDividers u = horizontalDividers prev /\
     List.map id (verticalDividers u) = List.map id (verticalDividers prev) /\
     List.map type (verticalDividers u) = List.map type (verticalDividers prev) /\
     forall i d, nth_error (verticalDividers prev) i = Some d ->
       nth_error (verticalDividers u) i =
         Some (if String.eqb (id d) id0 then mkDivider (id d) q (type d) else d)).
Proof.
  intros prev id0 newPosition q.
  destruct (clamp_bounds 0.1 0.9 newPosition) as [H1 H2]; [lra |].
  split; [exact H1 |]. split; [exact H2 |].
  split; [apply clamp_inside |].
  split; cbv zeta; simpl.
  - split; [reflexivity |]. split; [reflexivity |]. split; [reflexivity |].
    split; [apply map_moveDivider_ids |]. split; [apply map_moveDivider_ids |].
    intros i d. apply moveDivider_nth.
  - split; [reflexivity |]. split; [reflexivity |]. split; [reflexivity |].
    split; [apply map_moveDivider_ids |]. split; [apply map_moveDivider_ids |].
    intros i d. apply moveDivider_nth.
Qed.

Lemma unit_eta (u : ShelvingUnitState) :
  mkUnit (width u) (height u) (horizontalDividers u) (verticalDividers u) = u.
Proof. destruct u; reflexivity. Qed.

(** X14: [removeDivider] undoes [addDivider] of the same kind; with no
    divider of that kind it changes nothing; adding a horizontal divider
    adds one row of cells and adding a vertical one adds one column. *)
Theorem remove_divider_undoes_add :
  forall (prev : ShelvingUnitState) (ty : DividerType) (now : Z),
    removeDivider (addDivider prev ty now) ty = prev /\
    (horizontalDividers prev = [] -> removeDivider prev horizontal = prev) /\
    (verticalDividers prev = [] -> removeDivider prev vertical = prev) /\
    totalCells (addDivider prev horizontal now) =
      (totalCells prev + horizontalSections prev)%nat /\
    totalCells (addDivider prev vertical now) =
      (totalCells prev + verticalSections prev)%nat.
Proof.
  intros prev ty now. split; [| split; [| split; [| split]]].
  - destruct ty; unfold removeDivider, addDivider; simpl;
      rewrite length_app; simpl;
      match goal with
      | |- context [(0 <? ?n + 1)%nat] =>
          replace (0 <? n + 1)%nat with true by (symmetry; apply Nat.ltb_lt; lia)
      end;
      rewrite removelast_last; apply unit_eta.
  - intros H. unfold removeDivider. rewrite H. reflexivity.
  - intros H. unfold removeDivider. rewrite H. reflexivity.
  - unfold totalCells, horizontalSections, verticalSections. simpl.
    rewrite length_app. simpl. lia.
  - unfold totalCells, horizontalSections, verticalSections. simpl.
    rewrite length_app. simpl. lia.
Qed.

Lemma positionsOk_layouts (layout : LayoutName) :
  positionsOk (LAYOUTS_horizontal layout) /\ positionsOk (LAYOUTS_vertical layout).
Proof.
  destruct layout; split; repeat constructor; simpl; lra.
Qed.

Lemma positionsOk_move (id0 : string) (x : Q) (l : list Divider) :
  positionsOk l -> positionsOk (List.map (moveDivider id0 (Qmax 0.1 (Qmin 0.9 x))) l).
Proof.
  intros H. induction H as [| d l Hd Hl IH]; simpl; constructor; [| exact IH].
  unfold moveDivider. destruct (String.eqb (id d) id0); [| exact Hd].
  simpl. apply clamp_bounds. lra.
Qed.

Lemma step_unitOk (u : ShelvingUnitState) (ev : Event) :
  unitOk u -> unitOk (step u ev).
Proof.
  intros (Hw1 & Hw2 & Hh1 & Hh2 & Hhd & Hvd). unfold unitOk.
  destruct ev as [direction change | id0 ty x | ty now | ty | layout |]; simpl.
  - destruct direction; simpl.
    + destruct (clamp_bounds 200 800 (width u + change)) as [H1 H2]; [lra |].
      repeat split; assumption.
    + destruct (clamp_bounds 200 800 (height u + change)) as [H1 H2]; [lra |].
      repeat split; assumption.
  - destruct ty; simpl; repeat split; try assumption; apply positionsOk_move;
      assumption.
  - destruct ty; simpl; repeat split; try assumption.
    all: apply Forall_app.
    all: split; [assumption |].
    all: constructor; [simpl; split; lra | constructor].
  - destruct ty; unfold removeDivider.
    + destruct (0 <? List.length (horizontalDividers u))%nat; simpl;
        repeat split; try assumption. apply Forall_removelast, Hhd.
    + destruct (0 <? List.length (verticalDividers u))%nat; simpl;
        repeat split; try assumption. apply Forall_removelast, Hvd.
  - repeat split; try assumption; apply positionsOk_layouts.
  - repeat split; try assumption; lra.
Qed.

Lemma run_unitOk (evs : list Event) :
  forall u, unitOk u -> unitOk (run u evs).
Proof.
  unfold run. induction evs as [| ev evs IH]; intros u H; simpl; [exact H |].
  apply IH, step_unitOk, H.
Qed.

(** X15: in every state the designer reaches from its initial state, by
    any sequence of resizes, divider drags, additions, removals, presets
    and size resets, width and height lie within 200..800 and every divider
    position within 0.1..0.9; so every divider bar (10 units thick) lies at
    least 15 units inside the frame on both sides. *)
Theorem designer_bars_stay_inside_the_frame :
  forall evs : list Event,
    let u := run initialUnit evs in
    unitOk u /\
    (forall d, In d (horizontalDividers u) ->
       let bar := horizontalBar u d in
       15 <= snd (fst (fst bar)) /\
       snd (fst (fst bar)) + snd bar <= height u - 15) /\
    (forall d, In d (verticalDividers u) ->
       let bar := verticalBar u d in
       15 <= fst (fst (fst bar)) /\
       fst (fst (fst bar)) + snd (fst bar) <= width u - 15).
Proof.
  intros evs u.
  assert (H : unitOk u).
  { apply run_unitOk. unfold unitOk, initialUnit. simpl.
    repeat split; try lra; repeat constructor; simpl; lra. }
  split; [exact H |].
  destruct H as (Hw1 & Hw2 & Hh1 & Hh2 & Hhd & Hvd).
  assert (Hprod : forall p s, 0.1 <= p -> p <= 0.9 -> 200 <= s ->
            20 <= p * s /\ p * s + 20 <= s).
  { intros p s Hp1 Hp2 Hs.
    assert (A : 0.1 * s <= p * s) by (apply Qmult_le_compat_r; lra).
    assert (B : p * s <= 0.9 * s) by (apply Qmult_le_compat_r; lra).
    set (ps := p * s) in *. split; lra. }
  split.
  - intros d Hd bar. unfold bar, horizontalBar. simpl.
    unfold positionsOk in Hhd. rewrite List.Forall_forall in Hhd. destruct (Hhd d Hd) as [Hp1 Hp2].
    destruct (Hprod (position d) (height u) Hp1 Hp2 Hh1) as [A B].
    set (ps := position d * height u) in *. split; lra.
  - intros d Hd bar. unfold bar, verticalBar. simpl.
    unfold positionsOk in Hvd. rewrite List.Forall_forall in Hvd. destruct (Hvd d Hd) as [Hp1 Hp2].
    destruct (Hprod (position d) (width u) Hp1 Hp2 Hw1) as [A B].
    set (ps := position d * width u) in *. split; lra.
Qed.

End Designer.

(** ** The drawn lines of the dimension annotations *)

Section DimensionGeometryFacts.

Import DimensionLabels.
Local Open Scope R_scope.

Lemma Vector3_eq (a b c a' b' c' : R) :
  a = a' -> b = b' -> c = c' -> mkV a b c = mkV a' b' c'.
Proof. intros -> -> ->. reflexivity. Qed.

Lemma sumsq_nonneg (x y z : R) : 0 <= x * x + y * y + z * z.
Proof. Lra.nra. Qed.

Lemma Vector3_length_nonneg (v : Vector3) : 0 <= Vector3_length v.
Proof. apply sqrt_pos. Qed.

Lemma Vector3_length_sq (v : Vector3) :
  Vector3_length v * Vector3_length v = vx v * vx v + vy v * vy v + vz v * vz v.
Proof. unfold Vector3_length. apply sqrt_sqrt, sumsq_nonneg. Qed.

Lemma length_multiplyScalar (v : Vector3) (s : R) :
  Vector3_length (multiplyScalar v s) = Rabs s * Vector3_length v.
Proof.
  unfold Vector3_length, multiplyScalar. simpl.
  replace (vx v * s * (vx v * s) + vy v * s * (vy v * s) + vz v * s * (vz v * s))
    with (Rsqr s * (vx v * vx v + vy v * vy v + vz v * vz v))
    by (unfold Rsqr; ring).
  rewrite sqrt_mult; [| apply Rle_0_sqr | apply sumsq_nonneg].
  rewrite sqrt_Rsqr_abs. reflexivity.
Qed.

Lemma normalize_unit (v : Vector3) :
  Vector3_length v <> 0 -> Vector3_length (normalize v) = 1.
Proof.
  intros Hl. unfold normalize.
  destruct (Req_EM_T (Vector3_length v) 0) as [E | _]; [contradiction |].
  unfold divideScalar. rewrite length_multiplyScalar.
  pose proof (Vector3_length_nonneg v) as Hpos.
  rewrite Rabs_right.
  - field. exact Hl.
  - apply Rle_ge. apply Rlt_le. apply Rdiv_lt_0_compat; Lra.lra.
Qed.

Lemma normalize_zero (v : Vector3) :
  Vector3_length v = 0 -> normalize v = v.
Proof.
  intros Hl. unfold normalize.
  destruct (Req_EM_T (Vector3_length v) 0) as [_ | N]; [| contradiction].
  unfold divideScalar, multiplyScalar. destruct v as [x y z]. simpl.
  apply Vector3_eq; field.
Qed.

Lemma length_zero_components (v : Vector3) :
  Vector3_length v = 0 -> vx v = 0 /\ vy v = 0 /\ vz v = 0.
Proof.
  intros H. pose proof (Vector3_length_sq v) as Hsq. rewrite H in Hsq.
  repeat split; Lra.nra.
Qed.

Lemma perpendicularTo_unit (d : Vector3) :
  Vector3_length (perpendicularTo d) = 1.
Proof.
  assert (Hx : Vector3_length (mkV 1 0 0) = 1).
  { unfold Vector3_length. simpl.
    replace (1 * 1 + 0 * 0 + 0 * 0) with 1 by ring. apply sqrt_1. }
  assert (Hn : vy d <> 0 \/ vx d <> 0 ->
               Vector3_length (normalize (mkV (vy d) (- vx d) 0)) = 1).
  { intros Hd. apply normalize_unit. intros H0.
    apply length_zero_components in H0. simpl in H0.
    destruct H0 as (Hy & Hxx & _). destruct Hd as [Hd | Hd]; Lra.lra. }
  unfold perpendicularTo.
  destruct (Rlt_dec (Rabs (vy d)) 0.1) as [Hy | Hy].
  - destruct (Rlt_dec (Rabs (vx d)) 0.1) as [Hxs | Hxs]; [exact Hx |].
    apply Hn. right. intros E. rewrite E, Rabs_R0 in Hxs. Lra.lra.
  - apply Hn. left. intros E. rewrite E, Rabs_R0 in Hy. Lra.lra.
Qed.

Lemma perpendicularTo_orthogonal (d : Vector3) :
  0.1 <= Rabs (vy d) \/ 0.1 <= Rabs (vx d) ->
  dot (perpendicularTo d) d = 0.
Proof.
  intros Hd.
  assert (Hn : dot (normalize (mkV (vy d) (- vx d) 0)) d = 0).
  { unfold dot, normalize, divideScalar, multiplyScalar. simpl. ring. }
  unfold perpendicularTo.
  destruct (Rlt_dec (Rabs (vy d)) 0.1) as [Hy | Hy]; [| exact Hn].
  destruct (Rlt_dec (Rabs (vx d)) 0.1) as [Hxs | Hxs]; [| exact Hn].
  destruct Hd; Lra.lra.
Qed.

Lemma distanceTo_length (a b : Vector3) :
  distanceTo a b = Vector3_length (sub a b).
Proof. reflexivity. Qed.

Lemma distanceTo_add_sub (a o : Vector3) :
  distanceTo (add a o) (sub a o) = 2 * Vector3_length o.
Proof.
  rewrite distanceTo_length.
  replace (sub (add a o) (sub a o)) with (multiplyScalar o 2)
    by (unfold sub, add, multiplyScalar; simpl; apply Vector3_eq; ring).
  rewrite length_multiplyScalar, Rabs_right by Lra.lra. reflexivity.
Qed.

Lemma distanceTo_add_self (a o : Vector3) :
  distanceTo (add a o) a = Vector3_length o.
Proof.
  rewrite distanceTo_length. f_equal.
  unfold sub, add. destruct o; simpl. apply Vector3_eq; ring.
Qed.

Lemma distanceTo_add_to (o a : Vector3) :
  distanceTo (add o a) a = Vector3_length o.
Proof.
  rewrite distanceTo_length. f_equal.
  unfold sub, add. destruct o; simpl. apply Vector3_eq; ring.
Qed.

(** X16: the perpendicular that [DimensionLine] and [LineWithThickness]
    use always has length 1, also for a line of length 0, and it is
    orthogonal to the direction unless the (1, 0, 0) fallback is taken; so
    the two side lines of [LineWithThickness] are translates of the main
    line, lie on both sides of it, and are |thickness| apart. *)
Theorem thick_line_sides_are_thickness_apart :
  forall (start end_ : Vector3) (thickness : R),
    let L := LineWithThickness start end_ thickness in
    let d := normalize (subVectors end_ start) in
    Vector3_length (perpendicularTo d) = 1 /\
    (0.1 <= Rabs (vy d) \/ 0.1 <= Rabs (vx d) -> dot (perpendicularTo d) d = 0) /\
    distanceTo (start1 L) (start2 L) = Rabs thickness /\
    distanceTo (end1 L) (end2 L) = Rabs thickness /\
    sub (end1 L) (start1 L) = sub end_ start /\
    sub (end2 L) (start2 L) = sub end_ start /\
    multiplyScalar (add (start1 L) (start2 L)) 0.5 = start /\
    multiplyScalar (add (end1 L) (end2 L)) 0.5 = end_.
Proof.
  intros start end_ thickness L d.
  assert (Hhalf : 2 * Vector3_length (multiplyScalar (perpendicularTo d) (thickness / 2))
                  = Rabs thickness).
  { rewrite length_multiplyScalar, perpendicularTo_unit.
    unfold Rdiv. rewrite Rabs_mult, (Rabs_right (/ 2)) by Lra.lra. field. }
  split; [apply perpendicularTo_unit |].
  split; [apply perpendicularTo_orthogonal |].
  unfold L, LineWithThickness. fold d. simpl.
  split; [rewrite distanceTo_add_sub; exact Hhalf |].
  split; [rewrite distanceTo_add_sub; exact Hhalf |].
  set (o := multiplyScalar (perpendicularTo d) (thickness / 2)).
  destruct start as [sx sy sz], end_ as [ex ey ez], o as [ox oy oz].
  unfold sub, add, multiplyScalar. simpl.
  repeat split; apply Vector3_eq; Lra.lra.
Qed.

(** X17: in [DimensionLine] both extension lines run from the anchor to
    the offset point, each moved sideways by exactly |extensionLineOffset|:
    they are equal translates of the offset vector, of length |offset| for
    a non-zero offset direction and of length 0 for a zero one. *)
Theorem extension_lines_follow_the_offset :
  forall (start end_ : Vector3) (offset : R) (offsetDirection : Vector3)
         (arrowSize extensionLineOffset : R),
    let G := DimensionLineGeometry start end_ offset offsetDirection
               arrowSize extensionLineOffset in
    let D := DimensionLine start end_ offset offsetDirection in
    let offsetVec := multiplyScalar (normalize offsetDirection) offset in
    sub (startExtB G) (startExtA G) = offsetVec /\
    sub (endExtB G) (endExtA G) = offsetVec /\
    distanceTo (startExtA G) start = Rabs extensionLineOffset /\
    distanceTo (endExtA G) end_ = Rabs extensionLineOffset /\
    distanceTo (startExtB G) (startPoint D) = Rabs extensionLineOffset /\
    distanceTo (endExtB G) (endPoint D) = Rabs extensionLineOffset /\
    (Vector3_length offsetDirection <> 0 ->
       distanceTo (startExtB G) (startExtA G) = Rabs offset /\
       distanceTo (endExtB G) (endExtA G) = Rabs offset) /\
    (Vector3_length offsetDirection = 0 ->
       startExtB G = startExtA G /\ endExtB G = endExtA G).
Proof.
  intros start end_ offset offsetDirection arrowSize extensionLineOffset G D offsetVec.
  unfold G, D, DimensionLineGeometry, DimensionLine. simpl. fold offsetVec.
  set (p := perpendicularTo (normalize (subVectors (add end_ offsetVec) (add start offsetVec)))).
  set (e := multiplyScalar p extensionLineOffset).
  assert (He : Vector3_length e = Rabs extensionLineOffset).
  { unfold e, p. rewrite length_multiplyScalar, perpendicularTo_unit. ring. }
  assert (Hs : sub (add (add start offsetVec) e) (add start e) = offsetVec).
  { destruct start, offsetVec, e. unfold sub, add. simpl. apply Vector3_eq; ring. }
  assert (Hen : sub (add (add end_ offsetVec) e) (add end_ e) = offsetVec).
  { destruct end_, offsetVec, e. unfold sub, add. simpl. apply Vector3_eq; ring. }
  split; [exact Hs |]. split; [exact Hen |].
  split; [rewrite distanceTo_add_self; exact He |].
  split; [rewrite distanceTo_add_self; exact He |].
  split; [rewrite distanceTo_add_self; exact He |].
  split; [rewrite distanceTo_add_self; exact He |].
  split.
  - intros Hd. rewrite !distanceTo_length, Hs, Hen. unfold offsetVec.
    rewrite length_multiplyScalar, (normalize_unit _ Hd). split; ring.
  - intros Hd.
    assert (Hz : offsetVec = mkV 0 0 0).
    { unfold offsetVec. rewrite (normalize_zero _ Hd).
      destruct (length_zero_components _ Hd) as (Hx & Hy & Hzz).
      unfold multiplyScalar. rewrite Hx, Hy, Hzz. apply Vector3_eq; ring. }
    rewrite Hz. destruct start, end_, e. unfold add. simpl.
    split; apply Vector3_eq; ring.
Qed.

Lemma length_applyAxisAngleZ (v : Vector3) (angle : R) :
  Vector3_length (applyAxisAngleZ v angle) = Vector3_length v.
Proof.
  unfold Vector3_length, applyAxisAngleZ. simpl. f_equal.
  pose proof (sin2_cos2 angle) as H. unfold Rsqr in H.
  replace ((vx v * cos angle - vy v * sin angle) * (vx v * cos angle - vy v * sin angle)
           + (vx v * sin angle + vy v * cos angle) * (vx v * sin angle + vy v * cos angle)
           + vz v * vz v)
    with ((vx v * vx v + vy v * vy v) * (sin angle * sin angle + cos angle * cos angle)
          + vz v * vz v) by ring.
  rewrite H. ring.
Qed.

Lemma length_negate (v : Vector3) : Vector3_length (negate v) = Vector3_length v.
Proof. unfold Vector3_length, negate. simpl. f_equal. ring. Qed.

(** X18: when the two anchors differ, each of the four arrowhead strokes
    of [DimensionLine] starts at an end of the dimension line and has
    length |arrowSize|; when they coincide the strokes have length 0. *)
Theorem arrowheads_have_arrow_size :
  forall (start end_ : Vector3) (offset : R) (offsetDirection : Vector3)
         (arrowSize extensionLineOffset : R),
    let G := DimensionLineGeometry start end_ offset offsetDirection
               arrowSize extensionLineOffset in
    let D := DimensionLine start end_ offset offsetDirection in
    (distanceTo end_ start <> 0 ->
       distanceTo (arrow1Point1 G) (startPoint D) = Rabs arrowSize /\
       distanceTo (arrow1Point2 G) (startPoint D) = Rabs arrowSize /\
       distanceTo (arrow2Point1 G) (endPoint D) = Rabs arrowSize /\
       distanceTo (arrow2Point2 G) (endPoint D) = Rabs arrowSize) /\
    (distanceTo end_ start = 0 ->
       distanceTo (arrow1Point1 G) (startPoint D) = 0 /\
       distanceTo (arrow1Point2 G) (startPoint D) = 0 /\
       distanceTo (arrow2Point1 G) (endPoint D) = 0 /\
       distanceTo (arrow2Point2 G) (endPoint D) = 0).
Proof.
  intros start end_ offset offsetDirection arrowSize extensionLineOffset G D.
  unfold G, D, DimensionLineGeometry, DimensionLine. cbv zeta.
  cbn [arrow1Point1 arrow1Point2 arrow2Point1 arrow2Point2 startPoint endPoint].
  set (offsetVec := multiplyScalar (normalize offsetDirection) offset).
  set (v := subVectors (add end_ offsetVec) (add start offsetVec)).
  assert (Hv : Vector3_length v = distanceTo end_ start).
  { unfold v, subVectors. rewrite <- distanceTo_length. apply distanceTo_add. }
  rewrite !distanceTo_add_to, !length_multiplyScalar,
    !length_applyAxisAngleZ, !length_negate.
  split; intros Hd.
  - rewrite normalize_unit by (rewrite Hv; exact Hd).
    repeat split; ring.
  - rewrite normalize_zero by (rewrite Hv; exact Hd).
    rewrite Hv, Hd. repeat split; ring.
Qed.

Lemma arrowheads_have_arrow_size_witness :
  let G := DimensionLineGeometry (mkV 0 0 0) (mkV 1 0 0) 0 (mkV 0 0 1) 0.04 0.03 in
  let D := DimensionLine (mkV 0 0 0) (mkV 1 0 0) 0 (mkV 0 0 1) in
  distanceTo (arrow1Point1 G) (startPoint D) = Rabs 0.04.
Proof.
  apply (proj1 (arrowheads_have_arrow_size (mkV 0 0 0) (mkV 1 0 0) 0 (mkV 0 0 1)
                  0.04 0.03)).
  unfold distanceTo, distanceToSquared. simpl.
  replace ((1 - 0) * (1 - 0) + (0 - 0) * (0 - 0) + (0 - 0) * (0 - 0)) with 1 by ring.
  rewrite sqrt_1. Lra.lra.
Defined.

End DimensionGeometryFacts.

(** ** What the report's numerals denote *)

Section ReportNumerals.

Import Exporter.
Local Open Scope string_scope.

Lemma length_append (a b : string) :
  String.length (a ++ b) = (String.length a + String.length b)%nat.
Proof.
  induction a as [| c a IH]; [reflexivity |].
  rewrite append_cons. simpl. rewrite IH. reflexivity.
Qed.

Lemma length_zeros (n : nat) : String.length (zeros n) = n.
Proof. induction n; simpl; auto. Qed.

Lemma substring_split (s : string) :
  forall n, (n <= String.length s)%nat ->
    substring 0 n s ++ substring n (String.length s - n) s = s /\
    String.length (substring 0 n s) = n /\
    String.length (substring n (String.length s - n) s) = (String.length s - n)%nat.
Proof.
  induction s as [| c s IH]; intros n Hn.
  - simpl in Hn. assert (n = 0)%nat by lia. subst. simpl. auto.
  - destruct n as [| n].
    + simpl. destruct (IH 0%nat ltac:(lia)) as (H1 & H2 & H3).
      rewrite Nat.sub_0_r in *.
      assert (E : substring 0 0 s = "") by (destruct s; reflexivity).
      rewrite E in H1. rewrite append_nil_l in H1.
      rewrite H1. split; [reflexivity |]. split; [reflexivity |]. reflexivity.
    + simpl in Hn. destruct (IH n ltac:(lia)) as (H1 & H2 & H3).
      simpl String.length. simpl substring. rewrite append_cons.
      simpl String.length. rewrite H1, H2, H3. auto.
Qed.

Lemma uint_of_zeros (j : nat) (s : string) (d : Decimal.uint) :
  NilEmpty.uint_of_string s = Some d ->
  exists d', NilEmpty.uint_of_string (zeros j ++ s) = Some d' /\
             N.of_uint d' = N.of_uint d.
Proof.
  intros H. induction j as [| j IH].
  - exists d. rewrite append_nil_l. auto.
  - destruct IH as (d' & H1 & H2). exists (Decimal.D0 d').
    simpl zeros. rewrite append_cons. simpl. rewrite H1. simpl. auto.
Qed.

Lemma string_of_N_value (n : N) :
  let m := NilZero.string_of_uint (N.to_uint n) in
  NilEmpty.uint_of_string m = Some (N.to_uint n) /\ (1 <= String.length m)%nat.
Proof.
  cbv zeta.
  assert (Hnn : N.to_uint n <> Decimal.Nil).
  { destruct n; [discriminate | apply Unsigned.to_uint_nonnil]. }
  assert (E : NilZero.string_of_uint (N.to_uint n) = NilEmpty.string_of_uint (N.to_uint n)).
  { unfold NilZero.string_of_uint. destruct (N.to_uint n); congruence. }
  rewrite E. split; [apply NilEmpty.usu |].
  destruct (N.to_uint n); simpl; try lia. congruence.
Qed.

Lemma scaledDigits_nearest (x : Q) (f : nat) :
  (0 <= scaledDigits x f)%Z /\
  Qabs x * inject_Z (10 ^ Z.of_nat f) - (1 # 2) < inject_Z (scaledDigits x f) /\
  inject_Z (scaledDigits x f) <= Qabs x * inject_Z (10 ^ Z.of_nat f) + (1 # 2).
Proof.
  unfold scaledDigits.
  set (y := Qabs x * inject_Z (10 ^ Z.of_nat f)).
  assert (Hy : 0 <= y).
  { unfold y. apply Qmult_le_0_compat; [apply Qabs_nonneg |].
    change 0 with (inject_Z 0). rewrite <- Zle_Qle. apply Z.pow_nonneg. lia. }
  pose proof (Qfloor_le (y + (1 # 2))) as H1.
  pose proof (Qlt_floor (y + (1 # 2))) as H2.
  rewrite inject_Z_plus in H2. change (inject_Z 1) with 1 in H2.
  split; [| split; lra].
  assert (H0 : inject_Z (-1) < inject_Z (Qfloor (y + (1 # 2)))).
  { change (inject_Z (-1)) with (-1). lra. }
  rewrite <- Zlt_Qlt in H0. lia.
Qed.

Lemma toFixed_shape :
  forall (x : Q) (f : nat),
    exists a b,
      toFixed x f =
        (if Qltb x 0 then "-" else "") ++ a
          ++ (match f with O => "" | _ => "." end) ++ b /\
      String.length b = f /\
      (1 <= String.length a)%nat /\
      decimalValue (a ++ b) = Some (Z.to_N (scaledDigits x f)).
Proof.
  intros x f. unfold toFixed. fold (scaledDigits x f).
  set (n := Z.to_N (scaledDigits x f)).
  destruct (string_of_N_value n) as [Hval Hlen].
  set (m := NilZero.string_of_uint (N.to_uint n)) in *.
  destruct f as [| f].
  - exists m, "". rewrite append_nil_l, !append_nil_r.
    split; [reflexivity |]. split; [reflexivity |]. split; [exact Hlen |].
    unfold decimalValue. rewrite Hval. simpl. f_equal.
    apply DecimalN.Unsigned.of_to.
  - set (j := if (String.length m <=? S f)%nat
              then (S f + 1 - String.length m)%nat else 0%nat).
    set (m' := if (String.length m <=? S f)%nat
               then zeros (S f + 1 - String.length m) ++ m else m).
    assert (Em' : m' = zeros j ++ m).
    { unfold m', j. destruct (String.length m <=? S f)%nat; reflexivity. }
    assert (Hk : (S f + 1 <= String.length m')%nat).
    { rewrite Em', length_append, length_zeros. unfold j.
      destruct (String.length m <=? S f)%nat eqn:E;
        [apply Nat.leb_le in E | apply Nat.leb_gt in E]; lia. }
    destruct (substring_split m' (String.length m' - S f)%nat ltac:(lia))
      as (H1 & H2 & H3).
    replace (String.length m' - (String.length m' - S f))%nat with (S f) in * by lia.
    exists (substring 0 (String.length m' - S f) m'),
           (substring (String.length m' - S f) (S f) m').
    split; [reflexivity |]. split; [exact H3 |]. split; [lia |].
    rewrite H1, Em'.
    destruct (uint_of_zeros j m _ Hval) as (d' & Hd1 & Hd2).
    unfold decimalValue. rewrite Hd1. simpl. f_equal. rewrite Hd2.
    apply DecimalN.Unsigned.of_to.
Qed.

(** X21: the report has 16 lines besides its two blocks, each block has
    one line per element and a single empty line when there is no element,
    and the report ends with an empty line after the timestamp. *)
Theorem report_line_count :
  forall (u : SpecUnit) (generated : string),
    oneLine (material u) = true -> oneLine generated = true ->
    List.length (lines (createDesignSpec u generated)) =
      (16 + Nat.max 1 (List.length (shelves u))
          + Nat.max 1 (List.length (columns u)))%nat /\
    (shelves u = [] -> nth_error (lines (createDesignSpec u generated)) 11 = Some "") /\
    (columns u = [] ->
       nth_error (lines (createDesignSpec u generated))
         (13 + Nat.max 1 (List.length (shelves u))) = Some "") /\
    List.last (lines (createDesignSpec u generated)) "x" = "".
Proof.
  intros u generated Hm Hg.
  rewrite (createDesignSpec_lines u generated Hm Hg).
  split; [| split; [| split]].
  - rewrite !length_app, !block_length, !length_imap. simpl. lia.
  - intros H. rewrite H. reflexivity.
  - intros H. rewrite H.
    rewrite nth_error_app2 by (simpl; lia).
    rewrite nth_error_app2 by (rewrite block_length, length_imap; simpl; lia).
    rewrite nth_error_app2 by (rewrite block_length, length_imap; simpl; lia).
    rewrite block_length, length_imap.
    replace (_ - _ - _ - _)%nat with 0%nat by (simpl; lia).
    reflexivity.
  - change [""; "Generated: " +:+ generated; ""]
      with ([""; "Generated: " +:+ generated] ++ [""])%list.
    rewrite !app_assoc. apply last_last.
Qed.

Lemma report_line_count_witness :
  List.length (lines basicReport) = (16 + Nat.max 1 1 + Nat.max 1 1)%nat.
Proof.
  apply (proj1 (report_line_count basicSnapshot "11/2/2026, 9:00:00 AM"
                  eq_refl eq_refl)).
Defined.

End ReportNumerals.

(** ** The thresholds on every binary64 number *)

(** X23: on IEEE doubles the cascade of comparisons gives between 1 and 5
    divisions for every drag distance whatsoever; a distance that is not a
    number gives 1 (every comparison with it is false), an infinite one
    gives 5, and so does a drag whose incoming position is not a number. *)
Theorem binary64_divisions_between_1_and_5 :
  (forall d : float, (1 <= Doubles.newDivisions d <= 5)%Z) /\
  Doubles.newDivisions PrimFloat.nan = 1%Z /\
  Doubles.newDivisions PrimFloat.infinity = 5%Z /\
  Doubles.newDivisions (Doubles.dragDistance PrimFloat.nan 0.5) = 1%Z /\
  Doubles.newDivisions (Doubles.dragDistance PrimFloat.neg_infinity 0.5) = 5%Z.
Proof.
  split; [| vm_compute; repeat split].
  intros d. unfold Doubles.newDivisions.
  destruct (PrimFloat.ltb 0.2 d); [lia |].
  destruct (PrimFloat.ltb 0.15 d); [lia |].
  destruct (PrimFloat.ltb 0.1 d); [lia |].
  destruct (PrimFloat.ltb 0.05 d); lia.
Qed.

(** ** Ids *)

Lemma map_removelast {A B : Type} (f : A -> B) (l : list A) :
  List.map f (removelast l) = removelast (List.map f l).
Proof.
  induction l as [| a l IH]; [reflexivity |].
  simpl. destruct l; [reflexivity |]. simpl in *. rewrite IH. reflexivity.
Qed.

Lemma In_removelast {A : Type} (l : list A) (x : A) :
  In x (removelast l) -> In x l.
Proof.
  induction l as [| a l IH]; intros H; [destruct H |].
  simpl in H. destruct l as [| b l]; [destruct H |].
  destruct H as [<- | H]; [left; reflexivity | right; apply IH, H].
Qed.

Lemma NoDup_removelast {A : Type} (l : list A) : List.NoDup l -> List.NoDup (removelast l).
Proof.
  induction l as [| a l IH]; intros H; [constructor |].
  inversion H as [| ? ? Ha Hl]; subst. simpl.
  destruct l as [| b l]; [constructor |].
  constructor; [| apply IH, Hl].
  intros Hin. apply Ha. apply In_removelast, Hin.
Qed.

Lemma NoDup_snoc {A : Type} (l : list A) (x : A) :
  List.NoDup l -> ~ In x l -> List.NoDup (l ++ [x]).
Proof.
  intros Hl Hx. induction Hl as [| a l Ha Hl IH]; simpl.
  - constructor; [intros [] | constructor].
  - constructor.
    + intros Hin. apply in_app_or in Hin. destruct Hin as [Hin | [<- | []]].
      * apply Ha, Hin.
      * apply Hx. left. reflexivity.
    + apply IH. intros Hin. apply Hx. right. exact Hin.
Qed.

Lemma layouts_ids_unique (layout : LayoutName) :
  List.NoDup (List.map shelf_id (LAYOUTS_shelves layout)) /\
  List.NoDup (List.map column_id (LAYOUTS_columns layout)).
Proof.
  destruct layout; split; simpl; repeat constructor; simpl;
    intuition discriminate.
Qed.

(** X24: the ids of the shelves and the ids of the columns stay pairwise
    different under every handler of [ShelvingUnitPro], provided the id
    that [addShelf] or [addColumn] builds from [Date.now()] is not in use
    yet; when it is in use (two additions with the same clock value) the
    list holds two elements with one id. *)
Theorem ids_stay_unique_with_fresh_clock :
  forall (st : ProState) (ev : ProEvent),
    idsUnique st -> freshFor st ev -> idsUnique (proStep st ev).
Proof.
  intros st ev [Hs Hc] Hf. unfold idsUnique.
  destruct ev; simpl in *; try (split; assumption).
  - split; [| exact Hc]. rewrite map_dragShelf_ids. exact Hs.
  - split; [exact Hs |]. rewrite map_dragColumn_ids. exact Hc.
  - split; [| exact Hc]. rewrite List.map_app. simpl.
    apply NoDup_snoc; assumption.
  - split; [exact Hs |]. rewrite List.map_app. simpl.
    apply NoDup_snoc; assumption.
  - unfold removeShelf.
    destruct (0 <? List.length (shelves (pro_unit st)))%nat; simpl;
      [| split; assumption].
    split; [| exact Hc]. unfold slice_0_m1. rewrite map_removelast.
    apply NoDup_removelast, Hs.
  - unfold removeColumn.
    destruct (0 <? List.length (columns (pro_unit st)))%nat; simpl;
      [| split; assumption].
    split; [exact Hs |]. unfold slice_0_m1. rewrite map_removelast.
    apply NoDup_removelast, Hc.
  - apply layouts_ids_unique.
  - apply (layouts_ids_unique basic).
Qed.

Lemma ids_stay_unique_with_fresh_clock_witness :
  idsUnique (proStep initialState (EvAddShelf 7)).
Proof.
  apply (ids_stay_unique_with_fresh_clock initialState (EvAddShelf 7)).
  - split; simpl; repeat constructor; simpl; intuition discriminate.
  - simpl. intros [H | []]. discriminate H.
Defined.

(** X25: two additions with the same clock value leave two shelves with
    one id, and a drag of that id then moves both of them to the same
    position. *)
Theorem same_clock_value_duplicates_an_id :
  forall (st : ProState) (now : Z) (p : Q),
    let st2 := addShelf (addShelf st now) now in
    let id := ("s" ++ string_of_Z now)%string in
    ~ idsUnique st2 /\
    exists a b,
      shelves (pro_unit st2) =
        shelves (pro_unit st) ++ [mkShelf id a 2; mkShelf id b 2] /\
      exists n m,
        shelves (pro_unit (handleShelfDrag st2 id p)) =
          List.map (dragShelf (dragStartPosition st) id p) (shelves (pro_unit st))
            ++ [mkShelf id p n; mkShelf id p m].
Proof.
  intros [u dsp] now p st2 id.
  assert (E : shelves (pro_unit st2) =
              shelves u ++ [mkShelf id (newPosition (sortNumbers (List.map shelf_position (shelves u)))) 2;
                            mkShelf id (newPosition (sortNumbers (List.map shelf_position
                               (shelves u ++ [mkShelf id (newPosition (sortNumbers (List.map shelf_position (shelves u)))) 2])))) 2]).
  { unfold st2, addShelf. simpl. rewrite <- app_assoc. reflexivity. }
  split.
  - intros [Hs _]. rewrite E, List.map_app in Hs. simpl in Hs.
    apply List.NoDup_remove_2 in Hs. apply Hs. apply in_or_app. right. left. reflexivity.
  - eexists. eexists. split; [exact E |].
    eexists. eexists.
    change (shelves (pro_unit (handleShelfDrag st2 id p)))
      with (List.map (dragShelf (dragStartPosition st2) id p) (shelves (pro_unit st2))).
    rewrite E, List.map_app. simpl List.map. unfold dragShelf at 2 3. simpl shelf_id.
    rewrite String.eqb_refl. reflexivity.
Qed.

(** ** Several samples of one gesture *)

Section GestureSamples64.

Import Doubles.
Local Open Scope float_scope.







End GestureSamples64.

(** ** The labels of the views on the values of the sliders *)

Section DimensionLabels64.

Import Doubles.
Local Open Scope float_scope.

(** The difference of a finite number with itself is 0. *)
Lemma double_sub_diag (x : float) : finite x = true -> x - x = 0.
Proof.
  unfold finite. intros H. apply Prim2SF_inj. rewrite sub_spec.
  destruct (Prim2SF x) as [s | s | | s m e]; try discriminate.
  - destruct s; reflexivity.
  - unfold SF64sub, SFsub. rewrite Z.sub_diag. reflexivity.
Qed.

(** A label between two anchors that differ in one coordinate does not
    depend on the other two, as long as these stay finite when moved. *)
Lemma label_along_x (sx ex y z y' z' offset : float) (dir : Vector3) :
  finite (y + vy (multiplyScalar (normalize dir) offset)) = true ->
  finite (z + vz (multiplyScalar (normalize dir) offset)) = true ->
  finite (y' + vy (multiplyScalar (normalize dir) offset)) = true ->
  finite (z' + vz (multiplyScalar (normalize dir) offset)) = true ->
  label (mkV sx y z) (mkV ex y z) offset dir =
  label (mkV sx y' z') (mkV ex y' z') offset dir.
Proof.
  intros H1 H2 H3 H4.
  unfold label, DimensionLine, displayValue, distanceTo, distanceToSquared, add.
  cbv zeta. cbn [vx vy vz].
  rewrite (double_sub_diag _ H1), (double_sub_diag _ H2),
          (double_sub_diag _ H3), (double_sub_diag _ H4).
  reflexivity.
Qed.

Lemma label_along_y (x sy ey z x' z' offset : float) (dir : Vector3) :
  finite (x + vx (multiplyScalar (normalize dir) offset)) = true ->
  finite (z + vz (multiplyScalar (normalize dir) offset)) = true ->
  finite (x' + vx (multiplyScalar (normalize dir) offset)) = true ->
  finite (z' + vz (multiplyScalar (normalize dir) offset)) = true ->
  label (mkV x sy z) (mkV x ey z) offset dir =
  label (mkV x' sy z') (mkV x' ey z') offset dir.
Proof.
  intros H1 H2 H3 H4.
  unfold label, DimensionLine, displayValue, distanceTo, distanceToSquared, add.
  cbv zeta. cbn [vx vy vz].
  rewrite (double_sub_diag _ H1), (double_sub_diag _ H2),
          (double_sub_diag _ H3), (double_sub_diag _ H4).
  reflexivity.
Qed.

Lemma label_along_z (x y sz ez x' y' offset : float) (dir : Vector3) :
  finite (x + vx (multiplyScalar (normalize dir) offset)) = true ->
  finite (y + vy (multiplyScalar (normalize dir) offset)) = true ->
  finite (x' + vx (multiplyScalar (normalize dir) offset)) = true ->
  finite (y' + vy (multiplyScalar (normalize dir) offset)) = true ->
  label (mkV x y sz) (mkV x y ez) offset dir =
  label (mkV x' y' sz) (mkV x' y' ez) offset dir.
Proof.
  intros H1 H2 H3 H4.
  unfold label, DimensionLine, displayValue, distanceTo, distanceToSquared, add.
  cbv zeta. cbn [vx vy vz].
  rewrite (double_sub_diag _ H1), (double_sub_diag _ H2),
          (double_sub_diag _ H3), (double_sub_diag _ H4).
  reflexivity.
Qed.

Lemma sameLabel_eq (a b : option Z) : sameLabel a b = true -> a = b.
Proof.
  destruct a as [x |], b as [y |]; simpl; try discriminate; [| reflexivity].
  intros H. apply Z.eqb_eq in H. congruence.
Qed.

(** Checking a fact on every value of a slider. *)
Lemma on_values (l : list float) (f : float -> bool) :
  forallb f l = true -> forall x, In x l -> f x = true.
Proof. intros H x Hx. exact (proj1 (forallb_forall f l) H x Hx). Qed.

Lemma on_values2 (l1 l2 : list float) (f : float -> float -> bool) :
  forallb (fun x => forallb (f x) l2) l1 = true ->
  forall x y, In x l1 -> In y l2 -> f x y = true.
Proof.
  intros H x y Hx Hy.
  exact (on_values l2 (f x) (on_values l1 _ H x Hx) y Hy).
Qed.

Ltac by_values x Hx l :=
  match goal with
  | |- ?b = true =>
      let f := eval pattern x in b in
      match f with
      | ?g _ => exact (on_values l g ltac:(vm_compute; reflexivity) x Hx)
      end
  end.

Ltac by_values2 x Hx l1 y Hy l2 :=
  match goal with
  | |- ?b = true =>
      let f := eval pattern x, y in b in
      match f with
      | ?g _ _ => exact (on_values2 l1 l2 g ltac:(vm_compute; reflexivity) x y Hx Hy)
      end
  end.

Section OnTheValues.

Variables w h d t : float.
Hypothesis Hw : In w widthValues.
Hypothesis Hh : In h heightValues.
Hypothesis Hd : In d depthValues.
Hypothesis Ht : In t thicknessValues.

Lemma labels_3d_on_values :
  DimensionLabels w h d t =
    [millimeters w; millimeters h; millimeters d; millimeters t].
Proof.
  unfold DimensionLabels. cbv zeta.
  f_equal; [| f_equal; [| f_equal; [| f_equal]]].
  - rewrite (label_along_x _ _ _ _ (- (2 / 2) - 0.1) (1 / 2)).
    + apply sameLabel_eq. by_values w Hw widthValues.
    + by_values h Hh heightValues.
    + by_values d Hd depthValues.
    + reflexivity.
    + reflexivity.
  - rewrite (label_along_y _ _ _ _ (3 / 2 + 0.1) (1 / 2)).
    + apply sameLabel_eq. by_values h Hh heightValues.
    + by_values w Hw widthValues.
    + by_values d Hd depthValues.
    + reflexivity.
    + reflexivity.
  - rewrite (label_along_z _ _ _ _ (3 / 2) (2 / 2 + 0.1)).
    + apply sameLabel_eq. by_values d Hd depthValues.
    + by_values w Hw widthValues.
    + by_values h Hh heightValues.
    + reflexivity.
    + reflexivity.
  - rewrite (label_along_x _ _ _ _ (- (2 / 2) + 0.2) (1 / 2 + 0.05)).
    + apply sameLabel_eq. by_values2 w Hw widthValues t Ht thicknessValues.
    + by_values h Hh heightValues.
    + by_values d Hd depthValues.
    + reflexivity.
    + reflexivity.
Qed.

Lemma labels_orthographic_on_values :
  OrthographicViews_labels w h d t =
    [millimeters w; millimeters d; millimeters t;
     millimeters w; millimeters h; millimeters t;
     millimeters d; millimeters h; millimeters t].
Proof.
  unfold OrthographicViews_labels. cbv zeta.
  f_equal; [| f_equal; [| f_equal; [| f_equal; [| f_equal; [| f_equal;
    [| f_equal; [| f_equal; [| f_equal]]]]]]]].
  - rewrite (label_along_x _ _ _ _ (1 / 2 + 0.2) 0).
    + apply sameLabel_eq. by_values w Hw widthValues.
    + by_values d Hd depthValues.
    + reflexivity.
    + reflexivity.
    + reflexivity.
  - rewrite (label_along_y _ _ _ _ (3 / 2 + 0.2) 0).
    + apply sameLabel_eq. by_values d Hd depthValues.
    + by_values w Hw widthValues.
    + reflexivity.
    + reflexivity.
    + reflexivity.
  - rewrite (label_along_x _ _ _ _ (- (1 / 2) - 0.1) 0).
    + apply sameLabel_eq. by_values2 w Hw widthValues t Ht thicknessValues.
    + by_values d Hd depthValues.
    + reflexivity.
    + reflexivity.
    + reflexivity.
  - rewrite (label_along_x _ _ _ _ (- (2 / 2) - 0.2) 0).
    + apply sameLabel_eq. by_values w Hw widthValues.
    + by_values h Hh heightValues.
    + reflexivity.
    + reflexivity.
    + reflexivity.
  - rewrite (label_along_y _ _ _ _ (3 / 2 + 0.2) 0).
    + apply sameLabel_eq. by_values h Hh heightValues.
    + by_values w Hw widthValues.
    + reflexivity.
    + reflexivity.
    + reflexivity.
  - rewrite (label_along_y _ _ _ _ (- (3 / 2)) 0).
    + apply sameLabel_eq. by_values2 h Hh heightValues t Ht thicknessValues.
    + by_values w Hw widthValues.
    + reflexivity.
    + reflexivity.
    + reflexivity.
  - rewrite (label_along_x _ _ _ _ (- (2 / 2) - 0.2) 0).
    + apply sameLabel_eq. by_values d Hd depthValues.
    + by_values h Hh heightValues.
    + reflexivity.
    + reflexivity.
    + reflexivity.
  - rewrite (label_along_y _ _ _ _ (1 / 2 + 0.2) 0).
    + apply sameLabel_eq. by_values h Hh heightValues.
    + by_values d Hd depthValues.
    + reflexivity.
    + reflexivity.
    + reflexivity.
  - rewrite (label_along_y _ _ _ _ (- (1 / 2)) 0).
    + apply sameLabel_eq. by_values2 h Hh heightValues t Ht thicknessValues.
    + by_values d Hd depthValues.
    + reflexivity.
    + reflexivity.
    + reflexivity.
Qed.

End OnTheValues.

(** X19: for every width, height, depth and thickness that the sliders
    and the thickness presets can put in the state, every label of the 3d
    view ([DimensionLabels]: width, height, depth, thickness) and of the
    three orthographic views ([OrthographicViews]: width, depth,
    thickness; width, height, thickness; depth, height, thickness) shows
    the millimeter value printed next to the slider of its dimension,
    [Math.round(dimension * 1000)], all computed in binary64.  Off these
    values the views can disagree: a thickness of 0.0125 is labelled 12 in
    the 3d view and in the top view and 13 in the front and side views. *)
Theorem labels_agree_with_the_slider_readouts :
  (forall w h d t,
     In w widthValues -> In h heightValues -> In d depthValues ->
     In t thicknessValues ->
     DimensionLabels w h d t =
       [millimeters w; millimeters h; millimeters d; millimeters t] /\
     OrthographicViews_labels w h d t =
       [millimeters w; millimeters d; millimeters t;
        millimeters w; millimeters h; millimeters t;
        millimeters d; millimeters h; millimeters t]) /\
  (List.length widthValues = 41%nat /\ List.length heightValues = 31%nat /\
   List.length depthValues = 16%nat /\ List.length thicknessValues = 21%nat) /\
  (In 1 widthValues /\ In 3 widthValues /\ In 5 widthValues /\
   In 1 heightValues /\ In 2 heightValues /\ In 4 heightValues /\
   In 0.5 depthValues /\ In 1 depthValues /\ In 2 depthValues /\
   In 0.01 thicknessValues /\ In 0.05 thicknessValues /\ In 0.2 thicknessValues /\
   In 0.06 thicknessValues /\ In 0.12 thicknessValues /\
   In 0.19 thicknessValues /\ In 0.25 thicknessValues) /\
  millimeters 0.0125 = Some 13%Z /\
  DimensionLabels 3 2 1 0.0125 =
    [Some 3000; Some 2000; Some 1000; Some 12]%Z /\
  OrthographicViews_labels 3 2 1 0.0125 =
    [Some 3000; Some 1000; Some 12; Some 3000; Some 2000; Some 13;
     Some 1000; Some 2000; Some 13]%Z.
Proof.
  split; [| split; [| split; [| split; [| split]]]].
  - intros w h d t Hw Hh Hd Ht. split.
    + apply labels_3d_on_values; assumption.
    + apply labels_orthographic_on_values; assumption.
  - vm_compute. repeat split.
  - vm_compute. repeat split; auto 60.
  - vm_compute. reflexivity.
  - vm_compute. reflexivity.
  - vm_compute. reflexivity.
Qed.

Lemma labels_agree_with_the_slider_readouts_witness :
  (In 3 widthValues /\ In 2 heightValues /\ In 1 depthValues /\
   In 0.05 thicknessValues) /\
  DimensionLabels 3 2 1 0.05 =
    [millimeters 3; millimeters 2; millimeters 1; millimeters 0.05] /\
  DimensionLabels 3 2 1 0.05 = [Some 3000; Some 2000; Some 1000; Some 50]%Z.
Proof.
  assert (H : In 3 widthValues /\ In 2 heightValues /\ In 1 depthValues /\
              In 0.05 thicknessValues)
    by (vm_compute; repeat split; auto 60).
  split; [exact H |]. split; [| vm_compute; reflexivity].
  destruct H as (Hw & Hh & Hd & Ht).
  exact (proj1 (proj1 labels_agree_with_the_slider_readouts 3 2 1 0.05
                  Hw Hh Hd Ht)).
Defined.

End DimensionLabels64.

(** ** The percentage of a shelf or column line *)

Section ReportPercent64.

Import Doubles.
Local Open Scope float_scope.

Lemma below_bound_finite (x c : float) : (abs x <? c) = true -> finite x = true.
Proof.
  rewrite ltb_spec, abs_spec. unfold finite.
  destruct (Prim2SF x) as [s | s | | s m e]; simpl; try reflexivity.
  - destruct (Prim2SF c) as [? | [|] | | [|] ? ?]; discriminate.
  - discriminate.
Qed.

Lemma finite_tests (x : float) :
  finite x = true ->
  (x =? x) = true /\ (x =? infinity) = false /\ (x =? neg_infinity) = false.
Proof.
  unfold finite. rewrite !FloatAxioms.eqb_spec.
  change (Prim2SF infinity) with (S754_infinity false).
  change (Prim2SF neg_infinity) with (S754_infinity true).
  destruct (Prim2SF x) as [s | s | | s m e]; try discriminate; intros _.
  - repeat split; destruct s; reflexivity.
  - repeat split; try (destruct s; reflexivity).
    unfold SFeqb, SFcompare.
    rewrite Z.compare_refl.
    change (Pos.compare_cont Eq m m) with (Pos.compare m m).
    rewrite Pos.compare_refl. destruct s; reflexivity.
Qed.

Lemma toFixed_below_1e21 (x : float) (f : nat) :
  (abs x <? 1e21) = true ->
  exists q, exactQ x = Some q /\ toFixed x f = Some (Exporter.toFixed q f).
Proof.
  intros H. pose proof (below_bound_finite _ _ H) as Hf.
  destruct (proj2 (exactQ_finite x) Hf) as [q Hq].
  destruct (finite_tests x Hf) as (H1 & H2 & H3).
  exists q. split; [exact Hq |].
  unfold toFixed. rewrite H1, H2, H3, H, Hq. reflexivity.
Qed.

(** X22: for an element whose position times 100, as binary64 computes
    it, is below 10^21 in absolute value, the line of the report reads
    "... Position N% ..." where N is "-" for a negative product followed
    by the numeral of the integer nearest to the exact absolute value of
    that binary64 product (the larger one on a tie), and then the division
    count of the element.  The product is rounded before the digits are
    taken: 0.575 and 0.145 print 57 and 14, 0.015 and 0.825 print 2 and
    83. *)
Theorem report_percent_is_nearest :
  (forall (i : nat) (shelf : Shelf),
     (abs (shelf_position shelf * 100) <? 1e21) = true ->
     exists digits n q,
       shelfLine i shelf =
         Some ("Shelf " ++ Exporter.string_of_nat (i + 1) ++ ": Position "
                 ++ (if Qltb q 0 then "-" else "") ++ digits
                 ++ "% from bottom, "
                 ++ string_of_Z (shelf_divisions shelf) ++ " divisions")%string /\
       exactQ (shelf_position shelf * 100) = Some q /\
       Exporter.decimalValue digits = Some n /\
       (Qabs q - (1 # 2) < inject_Z (Z.of_N n))%Q /\
       (inject_Z (Z.of_N n) <= Qabs q + (1 # 2))%Q) /\
  (forall (i : nat) (column : Column),
     (abs (column_position column * 100) <? 1e21) = true ->
     exists digits n q,
       columnLine i column =
         Some ("Column " ++ Exporter.string_of_nat (i + 1) ++ ": Position "
                 ++ (if Qltb q 0 then "-" else "") ++ digits
                 ++ "% from left, "
                 ++ string_of_Z (column_divisions column) ++ " divisions")%string /\
       exactQ (column_position column * 100) = Some q /\
       Exporter.decimalValue digits = Some n /\
       (Qabs q - (1 # 2) < inject_Z (Z.of_N n))%Q /\
       (inject_Z (Z.of_N n) <= Qabs q + (1 # 2))%Q) /\
  List.map (fun p => toFixed (p * 100) 0) [0.575; 0.145; 0.015; 0.825; 0.5; 1] =
    [Some "57"; Some "14"; Some "2"; Some "83"; Some "50"; Some "100"]%string /\
  [0.575 * 100; 0.145 * 100; 0.015 * 100; 0.825 * 100] =
    [57.49999999999999; 14.499999999999998; 1.5; 82.5].
Proof.
  assert (K : forall x, (abs x <? 1e21) = true ->
            exists digits n q,
              toFixed x 0 = Some ((if Qltb q 0 then "-" else "") ++ digits)%string /\
              exactQ x = Some q /\
              Exporter.decimalValue digits = Some n /\
              (Qabs q - (1 # 2) < inject_Z (Z.of_N n))%Q /\
              (inject_Z (Z.of_N n) <= Qabs q + (1 # 2))%Q).
  { intros x Hx. destruct (toFixed_below_1e21 x 0 Hx) as (q & Hq & Ht).
    destruct (toFixed_shape q 0) as (a & b & Hs & Hb & _ & Hv).
    assert (Eb : b = ""%string) by (destruct b; [reflexivity | discriminate]).
    subst b. rewrite append_nil_l, append_nil_r in *.
    destruct (scaledDigits_nearest q 0) as (Hn0 & Hn1 & Hn2).
    change (inject_Z (10 ^ Z.of_nat 0)) with 1%Q in *.
    exists a, (Z.to_N (Exporter.scaledDigits q 0)), q.
    rewrite Ht, Hs. split; [reflexivity |]. split; [exact Hq |].
    split; [exact Hv |].
    rewrite Z2N.id by exact Hn0. split; lra. }
  split; [| split; [| split; vm_compute; reflexivity]].
  - intros i shelf H. destruct (K _ H) as (digits & n & q & Ht & Hq & Hv & Hn).
    exists digits, n, q. unfold shelfLine. rewrite Ht. simpl.
    rewrite append_assoc.
    split; [reflexivity |]. split; [exact Hq |]. split; [exact Hv | exact Hn].
  - intros i column H. destruct (K _ H) as (digits & n & q & Ht & Hq & Hv & Hn).
    exists digits, n, q. unfold columnLine. rewrite Ht. simpl.
    rewrite append_assoc.
    split; [reflexivity |]. split; [exact Hq |]. split; [exact Hv | exact Hn].
Qed.

Lemma report_percent_is_nearest_witness :
  (abs (0.575 * 100) <? 1e21) = true /\
  shelfLine 0 (mkShelf "s1" 0.575 2) =
    Some "Shelf 1: Position 57% from bottom, 2 divisions"%string /\
  exists digits n q,
    shelfLine 0 (mkShelf "s1" 0.575 2) =
      Some ("Shelf " ++ Exporter.string_of_nat (0 + 1) ++ ": Position "
              ++ (if Qltb q 0 then "-" else "") ++ digits
              ++ "% from bottom, " ++ string_of_Z 2 ++ " divisions")%string /\
    exactQ (0.575 * 100) = Some q /\
    Exporter.decimalValue digits = Some n /\
    (Qabs q - (1 # 2) < inject_Z (Z.of_N n))%Q /\
    (inject_Z (Z.of_N n) <= Qabs q + (1 # 2))%Q.
Proof.
  split; [reflexivity |]. split; [vm_compute; reflexivity |].
  exact (proj1 report_percent_is_nearest 0%nat (mkShelf "s1" 0.575 2) eq_refl).
Defined.

End ReportPercent64.
